(** * pymap: the MIME content parser, the dict backend and the demo message

    A shallow embedding of [pymap/mime/__init__.py],
    [pymap/backend/dict/__init__.py] and [pymap/demo/message.py].

    Python [int]s are [Z]; [bytes] objects are [list byte]; a [memoryview]
    slice is represented by the bytes it shows; [str] is [string]; a [dict]
    is a [gmap]; in the parser [None] stands for a raised exception, in the
    backend a [Result] names the exception. *)

From Stdlib Require Import ZArith Lia Strings.Byte Strings.String Strings.Ascii.
From stdpp Require Import base option list gmap strings.

Abbreviation bytes := (list byte).

#[global] Instance byte_eq_dec : EqDecision byte := Byte.byte_eq_dec.
#[global] Program Instance byte_countable : Countable byte :=
  inj_countable Byte.to_N Byte.of_N _.
Next Obligation. exact Byte.of_to_N. Qed.

(** ** The Python built-ins the sources rely on *)
Module Py.

(** [len(data)] *)
Definition len {A} (l : list A) : Z := Z.of_nat (length l).

(** How a slice bound is clamped: a negative bound counts from the end. *)
Definition norm_index (n i : Z) : Z :=
  if (i <? 0)%Z then Z.max 0 (i + n) else Z.min i n.

(** [data[a:b]] *)
Definition slice {A} (data : list A) (a b : Z) : list A :=
  let a' := norm_index (len data) a in
  let b' := norm_index (len data) b in
  take (Z.to_nat (b' - a')) (drop (Z.to_nat a') data).

(** [data[i]]; [None] stands for [IndexError]. *)
Definition getitem {A} (data : list A) (i : Z) : option A :=
  let i' := if (i <? 0)%Z then (i + len data)%Z else i in
  if (i' <? 0)%Z then None else data !! Z.to_nat i'.

(** [c in chars] for a byte [c] and a bytes object [chars]. *)
Definition contains (chars : bytes) (c : byte) : bool :=
  existsb (Byte.eqb c) chars.

(** Position of the first element satisfying [P]. *)
Fixpoint index_where {A} (P : A -> bool) (l : list A) : option nat :=
  match l with
  | [] => None
  | x :: l' => if P x then Some O else S <$> index_where P l'
  end.

(** [data.find(bytes([c]), start, end)]: the lowest index in
    [data[start:end]] holding [c], or [-1]. *)
Definition find (data : bytes) (c : byte) (start end_ : Z) : Z :=
  match index_where (Byte.eqb c) (slice data start end_) with
  | Some k => (norm_index (len data) start + Z.of_nat k)%Z
  | None => (-1)%Z
  end.

(** The bytes [bytes.strip()] removes: space, tab, LF, CR, VT, FF. *)
Definition is_space (c : byte) : bool :=
  contains [x20; x09; x0a; x0d; x0b; x0c] c.

Fixpoint lstrip (s : bytes) : bytes :=
  match s with
  | [] => []
  | c :: s' => if is_space c then lstrip s' else s
  end.

Definition rstrip (s : bytes) : bytes := reverse (lstrip (reverse s)).

(** [s.strip()] *)
Definition strip (s : bytes) : bytes := rstrip (lstrip s).

(** [s.lower()]: the ASCII letters [A-Z] are mapped to [a-z]. *)
Definition lower_byte (c : byte) : byte :=
  let n := Byte.to_N c in
  if ((65 <=? n) && (n <=? 90))%N
  then default c (Byte.of_N (n + 32)) else c.

Definition lower (s : bytes) : bytes := map lower_byte s.

(** [ret[-1].append(x)] on a list of lists; the callers guard it with
    [if ret]. *)
Fixpoint append_to_last {A} (ret : list (list A)) (x : A)
    : list (list A) :=
  match ret with
  | [] => []
  | [g] => [g ++ [x]]
  | g :: ret' => g :: append_to_last ret' x
  end.

(** A [for] loop that threads a state and may raise. *)
Fixpoint for_ {A S} (l : list A) (body : S -> A -> option S) (s : S)
    : option S :=
  match l with
  | [] => Some s
  | x :: l' => s' ← body s x; for_ l' body s'
  end.

(** [stream.readline()] on the bytes still unread: the line with its LF
    (or all that is left), and the rest. *)
Fixpoint readline (s : bytes) : bytes * bytes :=
  match s with
  | [] => ([], [])
  | c :: s' =>
      if bool_decide (c = x0a) then ([c], s')
      else let '(line, rest) := readline s' in (c :: line, rest)
  end.

(** [s.split()]: the maximal runs of bytes that are not whitespace;
    [cur] is the run being read. *)
Fixpoint split_from (cur : bytes) (s : bytes) : list bytes :=
  match s with
  | [] => match cur with [] => [] | _ => [cur] end
  | c :: s' =>
      if is_space c then
        match cur with
        | [] => split_from [] s'
        | _ => cur :: split_from [] s'
        end
      else split_from (cur ++ [c]) s'
  end.

Definition split (s : bytes) : list bytes := split_from [] s.

(** [sorted(names)] for a list of [str]. *)
Fixpoint insert_sorted (x : string) (l : list string) : list string :=
  match l with
  | [] => [x]
  | y :: l' =>
      if String.leb x y then x :: l else y :: insert_sorted x l'
  end.

Definition sorted (l : list string) : list string :=
  foldr insert_sorted [] l.

(** [name.startswith(p)] *)
Definition startswith (name p : string) : bool := String.prefix p name.

(** [os.path.join(a, b)] on a POSIX system. *)
Definition path_join (a p : string) : string :=
  if startswith p "/" then p
  else if bool_decide (a = "")
          || bool_decide (String.get (String.length a - 1) a = Some "/"%char)
  then (a +:+ p) else (a +:+ "/" +:+ p).

(** [bytearray(n)]: [n] zero bytes; [None] stands for [ValueError]. *)
Definition bytearray (n : Z) : option bytes :=
  if (n <? 0)%Z then None else Some (replicate (Z.to_nat n) x00).

(** [ret[a:b] = v] on a bytearray: the bounds are clamped as for a slice,
    an end before the start counts as the start, and the bytes between are
    replaced by [v], of whatever length. *)
Definition setslice (ret : bytes) (a c : Z) (v : bytes) : bytes :=
  let a' := norm_index (len ret) a in
  let c' := Z.max a' (norm_index (len ret) c) in
  take (Z.to_nat a') ret ++ v ++ drop (Z.to_nat c') ret.

(** [sum(...)] of Python [int]s. *)
Definition sum (l : list Z) : Z := foldr Z.add 0%Z l.

(** A bytes literal written as a string. *)
Definition b (s : string) : bytes := String.list_byte_of_string s.

End Py.

Abbreviation Line := (Z * Z * Z)%type.
Abbreviation Lines := (list Line).

(** ** [pymap/mime/_util.py] *)
Module _util.

(** Modelled from the spec: [find_any(data, chars, start, end, if_in,
    reverse)] of [_util.py], which is not among the sources.  It is the
    test behind "empty or whitespace-only" (4.1, step 2): the index of the
    first byte of [data[start:end]] (the last one when [reverse]) whose
    membership in [chars] equals [if_in], or [-1] when there is none. *)
Definition find_any (data chars : bytes) (start end_ : Z)
    (if_in reverse : bool) : Z :=
  let window := Py.slice data start end_ in
  let hit c := Bool.eqb (Py.contains chars c) if_in in
  let base := Py.norm_index (Py.len data) start in
  if reverse then
    match Py.index_where hit (rev window) with
    | Some k => (base + Py.len window - 1 - Z.of_nat k)%Z
    | None => (-1)%Z
    end
  else
    match Py.index_where hit window with
    | Some k => (base + Z.of_nat k)%Z
    | None => (-1)%Z
    end.

(** The start of the first line of the first group and the start of the
    line after the last line of the last group. *)
Definition span (line_groups : list Lines) : option (Z * Z) :=
  match head line_groups, last line_groups with
  | Some first_group, Some last_group =>
      match head first_group, last last_group with
      | Some (start, _, _), Some (_, _, next_start) =>
          Some (start, next_start)
      | _, _ => None
      end
  | _, _ => None
  end.

(** Modelled from the spec: [get_raw(data, *line_groups)] of [_util.py],
    which is not among the sources.  It gives the "raw byte view" (3) of
    the line groups it is given: the bytes from the start of the first line
    of the first group up to the start of the line after the last line of
    the last group, so that the raw header ends with its terminating blank
    line (8, scenario 3).  Where the first or the last group has no line
    there is no such line, and the view is empty. *)
Definition get_raw (data : bytes) (line_groups : list Lines) : bytes :=
  match span line_groups with
  | Some (start, stop) => Py.slice data start stop
  | None => []
  end.

End _util.

(** ** The data model of [pymap/mime/__init__.py] *)

(** [email.headerregistry.ContentTypeHeader], as far as the parser reads it. *)
Record ContentTypeHeader := {
  maintype : string;
  subtype : string;
  params : gmap string string
}.

(** [SMTP.header_fetch_parse('Content-Type', 'text/plain')] *)
Definition _default_type : ContentTypeHeader :=
  {| maintype := "text"; subtype := "plain"; params := ∅ |}.

(** [_Headers]: lowercased name to its value groups, each the views of the
    lines of one folded header. *)
Abbreviation Headers := (gmap bytes (list (list bytes))).

(** [_Folded] *)
Abbreviation Folded := (list (bytes * bytes)).

(** [pymap/mime/parsed.py] *)
Module ParsedHeaders.

(** [ParsedHeaders(headers)] keeps the index and parses on demand. *)
Record t := { headers : Headers }.

(** Modelled from the spec: the [content_type] property of
    [ParsedHeaders], which is not among the sources.  "Read
    [Content-Type]; default to [text/plain] when absent or unparseable"
    (4.1, step 4): the first [content-type] value group, handed to the
    header parser of the [email] package, and [None] when there is no such
    header or it does not parse. *)
Definition content_type
    (header_fetch_parse : list bytes -> option ContentTypeHeader)
    (p : t) : option ContentTypeHeader :=
  match headers p !! Py.b "content-type" with
  | Some (value :: _) => header_fetch_parse value
  | _ => None
  end.

End ParsedHeaders.

Module MessageHeader.

Record t := {
  raw : bytes;
  lines : Z;
  folded : Folded;
  parsed : ParsedHeaders.t
}.

Section whitespace.
Variable whitespace : bytes.

(** The body of the loop of [_find_folds]. *)
Definition _find_folds_step (data : bytes) (ret : list Lines)
    (line : Line) : option (list Lines) :=
  let '(start, end_, _) := line in
  let length := (end_ - start)%Z in
  if (length >=? 1)%Z then
    c ← Py.getitem data start;
    if Py.contains whitespace c then Some (Py.append_to_last ret line)
    else Some (ret ++ [[line]])
  else Some (ret ++ [[line]]).

Definition _find_folds (data : bytes) (lines : Lines)
    : option (list Lines) :=
  match lines with
  | [] => Some []
  | _ =>
      Py.for_ (Py.slice lines 0 (Py.len lines - 1))
        (_find_folds_step data) []
  end.

(** The body of the loop of [_parse_headers], on the pair
    [(headers, folded)]. *)
Definition _parse_headers_step (data : bytes) (st : Headers * Folded)
    (group : Lines) : option (Headers * Folded) :=
  let '(headers, folded) := st in
  '(start, end_, _) ← head group;
  let colon := Py.find data ":"%byte start end_ in
  if (colon <? 0)%Z then Some st
  else
    let name := Py.lower (Py.strip (Py.slice data start colon)) in
    let values := default [] (headers !! name) in
    let value := map (λ '(start, end_, _), Py.slice data start end_) group in
    Some (<[name := values ++ [value]]> headers,
          folded ++ [(name, _util.get_raw data [group])]).

Definition _parse_headers (data : bytes) (folds : list Lines)
    : option (Folded * ParsedHeaders.t) :=
  '(headers, folded) ← Py.for_ folds (_parse_headers_step data) (∅, []);
  Some (folded, {| ParsedHeaders.headers := headers |}).

Definition _parse (data : bytes) (lines : Lines) : option t :=
  folds ← _find_folds data lines;
  '(folded, parsed) ← _parse_headers data folds;
  let raw := _util.get_raw data [lines] in
  Some {| raw := raw; lines := Py.len lines;
          folded := folded; parsed := parsed |}.

End whitespace.

(** The body of the loop of [_join_group], on the pair [(ret, current)]. *)
Definition _join_group_step (data : bytes) (st : bytes * Z) (line : Line)
    : bytes * Z :=
  let '(ret, current) := st in
  let '(start, end_, _) := line in
  let current_end := (current + (end_ - start))%Z in
  (Py.setslice ret current current_end (Py.slice data start end_),
   current_end).

Definition _join_group (data : bytes) (group : Lines) (colon : Z)
    : option bytes :=
  '(first_start, first_end, _) ← head group;
  let value_offset := (colon - first_start + 1)%Z in
  let length :=
    Py.sum (map (λ '(start, end_, _), (end_ - start)%Z) group) in
  ret ← Py.bytearray (length - value_offset);
  let current := (first_end - value_offset)%Z in
  let ret := Py.setslice ret 0 current (Py.slice data (colon + 1) first_end) in
  Some (foldl (_join_group_step data) (ret, current) (tail group)).1.

End MessageHeader.

Inductive MessageContent : Type :=
  | Content (raw : bytes) (lines : Z) (header : MessageHeader.t)
      (body : MessageBody)
with MessageBody : Type :=
  | _MultipartBody (raw : bytes) (lines : Z)
      (content_type : ContentTypeHeader) (_nested : list MessageContent)
  | _RFC822Body (raw : bytes) (lines : Z)
      (content_type : ContentTypeHeader) (_nested : list MessageContent)
  | _SinglepartBody (raw : bytes) (lines : Z)
      (content_type : ContentTypeHeader).

(** The attributes of [MessageContent]. *)
Module Attr.

Definition raw (c : MessageContent) : bytes :=
  let 'Content raw _ _ _ := c in raw.
Definition lines (c : MessageContent) : Z :=
  let 'Content _ lines _ _ := c in lines.
Definition header (c : MessageContent) : MessageHeader.t :=
  let 'Content _ _ header _ := c in header.
Definition body (c : MessageContent) : MessageBody :=
  let 'Content _ _ _ body := c in body.

End Attr.

Module _SinglepartBody.

Definition _parse_body (data : bytes) (lines : Lines)
    (content_type : ContentTypeHeader) : option MessageBody :=
  let raw := _util.get_raw data [lines] in
  Some (_SinglepartBody raw (Py.len lines) content_type).

End _SinglepartBody.

Module _RFC822Body.

(** [__init__(subpart, content_type)] *)
Definition __init__ (subpart : MessageContent)
    (content_type : ContentTypeHeader) : MessageBody :=
  _RFC822Body (Attr.raw subpart) (Attr.lines subpart) content_type
    [subpart].

(** [_parse_body]; [MessageContent_parse] is [MessageContent._parse], the
    recursive call. *)
Definition _parse_body
    (MessageContent_parse : bytes -> Lines -> option MessageContent)
    (data : bytes) (lines : Lines) (content_type : ContentTypeHeader)
    : option MessageBody :=
  subpart ← MessageContent_parse data lines;
  Some (__init__ subpart content_type).

End _RFC822Body.

Module _MultipartBody.

(** The loop of [_find_parts]; it returns when the loop breaks. *)
Fixpoint _find_parts_loop (data : bytes) (part_match stop_match : list bytes)
    (lines : Lines) (ret : list Lines) : list Lines :=
  match lines with
  | [] => ret
  | line :: lines' =>
      let '(start, end_, _) := line in
      let line_view := Py.slice data start end_ in
      if existsb (λ m, bool_decide (line_view = m)) stop_match then ret
      else if existsb (λ m, bool_decide (line_view = m)) part_match then
        _find_parts_loop data part_match stop_match lines' (ret ++ [[]])
      else
        match ret with
        | [] => _find_parts_loop data part_match stop_match lines' ret
        | _ =>
            _find_parts_loop data part_match stop_match lines'
              (Py.append_to_last ret line)
        end
  end.

Definition _find_parts (data : bytes) (lines : Lines) (boundary : bytes)
    : list Lines :=
  let part_match := [Py.b "--" ++ boundary; Py.b "--" ++ boundary] in
  let stop_match := [Py.b "--" ++ boundary ++ Py.b "--";
                     Py.b "--" ++ boundary ++ Py.b "--"] in
  _find_parts_loop data part_match stop_match lines [].

Definition _parse_body
    (MessageContent_parse : bytes -> Lines -> option MessageContent)
    (data : bytes) (lines : Lines) (content_type : ContentTypeHeader)
    (boundary : bytes) : option MessageBody :=
  let parts := _find_parts data lines boundary in
  nested ← Py.for_ parts
    (λ nested part_lines,
       sub_content ← MessageContent_parse data part_lines;
       Some (nested ++ [sub_content])) [];
  let raw := _util.get_raw data [lines] in
  Some (_MultipartBody raw (Py.len lines) content_type nested).

End _MultipartBody.

Module MessageBody.

Definition raw (b : MessageBody) : bytes :=
  match b with
  | _MultipartBody raw _ _ _ | _RFC822Body raw _ _ _
  | _SinglepartBody raw _ _ => raw
  end.

Definition lines (b : MessageBody) : Z :=
  match b with
  | _MultipartBody _ lines _ _ | _RFC822Body _ lines _ _
  | _SinglepartBody _ lines _ => lines
  end.

Definition content_type (b : MessageBody) : ContentTypeHeader :=
  match b with
  | _MultipartBody _ _ ct _ | _RFC822Body _ _ ct _
  | _SinglepartBody _ _ ct => ct
  end.

(** [has_nested], as each of the three subclasses overrides it. *)
Definition has_nested (b : MessageBody) : bool :=
  match b with
  | _MultipartBody _ _ _ _ => true
  | _RFC822Body _ _ _ _ => true
  | _SinglepartBody _ _ _ => false
  end.

(** [nested], as each of the three subclasses overrides it. *)
Definition nested (b : MessageBody) : list MessageContent :=
  match b with
  | _MultipartBody _ _ _ _nested => _nested
  | _RFC822Body _ _ _ _nested => _nested
  | _SinglepartBody _ _ _ => []
  end.

(** [boundary.encode('ascii')]; [None] stands for [UnicodeError]. *)
Definition encode_ascii (s : string) : option bytes :=
  mapM (λ c : ascii,
          if (N_of_ascii c <? 128)%N then Some (byte_of_ascii c) else None)
       (list_ascii_of_string s).

Definition _get_boundary (content_type : ContentTypeHeader)
    : option bytes :=
  match params content_type !! "boundary" with
  | None => None
  | Some boundary =>
      if bool_decide (boundary ≠ "") then
        match encode_ascii boundary with
        | Some encoded => Some encoded
        | None => None
        end
      else None
  end.

Definition _parse
    (MessageContent_parse : bytes -> Lines -> option MessageContent)
    (data : bytes) (lines : Lines)
    (content_type : option ContentTypeHeader) : option MessageBody :=
  let content_type := default _default_type content_type in
  let maintype := maintype content_type in
  let singlepart := _SinglepartBody._parse_body data lines content_type in
  if bool_decide (maintype = "multipart") then
    match _get_boundary content_type with
    | Some boundary =>
        if bool_decide (boundary ≠ []) then
          _MultipartBody._parse_body MessageContent_parse data lines
            content_type boundary
        else singlepart
    | None => singlepart
    end
  else if bool_decide (maintype = "message")
          && bool_decide (subtype content_type = "rfc822") then
    _RFC822Body._parse_body MessageContent_parse data lines content_type
  else singlepart.

End MessageBody.

Module MessageContent.

(** [walk]; the sequence it yields, as a list.  The recursion goes through
    the body's constructor, which is what [has_nested] and [nested]
    dispatch on. *)
Fixpoint walk (self : MessageContent) : list MessageContent :=
  match self with
  | Content _ _ _ body =>
      match body with
      | _MultipartBody _ _ _ nested | _RFC822Body _ _ _ nested =>
          self :: concat (List.map walk nested)
      | _SinglepartBody _ _ _ => [self]
      end
  end.

(** The [while True] loop of [_find_lines]; [fuel] bounds its rounds. *)
Fixpoint _find_lines_loop (fuel : nat) (data : bytes) (start end_ : Z)
    (ret : Lines) : option Lines :=
  match fuel with
  | O => None
  | S fuel' =>
      let idx := Py.find data x0a start end_ in
      if (idx <? 0)%Z then Some (ret ++ [(start, end_, end_)])
      else
        let next_start := (idx + 1)%Z in
        let idx_minus_1 := (idx - 1)%Z in
        is_cr ←
          (if (idx_minus_1 >=? start)%Z
           then c ← Py.getitem data idx_minus_1; Some (bool_decide (c = x0d))
           else Some false);
        let idx := if is_cr : bool then idx_minus_1 else idx in
        _find_lines_loop fuel' data next_start end_
          (ret ++ [(start, idx, next_start)])
  end.

Definition _find_lines (data : bytes) : option Lines :=
  let start := 0%Z in
  let end_ := Py.len data in
  _find_lines_loop (S (length data)) data start end_ [].

Section parameters.
Variable whitespace : bytes.
Variable header_fetch_parse : list bytes -> option ContentTypeHeader.

(** The loop of [_split_lines] from index [i] on; [rest] holds the lines
    not yet visited. *)
Fixpoint _split_lines_loop (data : bytes) (lines : Lines) (i : Z)
    (rest : Lines) : Lines * Lines :=
  match rest with
  | [] => ([], lines)
  | line :: rest' =>
      let '(start, end_, _) := line in
      let ws_end := _util.find_any data whitespace start end_ false false in
      if (ws_end <? 0)%Z then
        (Py.slice lines 0 (i + 1), Py.slice lines (i + 1) (Py.len lines))
      else _split_lines_loop data lines (i + 1) rest'
  end.

Definition _split_lines (data : bytes) (lines : Lines) : Lines * Lines :=
  _split_lines_loop data lines 0 lines.

(** [_parse]; [fuel] bounds the depth of the nesting. *)
Fixpoint _parse (fuel : nat) (data : bytes) (lines : Lines)
    : option MessageContent :=
  match fuel with
  | O => None
  | S fuel' =>
      let '(header_lines, body_lines) := _split_lines data lines in
      header ← MessageHeader._parse whitespace data header_lines;
      let content_type :=
        ParsedHeaders.content_type header_fetch_parse
          (MessageHeader.parsed header) in
      body ← MessageBody._parse (_parse fuel') data body_lines content_type;
      let raw := _util.get_raw data [header_lines; body_lines] in
      let num_lines := (Py.len lines - 1)%Z in
      Some (Content raw num_lines header body)
  end.

Definition parse (data : bytes) : option MessageContent :=
  lines ← _find_lines data;
  _parse (S (length lines)) data lines.

End parameters.

End MessageContent.

(** ** Exceptions and results of the backend *)

Inductive Exception : Type :=
  | InvalidAuth
  | ValueError
  | OverflowError
  | FileNotFoundError
  | MailboxNotFound
  | MailboxConflict.

Inductive Result (A : Type) : Type :=
  | Return (a : A)
  | Raise (e : Exception).
Arguments Return {A} a.
Arguments Raise {A} e.

#[global] Instance Result_ret : MRet Result := @Return.
#[global] Instance Result_bind : MBind Result :=
  λ A B f r, match r with Return a => f a | Raise e => Raise e end.

(** A [for] loop of the backend: a state, and exceptions by name. *)
Fixpoint for_each {A S} (l : list A) (body : S -> A -> Result S) (s : S)
    : Result S :=
  match l with
  | [] => Return s
  | x :: l' => s' ← body s x; for_each l' body s'
  end.

(** ** [pymap/backend/dict/__init__.py] *)
Module dict.

Section backend.

(** [pymap.parsing.specials.flag]: the class [Flag] and the flag
    [Recent]. *)
Context {FlagT : Type} `{Countable FlagT}.
Variable Flag : bytes -> FlagT.
Variable Recent : FlagT.

(** [float(line)] and [datetime.fromtimestamp(t, timezone.utc)]: a float
    is not computed with here, only handed on. *)
Context {float_t datetime : Type}.
Variable float : bytes -> Result float_t.
Variable fromtimestamp : float_t -> Result datetime.

(** [pkg_resources]: the files packaged with the backend. *)
Variable resource_listdir : string -> Result (list string).
Variable resource_stream : string -> Result bytes.

(** Modelled from the spec: [Message] of [mailbox.py], which is not among
    the sources.  "Message record. Binds a [MessageContent] with: a unique
    UID; a flag set; an internal date" (3): what [Message.parse(uid, data,
    flags, dt)] is given. *)
Record Message := {
  uid : Z;
  data : bytes;
  permanent_flags : gset FlagT;
  internal_date : datetime
}.

Definition Message_parse (uid : Z) (data : bytes) (flags : gset FlagT)
    (dt : datetime) : Message :=
  {| uid := uid; data := data; permanent_flags := flags;
     internal_date := dt |}.

(** Modelled from the spec: [MailboxData] of [mailbox.py], which is not
    among the sources.  "a readonly bit", "an ordered list of live
    messages" (3); [add(msg, recent)] inserts at the tail and keeps the
    [recent] argument it was given (4.2). *)
Record MailboxData := {
  _readonly : bool;
  added : list (Message * bool)
}.

Definition MailboxData_new : MailboxData :=
  {| _readonly := false; added := [] |}.

Definition set_readonly (mbx : MailboxData) (v : bool) : MailboxData :=
  {| _readonly := v; added := added mbx |}.

Definition add (mbx : MailboxData) (msg : Message) (recent : bool)
    : MailboxData :=
  {| _readonly := _readonly mbx; added := added mbx ++ [(msg, recent)] |}.

(** Modelled from the spec: [MailboxSet] of [mailbox.py], which is not
    among the sources.  "A user's mailbox tree, a mapping from name to
    [MailboxData]" (3), with its [INBOX]; [get_mailbox(name)] gives
    "[MailboxData | NoSuchMailbox]" (6); [add_mailbox(name)] makes a new,
    empty mailbox. *)
Definition MailboxSet_new : gmap string MailboxData :=
  {[ "INBOX" := MailboxData_new ]}.

Definition get_mailbox (mailbox_set : gmap string MailboxData)
    (name : string) : Result MailboxData :=
  match mailbox_set !! name with
  | Some mbx => Return mbx
  | None => Raise MailboxNotFound
  end.

Definition add_mailbox (mailbox_set : gmap string MailboxData)
    (name : string) : Result (gmap string MailboxData * MailboxData) :=
  match mailbox_set !! name with
  | Some _ => Raise MailboxConflict
  | None => Return (<[name := MailboxData_new]> mailbox_set, MailboxData_new)
  end.

(** [Config], with the command line arguments it reads. *)
Record Config := {
  demo_data : bool;
  demo_user : string;
  demo_password : string;
  set_cache : gmap string (gmap string MailboxData)
}.

(** [pysasl.AuthenticationCredentials] *)
Record AuthenticationCredentials := {
  authcid : string;
  check_secret : string -> bool
}.

(** [Session(config, mailbox_set)] *)
Record Session := {
  config : Config;
  mailbox_set : gmap string MailboxData
}.

(** The part of the loop of [_load_demo_mailbox] that reads one message
    file, from [resource_stream] to [mbx.add]. *)
Definition _load_demo_message (msg_path : string) (mbx : MailboxData)
    : Result MailboxData :=
  message_stream ← resource_stream msg_path;
  let '(flags_line, message_stream) := Py.readline message_stream in
  let '(timestamp_line, message_stream) := Py.readline message_stream in
  msg_timestamp ← float timestamp_line;
  let msg_data := message_stream in
  msg_dt ← fromtimestamp msg_timestamp;
  let msg_flags : gset FlagT := list_to_set (Flag <$> Py.split flags_line) in
  let '(msg_flags, msg_recent) :=
    if bool_decide (Recent ∈ msg_flags)
    then (msg_flags ∖ {[Recent]}, true)
    else (msg_flags, false) in
  let msg := Message_parse 0 msg_data msg_flags msg_dt in
  Return (add mbx msg msg_recent).

(** The body of the loop of [_load_demo_mailbox]. *)
Definition _load_demo_mailbox_step (path : string) (mbx : MailboxData)
    (msg_name : string) : Result MailboxData :=
  if bool_decide (msg_name = ".readonly") then
    Return (set_readonly mbx true)
  else if Py.startswith msg_name "." then Return mbx
  else
    let msg_path := Py.path_join path msg_name in
    _load_demo_message msg_path mbx.

(** [Session._load_demo_mailbox]; the mailbox it was given is returned as
    the loop leaves it. *)
Definition _load_demo_mailbox (name : string) (mbx : MailboxData)
    : Result MailboxData :=
  let path := Py.path_join "demo" name in
  names ← resource_listdir path;
  let msg_names := Py.sorted names in
  for_each msg_names (_load_demo_mailbox_step path) mbx.

(** [Session._load_demo]; a mailbox that was filled is put back under its
    name, as the set holds the object that was changed. *)
Definition _load_demo (mailbox_set : gmap string MailboxData)
    : Result (gmap string MailboxData) :=
  inbox ← get_mailbox mailbox_set "INBOX";
  inbox ← _load_demo_mailbox "INBOX" inbox;
  let mailbox_set := <["INBOX" := inbox]> mailbox_set in
  names ← resource_listdir "demo";
  let mbx_names := Py.sorted names in
  for_each mbx_names
    (λ mailbox_set name,
       if bool_decide (name ≠ "INBOX") then
         '(mailbox_set, mbx) ← add_mailbox mailbox_set name;
         mbx ← _load_demo_mailbox name mbx;
         Return (<[name := mbx]> mailbox_set)
       else Return mailbox_set)
    mailbox_set.

(** [Session.get_password] *)
Definition get_password (config : Config) (user : string) : Result string :=
  let expected_user := demo_user config in
  let expected_password := demo_password config in
  if bool_decide (user = expected_user) then Return expected_password
  else Raise InvalidAuth.

(** [Session.login]; the session holds the configuration with the cache as
    the call leaves it. *)
Definition login (credentials : AuthenticationCredentials)
    (config : Config) : Result Session :=
  let user := authcid credentials in
  password ← get_password config user;
  if bool_decide (password = "") || negb (check_secret credentials password)
  then Raise InvalidAuth
  else
    match set_cache config !! user with
    | Some mailbox_set =>
        Return {| config := config; mailbox_set := mailbox_set |}
    | None =>
        let mailbox_set := MailboxSet_new in
        mailbox_set ←
          (if demo_data config then _load_demo mailbox_set
           else Return mailbox_set);
        let config :=
          {| demo_data := demo_data config;
             demo_user := demo_user config;
             demo_password := demo_password config;
             set_cache := <[user := mailbox_set]> (set_cache config) |} in
        Return {| config := config; mailbox_set := mailbox_set |}
    end.

End backend.

End dict.

(** ** [pymap/demo/message.py] *)
Module demo.

(** The wall clock behind [datetime.now(timezone.utc)]: the instants it
    will show, in microseconds since the epoch, and how many were read. *)
Record Clock := {
  instants : nat -> Z;
  reads : nat
}.

(** [datetime.now(timezone.utc)] *)
Definition now (clock : Clock) : Z * Clock :=
  (instants clock (reads clock),
   {| instants := instants clock; reads := S (reads clock) |}).

(** [pymap.parsing.specials.DateTime] *)
Record DateTime := { when : Z }.

Section message.

(** [email.message_from_bytes] and the type of the flags. *)
Context {EmailMessage Flags : Type}.
Variable message_from_bytes : bytes -> EmailMessage.

Record Message := {
  seq : Z;
  uid : Z;
  flags : Flags;
  data : EmailMessage
}.

Definition __init__ (seq uid : Z) (flags : Flags) (data : bytes)
    : Message :=
  {| seq := seq; uid := uid; flags := flags;
     data := message_from_bytes data |}.

(** [get_message] *)
Definition get_message (self : Message) (full : bool) : EmailMessage :=
  data self.

(** [fetch_internal_date]: the value returned and the clock after the
    call; [self] is not assigned to. *)
Definition fetch_internal_date (self : Message) (clock : Clock)
    : DateTime * Clock :=
  let '(t, clock) := now clock in
  ({| when := t |}, clock).

(** [fetch_flags] *)
Definition fetch_flags (self : Message) : Flags := flags self.

End message.

End demo.

(** ** Notions the statements are written with *)

(** A line is blank when every byte of its content is whitespace; an empty
    line is. *)
Definition blank (whitespace data : bytes) (line : Line) : bool :=
  let '(start, end_, _) := line in
  forallb (Py.contains whitespace) (Py.slice data start end_).

(** The lines lie in the buffer one after the other, from [lo] to [hi]. *)
Fixpoint chain (lo : Z) (lines : Lines) (hi : Z) : Prop :=
  match lines with
  | [] => lo = hi
  | (start, end_, next_start) :: lines' =>
      start = lo ∧ (start <= end_)%Z ∧ (end_ <= next_start)%Z
      ∧ chain next_start lines' hi
  end.

(** A line lies inside the buffer. *)
Definition line_ok (data : bytes) (line : Line) : Prop :=
  let '(start, end_, next_start) := line in
  (0 <= start)%Z ∧ (start <= end_)%Z ∧ (end_ <= next_start)%Z
  ∧ (next_start <= Py.len data)%Z.

(** A header line continues the one before it when its first byte is
    whitespace. *)
Definition continuation (whitespace data : bytes) (line : Line) : bool :=
  let '(start, end_, _) := line in
  (1 <=? end_ - start)%Z
  && match Py.getitem data start with
     | Some c => Py.contains whitespace c
     | None => false
     end.

(** The folded headers of a run of lines, read off the lines from the last
    to the first: the continuation lines no header line precedes, and the
    groups, each a header line with the continuation lines after it. *)
Fixpoint fold_lines (is_continuation : Line -> bool) (lines : Lines)
    : Lines * list Lines :=
  match lines with
  | [] => ([], [])
  | line :: lines' =>
      let '(leading, groups) := fold_lines is_continuation lines' in
      if is_continuation line then (line :: leading, groups)
      else ([], (line :: leading) :: groups)
  end.

(** The first line of a group holds a colon. *)
Definition has_colon (data : bytes) (group : Lines) : bool :=
  match head group with
  | Some (start, end_, _) =>
      bool_decide (":"%byte ∈ Py.slice data start end_)
  | None => false
  end.

(** The bytes of the first line of a group before its first colon (all of
    them when it holds none). *)
Fixpoint before_colon (line : bytes) : bytes :=
  match line with
  | [] => []
  | c :: line' => if bool_decide (c = ":"%byte) then [] else c :: before_colon line'
  end.

(** The name of a group: the bytes before the colon, stripped, lowercased. *)
Definition header_name (data : bytes) (group : Lines) : bytes :=
  match head group with
  | Some (start, end_, _) =>
      Py.lower (Py.strip (before_colon (Py.slice data start end_)))
  | None => []
  end.

(** The value group of a group: the content of each of its lines. *)
Definition group_value (data : bytes) (group : Lines) : list bytes :=
  map (λ '(start, end_, _), Py.slice data start end_) group.

(** What the accumulator of [_find_folds] becomes over continuation
    lines. *)
Definition extend_last (ret : list Lines) (lines : Lines) : list Lines :=
  foldl Py.append_to_last ret lines.

(** The groups header parsing keeps: those whose first line holds a colon. *)
Definition kept_groups (data : bytes) (folds : list Lines) : list Lines :=
  List.filter (has_colon data) folds.

(** The folded sequence, as the data model words it: one
    (lowercased-name, raw) pair for each kept group, in source order. *)
Definition folded_of (data : bytes) (folds : list Lines) : Folded :=
  map (λ g, (header_name data g, _util.get_raw data [g]))
    (kept_groups data folds).

(** The value groups of a name, as the data model words it: those of the
    kept groups of that name, in source order. *)
Definition values_of (data : bytes) (folds : list Lines) (name : bytes)
    : list (list bytes) :=
  map (group_value data)
    (List.filter (λ g, bool_decide (header_name data g = name))
       (kept_groups data folds)).

(** The content of a line is byte-equal to [m]. *)
Definition line_is (data m : bytes) (line : Line) : bool :=
  let '(start, end_, _) := line in
  bool_decide (Py.slice data start end_ = m).

(** The lines before the first closing marker: the scan stops there and
    what follows, the epilogue, is not looked at. *)
Fixpoint before_stop (is_stop : Line -> bool) (lines : Lines) : Lines :=
  match lines with
  | [] => []
  | line :: lines' =>
      if is_stop line then [] else line :: before_stop is_stop lines'
  end.

(** The lines cut at the opening markers: the lines before the first marker
    (the preamble), and for each marker the lines after it up to the next
    marker. *)
Fixpoint split_at (is_open : Line -> bool) (lines : Lines)
    : Lines * list Lines :=
  match lines with
  | [] => ([], [])
  | line :: lines' =>
      let '(first, parts) := split_at is_open lines' in
      if is_open line then ([], first :: parts) else (line :: first, parts)
  end.

(** The parts of a multipart body, as 4.1 words them: the scan closes at
    the first [--boundary--], each [--boundary] opens a part, the preamble
    is dropped. *)
Definition parts_of (data boundary : bytes) (lines : Lines) : list Lines :=
  (split_at (line_is data (Py.b "--" ++ boundary))
     (before_stop (line_is data (Py.b "--" ++ boundary ++ Py.b "--"))
        lines)).2.

(** [p] is a run of consecutive lines of [lines], after at least one other
    line. *)
Definition segment_of (lines p : Lines) : Prop :=
  ∃ a c, lines = a ++ p ++ c ∧ a ≠ [].

(** Every character of the string is an ASCII character. *)
Definition ascii_only (s : string) : bool :=
  forallb (λ c, (N_of_ascii c <? 128)%N) (list_ascii_of_string s).

(** The bytes of a string of ASCII characters. *)
Definition ascii_bytes (s : string) : bytes :=
  map byte_of_ascii (list_ascii_of_string s).

(** The content type has a valid boundary parameter: present, not empty,
    ASCII. *)
Definition valid_boundary (t : ContentTypeHeader) (boundary : string) : Prop :=
  params t !! "boundary" = Some boundary
  ∧ boundary ≠ "" ∧ ascii_only boundary = true.

(** A line that is neither the opening nor the closing marker of the
    boundary. *)
Definition plain_line (data boundary : bytes) (line : Line) : Prop :=
  line_is data (Py.b "--" ++ boundary) line = false
  ∧ line_is data (Py.b "--" ++ boundary ++ Py.b "--") line = false.

(** The line is the opening marker [--boundary]. *)
Definition opening_line (data boundary : bytes) (line : Line) : Prop :=
  line_is data (Py.b "--" ++ boundary) line = true.

(** The line is the closing marker [--boundary--]. *)
Definition closing_line (data boundary : bytes) (line : Line) : Prop :=
  line_is data (Py.b "--" ++ boundary ++ Py.b "--") line = true.

(** The content reached from [c] by a path of child indexes. *)
Fixpoint descend (path : list nat) (c : MessageContent)
    : option MessageContent :=
  match path with
  | [] => Some c
  | i :: path' =>
      match MessageBody.nested (Attr.body c) !! i with
      | Some child => descend path' child
      | None => None
      end
  end.

(** The paths of the children [i], [i + 1], ... of a content and of all that
    is below them, child after child. *)
Definition paths_from (paths : MessageContent -> list (list nat)) :=
  fix go (i : nat) (children : list MessageContent) : list (list nat) :=
    match children with
    | [] => []
    | child :: children' =>
        map (cons i) (paths child) ++ go (S i) children'
    end.

(** The paths of all the contents of a tree, a content before what is
    below it, the children from the first to the last. *)
Fixpoint paths (c : MessageContent) : list (list nat) :=
  match c with
  | Content _ _ _ body =>
      match body with
      | _MultipartBody _ _ _ nested | _RFC822Body _ _ _ nested =>
          [] :: paths_from paths 0 nested
      | _SinglepartBody _ _ _ => [[]]
      end
  end.

(** Pre-order on paths: a content comes before what is below it, and a
    child with all below it before the next child. *)
Fixpoint before (p q : list nat) : Prop :=
  match p, q with
  | [], _ :: _ => True
  | i :: p', j :: q' => i < j ∨ (i = j ∧ before p' q')
  | _, _ => False
  end.

(** The paths of a list come in pre-order: each one before all that follow
    it. *)
Fixpoint ordered (l : list (list nat)) : Prop :=
  match l with
  | [] => True
  | p :: l' => Forall (before p) l' ∧ ordered l'
  end.

(** A flag list written out: the tokens with one space between them. *)
Fixpoint join_spaces (tokens : list bytes) : bytes :=
  match tokens with
  | [] => []
  | [token] => token
  | token :: tokens' => token ++ [x20] ++ join_spaces tokens'
  end.

(** A token of a flag list: not empty, and without whitespace. *)
Definition token_ok (token : bytes) : Prop :=
  token ≠ [] ∧ Forall (λ c, Py.is_space c = false) token.

(** The bytes of a line with its line break. *)
Definition line_bytes (data : bytes) (line : Line) : bytes :=
  let '(start, _, next_start) := line in Py.slice data start next_start.

(** A line that ends with a line break: no LF in its content, and LF or
    CR LF after it. *)
Definition terminated_line (data : bytes) (line : Line) : Prop :=
  let '(start, end_, next_start) := line in
  (x0a ∉ Py.slice data start end_)
  ∧ (Py.slice data end_ next_start = [x0a]
     ∨ Py.slice data end_ next_start = [x0d; x0a]).

(** The line the buffer ends with: no LF in it and nothing after it. *)
Definition final_line (data : bytes) (line : Line) : Prop :=
  let '(start, end_, next_start) := line in
  (x0a ∉ Py.slice data start end_)
  ∧ end_ = next_start ∧ next_start = Py.len data.

(** The number of LF bytes. *)
Definition count_lf (data : bytes) : nat :=
  length (filter (λ c, c = x0a) data).

(** The body is a [message/rfc822] body. *)
Definition is_rfc822 (b : MessageBody) : bool :=
  match b with
  | _RFC822Body _ _ _ _ => true
  | _ => false
  end.

(** Every nested content has fewer lines than the content it is nested
    in. *)
Definition fewer_lines_below (c : MessageContent) : Prop :=
  Forall (λ child, (Attr.lines child < Attr.lines c)%Z)
    (MessageBody.nested (Attr.body c)).

(** A header name is normalized: lowercasing or stripping it again changes
    nothing, and it holds no colon. *)
Definition normalized (name : bytes) : Prop :=
  Py.lower name = name ∧ Py.strip name = name ∧ ":"%byte ∉ name.

(** The content of a line, without its line break. *)
Definition line_content (data : bytes) (line : Line) : bytes :=
  let '(start, end_, _) := line in Py.slice data start end_.

(** The number of content bytes of some lines. *)
Definition content_length (lines : Lines) : Z :=
  Py.sum (map (λ '(start, end_, _), (end_ - start)%Z) lines).

(** The name of a file the demo loader reads as a message. *)
Definition message_file (msg_name : string) : Prop :=
  Py.startswith msg_name "." = false.

(** The header region and the body region of a run of lines both have a
    line. *)
Definition both_regions (whitespace data : bytes) (lines : Lines) : Prop :=
  (MessageContent._split_lines whitespace data lines).1 ≠ []
  ∧ (MessageContent._split_lines whitespace data lines).2 ≠ [].

(** The raw views of a content parsed from [lines]: the raw header is the
    view of the header region and ends with the separator line; the raw
    body is the view of the body region, or for a [message/rfc822] body the
    raw view of its nested content; and where both regions have a line the
    raw content is the raw header followed by the view of the body
    region, which is the raw body unless that is the raw view of a nested
    content with an empty region. *)
Definition raw_views (whitespace data : bytes) (lines : Lines)
    (c : MessageContent) : Prop :=
  let hl := (MessageContent._split_lines whitespace data lines).1 in
  let bl := (MessageContent._split_lines whitespace data lines).2 in
  MessageHeader.raw (Attr.header c) = _util.get_raw data [hl]
  ∧ (hl = []
     ∨ ∃ pre sep,
         hl = pre ++ [sep] ∧ blank whitespace data sep = true
         ∧ MessageHeader.raw (Attr.header c)
           = _util.get_raw data [pre] ++ line_bytes data sep)
  ∧ (if is_rfc822 (Attr.body c)
     then ∃ child,
            MessageBody.nested (Attr.body c) = [child]
            ∧ MessageBody.raw (Attr.body c) = Attr.raw child
     else MessageBody.raw (Attr.body c) = _util.get_raw data [bl])
  ∧ (both_regions whitespace data lines ->
     Attr.raw c
     = MessageHeader.raw (Attr.header c) ++ _util.get_raw data [bl]
     ∧ (is_rfc822 (Attr.body c) = false ∨ both_regions whitespace data bl ->
        Attr.raw c
        = MessageHeader.raw (Attr.header c)
          ++ MessageBody.raw (Attr.body c))).

(** The content is what [_parse] returns for some lines, and has the raw
    views of these lines. *)
Definition raw_layout (whitespace : bytes)
    (header_fetch_parse : list bytes -> option ContentTypeHeader)
    (data : bytes) (c : MessageContent) : Prop :=
  ∃ fuel lines,
    MessageContent._parse whitespace header_fetch_parse fuel data lines
    = Some c
    ∧ raw_views whitespace data lines c.

(** [line] is the first line of [s], with its LF, or all of [s] when it has
    no LF; [rest] is what follows it. *)
Definition first_line (s line rest : bytes) : Prop :=
  s = line ++ rest
  ∧ ((∃ content, line = content ++ [x0a] ∧ (x0a ∉ content))
     ∨ ((x0a ∉ line) ∧ rest = [])).

Section LoadedFrom.

Context {FlagT : Type} {FlagT_eq : EqDecision FlagT}
  {FlagT_countable : Countable FlagT}.
Variable Flag : bytes -> FlagT.
Variable Recent : FlagT.
Context {float_t datetime : Type}.
Variable float : bytes -> Result float_t.
Variable fromtimestamp : float_t -> Result datetime.

(** What the loader hands to [add] for a file with the bytes [content]:
    the flags of the first line without [Recent], the date of the second
    line, the rest as the data, and whether [Recent] was among the
    flags. *)
Definition loaded_from (content : bytes)
    (entry : @dict.Message FlagT _ _ datetime * bool) : Prop :=
  ∃ flags_line rest timestamp_line msg_data msg_timestamp msg_dt,
    first_line content flags_line rest
    ∧ first_line rest timestamp_line msg_data
    ∧ float timestamp_line = Return msg_timestamp
    ∧ fromtimestamp msg_timestamp = Return msg_dt
    ∧ entry.1
      = {| dict.uid := 0; dict.data := msg_data;
           dict.permanent_flags :=
             list_to_set (Flag <$> Py.split flags_line) ∖ {[Recent]};
           dict.internal_date := msg_dt |}
    ∧ (entry.2 = true <-> ∃ token, token ∈ Py.split flags_line
                                    ∧ Flag token = Recent).

End LoadedFrom.

(** ** Concrete inputs for the examples *)
Module Sample.

(** Space, tab, CR, LF, VT and FF as the whitespace table. *)
Definition whitespace : bytes := [x20; x09; x0d; x0a; x0b; x0c].

Definition LF : bytes := [x0a].

Definition multipart_mixed_X : ContentTypeHeader :=
  {| maintype := "multipart"; subtype := "mixed";
     params := {[ "boundary" := "X" ]} |}.

Definition message_rfc822 : ContentTypeHeader :=
  {| maintype := "message"; subtype := "rfc822"; params := ∅ |}.

(** A header parser that knows two [Content-Type] lines. *)
Definition header_fetch_parse (value : list bytes)
    : option ContentTypeHeader :=
  if bool_decide (value = [Py.b "Content-Type: multipart/mixed; boundary=X"])
  then Some multipart_mixed_X
  else if bool_decide (value = [Py.b "Content-Type: message/rfc822"])
  then Some message_rfc822
  else None.

Definition CRLF : bytes := [x0d; x0a].

(** The message of [test_fetch.py]: 158 octets, of which the header with
    its blank line takes 108 and the text 50. *)
Definition fetched : bytes :=
  Py.b "From: friend@example.com" ++ CRLF
  ++ Py.b "To: me@example.com" ++ CRLF
  ++ Py.b "Subject: Re: Re: Random question" ++ CRLF
  ++ Py.b "Content-Type: text/plain" ++ CRLF ++ CRLF
  ++ Py.b "Well, I don't know that!" ++ CRLF ++ CRLF
  ++ Py.b "*AAAAAGGGGGHHHHHH*" ++ CRLF ++ CRLF.

(** One line and no line break: no blank line. *)
Definition no_blank : bytes := Py.b "a".

(** Two lines that end with LF and no blank line between them: the empty
    last line is the only blank one. *)
Definition no_separator : bytes :=
  Py.b "From: a" ++ LF ++ Py.b "body text" ++ LF.

(** A header, a separator line holding one space, a body. *)
Definition spaced : bytes :=
  Py.b "A: b" ++ LF ++ Py.b " " ++ LF ++ Py.b "body".

(** A multipart message with a preamble, two parts and an epilogue. *)
Definition two_parts : bytes :=
  Py.b "Content-Type: multipart/mixed; boundary=X" ++ LF ++ LF
  ++ Py.b "pre" ++ LF
  ++ Py.b "--X" ++ LF
  ++ LF ++ Py.b "one" ++ LF
  ++ Py.b "--X" ++ LF
  ++ Py.b "H: v" ++ LF ++ Py.b " w" ++ LF ++ LF ++ Py.b "two" ++ LF
  ++ Py.b "--X--" ++ LF
  ++ Py.b "epi".

(** The body of a multipart message: a preamble, two parts, an epilogue. *)
Definition body_two_parts : bytes :=
  Py.b "pre" ++ LF ++ Py.b "--X" ++ LF ++ Py.b "one" ++ LF
  ++ Py.b "--X" ++ LF ++ Py.b "two" ++ LF ++ Py.b "--X--" ++ LF
  ++ Py.b "epi".

(** A header region: a folded header, a line without a colon, a second
    header of the same name, and the separator. *)
Definition header_region : bytes :=
  Py.b "H: v" ++ LF ++ Py.b " w" ++ LF ++ Py.b "nocolon" ++ LF
  ++ Py.b "h : u" ++ LF ++ LF.

(** A content without nested contents, and a multipart content with two
    such parts. *)
Definition leaf (raw : bytes) : MessageContent :=
  Content raw 0
    {| MessageHeader.raw := []; MessageHeader.lines := 0;
       MessageHeader.folded := [];
       MessageHeader.parsed := {| ParsedHeaders.headers := ∅ |} |}
    (_SinglepartBody raw 1 _default_type).

Definition two_leaves : MessageContent :=
  Content two_parts 10
    {| MessageHeader.raw := []; MessageHeader.lines := 0;
       MessageHeader.folded := [];
       MessageHeader.parsed := {| ParsedHeaders.headers := ∅ |} |}
    (_MultipartBody body_two_parts 7 multipart_mixed_X
       [leaf (Py.b "one"); leaf (Py.b "two")]).

(** A demo message file: the flags, the epoch, the message. *)
Definition demo_file : bytes :=
  Py.b "\\Seen \\Recent" ++ LF ++ Py.b "1500000000" ++ LF
  ++ Py.b "Subject: hi" ++ LF ++ LF ++ Py.b "text" ++ LF.

(** Flags as their bytes, the epoch as the digits of its line, the
    packaged files as the one file above. *)
Definition Flag (token : bytes) : bytes := token.
Definition Recent : bytes := Py.b "\\Recent".
Definition float (line : bytes) : Result bytes := Return (Py.strip line).
Definition fromtimestamp (t : bytes) : Result bytes := Return t.
Definition resource_listdir (path : string) : Result (list string) :=
  if bool_decide (path = "demo") then Return ["INBOX"]
  else if bool_decide (path = "demo/INBOX")
  then Return ["1"; ".readonly"; ".hidden"]
  else Raise FileNotFoundError.
Definition resource_stream (path : string) : Result bytes :=
  if bool_decide (path = "demo/INBOX/1") then Return demo_file
  else Raise FileNotFoundError.

(** The packaged files again, but the hidden file cannot be opened. *)
Definition resource_stream_strict (path : string) : Result bytes :=
  if bool_decide (path = "demo/INBOX/.hidden") then Raise ValueError
  else resource_stream path.

(** Credentials whose secret is [secret]. *)
Definition credentials (user secret : string)
    : dict.AuthenticationCredentials :=
  {| dict.authcid := user;
     dict.check_secret := λ password, bool_decide (password = secret) |}.

(** A configuration without demo data and with nothing cached. *)
Definition config (user password : string)
    : @dict.Config bytes _ _ bytes :=
  {| dict.demo_data := false; dict.demo_user := user;
     dict.demo_password := password; dict.set_cache := ∅ |}.

End Sample.

(** ** Facts about the built-ins *)
Section PyFacts.

Lemma len_nonneg {A} (l : list A) : (0 <= Py.len l)%Z.
Proof. unfold Py.len. lia. Qed.

Lemma norm_index_id (n i : Z) :
  (0 <= i)%Z -> (i <= n)%Z -> Py.norm_index n i = i.
Proof.
  intros. unfold Py.norm_index.
  destruct (Z.ltb_spec i 0); lia.
Qed.

Lemma norm_index_range (n i : Z) :
  (0 <= n)%Z -> (0 <= Py.norm_index n i <= n)%Z.
Proof.
  intros. unfold Py.norm_index.
  destruct (Z.ltb_spec i 0); lia.
Qed.

Lemma slice_in_range {A} (data : list A) (a c : Z) :
  (0 <= a)%Z -> (a <= c)%Z -> (c <= Py.len data)%Z ->
  Py.slice data a c
  = take (Z.to_nat c - Z.to_nat a) (drop (Z.to_nat a) data).
Proof.
  intros. unfold Py.slice.
  rewrite !norm_index_id by lia. f_equal. lia.
Qed.

Lemma take_drop_app {A} (l : list A) (i j k : nat) :
  i <= j -> j <= k ->
  take (j - i) (drop i l) ++ take (k - j) (drop j l)
  = take (k - i) (drop i l).
Proof.
  intros Hij Hjk.
  replace (drop j l) with (drop (j - i) (drop i l))
    by (rewrite drop_drop; f_equal; lia).
  rewrite take_take_drop. f_equal. lia.
Qed.

Lemma slice_app {A} (data : list A) (a m c : Z) :
  (0 <= a)%Z -> (a <= m)%Z -> (m <= c)%Z -> (c <= Py.len data)%Z ->
  Py.slice data a m ++ Py.slice data m c = Py.slice data a c.
Proof.
  intros. rewrite !slice_in_range by lia.
  apply take_drop_app; lia.
Qed.

Lemma slice_empty {A} (data : list A) (a : Z) :
  (0 <= a)%Z -> (a <= Py.len data)%Z -> Py.slice data a a = [].
Proof.
  intros. rewrite slice_in_range by lia.
  by rewrite Nat.sub_diag.
Qed.

Lemma slice_prefix {A} (l : list A) (k : Z) :
  (0 <= k)%Z -> (k <= Py.len l)%Z -> Py.slice l 0 k = take (Z.to_nat k) l.
Proof.
  intros. rewrite slice_in_range by lia.
  simpl. f_equal. lia.
Qed.

Lemma slice_suffix {A} (l : list A) (k : Z) :
  (0 <= k)%Z -> (k <= Py.len l)%Z ->
  Py.slice l k (Py.len l) = drop (Z.to_nat k) l.
Proof.
  intros. rewrite slice_in_range by lia.
  apply take_ge. rewrite length_drop. unfold Py.len. lia.
Qed.

Lemma slice_length {A} (data : list A) (a c : Z) :
  (0 <= a)%Z -> (a <= c)%Z -> (c <= Py.len data)%Z ->
  Py.len (Py.slice data a c) = (c - a)%Z.
Proof.
  intros. rewrite slice_in_range by lia. unfold Py.len in *.
  rewrite length_take, length_drop. lia.
Qed.

Lemma getitem_in_range {A} (data : list A) (i : Z) :
  (0 <= i)%Z -> (i < Py.len data)%Z -> is_Some (Py.getitem data i).
Proof.
  intros. unfold Py.getitem.
  destruct (Z.ltb_spec i 0); [lia|].
  destruct (Z.ltb_spec i 0); [lia|].
  apply lookup_lt_is_Some. unfold Py.len in *. lia.
Qed.

Lemma index_where_None {A} (P : A -> bool) (l : list A) :
  Py.index_where P l = None <-> forallb (λ x, negb (P x)) l = true.
Proof.
  induction l as [|x l IH]; simpl; [done|].
  destruct (P x); simpl; [done|].
  rewrite <- IH. destruct (Py.index_where P l); done.
Qed.

Lemma index_where_Some {A} (P : A -> bool) (l : list A) (k : nat) :
  Py.index_where P l = Some k ->
  k < length l
  ∧ (∃ x, l !! k = Some x ∧ P x = true)
  ∧ forallb (λ x, negb (P x)) (take k l) = true.
Proof.
  revert k. induction l as [|x l IH]; simpl; intros k Hk; [done|].
  destruct (P x) eqn:HP.
  - injection Hk as <-. simpl. split; [lia|]. split; [|done]. eauto.
  - destruct (Py.index_where P l) as [k'|] eqn:Hl; [|done].
    injection Hk as <-. destruct (IH k' eq_refl) as (Hlt & Hx & Hall).
    simpl. rewrite HP. simpl. split; [lia|]. done.
Qed.

(** [find] gives [-1] or an index of the window. *)
Lemma find_range (data : bytes) (c : byte) (a e : Z) :
  (0 <= a)%Z -> (a <= e)%Z -> (e <= Py.len data)%Z ->
  Py.find data c a e = (-1)%Z
  ∨ (a <= Py.find data c a e < e)%Z.
Proof.
  intros. unfold Py.find.
  destruct (Py.index_where _ _) as [k|] eqn:Hk; [right|by left].
  apply index_where_Some in Hk as (Hlt & _ & _).
  rewrite norm_index_id by lia.
  pose proof (slice_length data a e) as Hlen.
  unfold Py.len in *. lia.
Qed.

End PyFacts.

(** ** Lines: [_find_lines] and [_split_lines] *)
Section LineFacts.

Lemma chain_app (lo hi : Z) (l1 l2 : Lines) :
  chain lo (l1 ++ l2) hi <-> ∃ mid, chain lo l1 mid ∧ chain mid l2 hi.
Proof.
  revert lo. induction l1 as [|[[s e] n] l1 IH]; intros lo; simpl.
  - split; [eauto|]. by intros (mid & -> & ?).
  - rewrite IH. split.
    + intros (? & ? & ? & mid & ? & ?). eauto 10.
    + intros (mid & (? & ? & ? & ?) & ?). eauto 10.
Qed.

Lemma chain_le (lo hi : Z) (lines : Lines) : chain lo lines hi -> (lo <= hi)%Z.
Proof.
  revert lo. induction lines as [|[[s e] n] lines IH]; intros lo; simpl.
  - lia.
  - intros (-> & ? & ? & Hc). apply IH in Hc. lia.
Qed.

Lemma chain_line_ok (data : bytes) (lo hi : Z) (lines : Lines) :
  (0 <= lo)%Z -> (hi <= Py.len data)%Z -> chain lo lines hi ->
  Forall (line_ok data) lines.
Proof.
  revert lo. induction lines as [|[[s e] n] lines IH]; intros lo Hlo Hhi; simpl.
  - constructor.
  - intros (-> & ? & ? & Hc). pose proof (chain_le _ _ _ Hc).
    constructor; [simpl; lia|]. apply (IH n); [lia|done|done].
Qed.

Lemma chain_head_last (lo hi : Z) (lines : Lines) :
  lines ≠ [] -> chain lo lines hi ->
  ∃ e n s' e', head lines = Some (lo, e, n) ∧ last lines = Some (s', e', hi).
Proof.
  revert lo. induction lines as [|[[s e] n] lines IH]; intros lo Hne; [done|].
  simpl. intros (-> & ? & ? & Hc).
  destruct lines as [|l lines].
  - simpl in Hc. subst. eauto 10.
  - destruct (IH n ltac:(done) Hc) as (? & ? & s' & e' & _ & Hlast).
    exists e, n, s', e'. split; [done|].
    rewrite last_cons, Hlast. done.
Qed.

(** The raw view of lines that follow one another is one slice. *)
Lemma get_raw_one (data : bytes) (lines : Lines) (lo hi : Z) :
  (0 <= lo)%Z -> (hi <= Py.len data)%Z -> chain lo lines hi ->
  _util.get_raw data [lines] = Py.slice data lo hi.
Proof.
  intros Hlo Hhi Hc. unfold _util.get_raw, _util.span. cbn [head last].
  destruct lines as [|l ls].
  - simpl in *. subst. symmetry. by apply slice_empty.
  - destruct (chain_head_last lo hi (l :: ls) ltac:(done) Hc)
      as (e & n & s' & e' & -> & ->). done.
Qed.

(** The raw view of two groups with lines is the slice from the first line
    of the first to the last line of the second. *)
Lemma get_raw_two (data : bytes) (l1 l2 : Lines) (lo hi : Z) :
  l1 ≠ [] -> l2 ≠ [] -> chain lo (l1 ++ l2) hi ->
  _util.get_raw data [l1; l2] = Py.slice data lo hi.
Proof.
  intros H1 H2 Hc. unfold _util.get_raw, _util.span. cbn [head last].
  apply chain_app in Hc as (mid & Hc1 & Hc2).
  destruct (chain_head_last lo mid l1 H1 Hc1) as (e & n & s' & e' & -> & _).
  destruct (chain_head_last mid hi l2 H2 Hc2) as (? & ? & s2 & e2 & _ & ->).
  done.
Qed.

(** The raw view of two groups is empty when one of them has no line. *)
Lemma get_raw_two_nil (data : bytes) (l1 l2 : Lines) :
  l1 = [] ∨ l2 = [] -> _util.get_raw data [l1; l2] = [].
Proof.
  unfold _util.get_raw, _util.span. cbn [head last].
  intros [->| ->]; [done|]. simpl. by destruct (head l1) as [[[? ?] ?]|].
Qed.

(** The loop of [_find_lines] ends, and leaves a chain over the buffer. *)
Lemma _find_lines_loop_chain (fuel : nat) (data : bytes) (start : Z)
    (ret : Lines) :
  (0 <= start)%Z -> (start <= Py.len data)%Z ->
  (Py.len data - start < Z.of_nat fuel)%Z ->
  chain 0 ret start ->
  ∃ lines,
    MessageContent._find_lines_loop fuel data start (Py.len data) ret
    = Some lines
    ∧ chain 0 lines (Py.len data) ∧ lines ≠ [].
Proof.
  revert start ret.
  induction fuel as [|fuel IH]; intros start ret H0 Hle Hfuel Hret; [lia|].
  simpl.
  destruct (find_range data x0a start (Py.len data)) as [Hf|Hf];
    [lia..| |].
  - rewrite Hf. simpl. eexists. split; [done|]. split.
    + apply chain_app. exists start. split; [done|]. simpl. lia.
    + by destruct ret.
  - set (idx := Py.find data x0a start (Py.len data)) in *.
    destruct (Z.ltb_spec idx 0); [lia|].
    destruct (Z.geb_spec (idx - 1) start) as [Hge|Hlt].
    + destruct (getitem_in_range data (idx - 1)) as [c Hc]; [lia..|].
      rewrite Hc. simpl.
      apply IH; [lia..|].
      apply chain_app. exists start. split; [done|]. simpl.
      case_bool_decide; lia.
    + simpl. apply IH; [lia..|].
      apply chain_app. exists start. split; [done|]. simpl. lia.
Qed.

Lemma _find_lines_chain (data : bytes) :
  ∃ lines,
    MessageContent._find_lines data = Some lines
    ∧ chain 0 lines (Py.len data) ∧ lines ≠ [].
Proof.
  unfold MessageContent._find_lines.
  apply _find_lines_loop_chain; [pose proof (len_nonneg data); lia..| |done].
  unfold Py.len. lia.
Qed.

(** The scan of [_split_lines] finds no byte exactly on a blank line. *)
Lemma find_any_blank (whitespace data : bytes) (start end_ next_start : Z) :
  (_util.find_any data whitespace start end_ false false <? 0)%Z
  = blank whitespace data (start, end_, next_start).
Proof.
  unfold _util.find_any, blank.
  destruct (Py.index_where _ _) as [k|] eqn:Hk.
  - pose proof (norm_index_range (Py.len data) start (len_nonneg data)).
    apply index_where_Some in Hk as (Hlt & (x & Hx & Hhit) & _).
    destruct (Z.ltb_spec
      (Py.norm_index (Py.len data) start + Z.of_nat k) 0); [lia|].
    symmetry. apply not_true_is_false. intros Hall.
    rewrite forallb_forall in Hall.
    assert (Hin : In x (Py.slice data start end_)).
    { apply list_elem_of_In. by eapply list_elem_of_lookup_2. }
    apply Hall in Hin. rewrite Hin in Hhit. done.
  - apply index_where_None in Hk. simpl. symmetry.
    rewrite forallb_forall in *. intros x Hx. apply Hk in Hx.
    destruct (Py.contains whitespace x); done.
Qed.

End LineFacts.

(** ** Headers: [_find_folds] and [_parse_headers] *)
Section HeaderFacts.

Variable whitespace : bytes.
Variable data : bytes.

Lemma for__app {A S} (l1 l2 : list A) (body : S -> A -> option S) (s : S) :
  Py.for_ (l1 ++ l2) body s = s' ← Py.for_ l1 body s; Py.for_ l2 body s'.
Proof.
  revert s. induction l1 as [|x l1 IH]; intros s; simpl; [done|].
  destruct (body s x); simpl; [apply IH|done].
Qed.

Lemma for__cons {A S} (x : A) (l : list A) (body : S -> A -> option S)
    (s : S) :
  Py.for_ (x :: l) body s = s' ← body s x; Py.for_ l body s'.
Proof. done. Qed.

Lemma _find_folds_step_ok (ret : list Lines) (line : Line) :
  line_ok data line ->
  MessageHeader._find_folds_step whitespace data ret line
  = Some (if continuation whitespace data line
          then Py.append_to_last ret line else ret ++ [[line]]).
Proof.
  destruct line as [[s e] n]. intros (? & ? & ? & ?).
  unfold MessageHeader._find_folds_step, continuation.
  destruct (Z.geb_spec (e - s) 1), (Z.leb_spec 1 (e - s)); try lia; [|done].
  destruct (getitem_in_range data s) as [c ->]; [lia..|]. simpl.
  by destruct (Py.contains whitespace c).
Qed.

Lemma append_to_last_snoc {A} (ret : list (list A)) (g : list A) (x : A) :
  Py.append_to_last (ret ++ [g]) x = ret ++ [g ++ [x]].
Proof.
  induction ret as [|g' ret IH]; [done|].
  simpl. rewrite IH. by destruct ret.
Qed.

Lemma extend_last_snoc (ret : list Lines) (g lines : Lines) :
  extend_last (ret ++ [g]) lines = ret ++ [g ++ lines].
Proof.
  revert g. induction lines as [|l lines IH]; intros g; simpl.
  - by rewrite app_nil_r.
  - rewrite append_to_last_snoc, IH. by rewrite <- app_assoc.
Qed.

Lemma extend_last_nil (lines : Lines) : extend_last [] lines = [].
Proof. induction lines; simpl; done. Qed.

Lemma _find_folds_loop (lines : Lines) (ret : list Lines) :
  Forall (line_ok data) lines ->
  Py.for_ lines (MessageHeader._find_folds_step whitespace data) ret
  = Some (extend_last ret
            (fold_lines (continuation whitespace data) lines).1
          ++ (fold_lines (continuation whitespace data) lines).2).
Proof.
  intros Hok. revert ret.
  induction Hok as [|l lines Hl Hok IH]; intros ret; simpl.
  - by rewrite app_nil_r.
  - rewrite _find_folds_step_ok by done. simpl.
    destruct (fold_lines _ lines) as [leading groups] eqn:Hf.
    destruct (continuation whitespace data l); simpl in *.
    + apply IH.
    + rewrite IH, extend_last_snoc. simpl. by rewrite <- app_assoc.
Qed.

(** [_find_folds] folds every header line but the last, the separator. *)
Lemma _find_folds_spec (lines : Lines) (sep : Line) :
  Forall (line_ok data) lines ->
  MessageHeader._find_folds whitespace data (lines ++ [sep])
  = Some (fold_lines (continuation whitespace data) lines).2.
Proof.
  intros Hok. unfold MessageHeader._find_folds.
  destruct (lines ++ [sep]) as [|l ls] eqn:Hl; [by destruct lines|].
  rewrite <- Hl. clear l ls Hl.
  rewrite slice_prefix.
  2,3: unfold Py.len; rewrite length_app; simpl; lia.
  replace (Z.to_nat (Py.len (lines ++ [sep]) - 1)) with (length lines).
  2: { unfold Py.len. rewrite length_app. simpl. lia. }
  rewrite take_app_length.
  rewrite _find_folds_loop by done. by rewrite extend_last_nil.
Qed.

Lemma fold_lines_concat (f : Line -> bool) (lines : Lines) :
  (fold_lines f lines).1 ++ concat (fold_lines f lines).2 = lines.
Proof.
  induction lines as [|l lines IH]; simpl; [done|].
  destruct (fold_lines f lines) as [leading groups]. simpl in *.
  destruct (f l); simpl; by rewrite IH.
Qed.

Lemma fold_lines_leading (f : Line -> bool) (lines : Lines) :
  Forall (λ l, f l = true) (fold_lines f lines).1.
Proof.
  induction lines as [|l lines IH]; simpl; [done|].
  destruct (fold_lines f lines) as [leading groups]. simpl in *.
  destruct (f l) eqn:Hl; simpl; [by constructor|done].
Qed.

Lemma fold_lines_groups (f : Line -> bool) (lines : Lines) :
  Forall (λ g, ∃ l ls, g = l :: ls ∧ f l = false
                       ∧ Forall (λ l', f l' = true) ls)
    (fold_lines f lines).2.
Proof.
  induction lines as [|l lines IH]; simpl; [done|].
  pose proof (fold_lines_leading f lines) as Hlead.
  destruct (fold_lines f lines) as [leading groups]. simpl in *.
  destruct (f l) eqn:Hl; simpl; [done|].
  constructor; [|done]. eauto.
Qed.

Lemma byte_eqb_decide (c x : byte) : Byte.eqb c x = bool_decide (x = c).
Proof.
  case_bool_decide as Hx.
  - subst. by apply Byte.byte_dec_lb.
  - apply not_true_is_false. intros Heq. apply Byte.byte_dec_bl in Heq.
    by subst.
Qed.

Lemma index_where_before_colon (w : bytes) :
  match Py.index_where (Byte.eqb ":"%byte) w with
  | Some k => ":"%byte ∈ w ∧ take k w = before_colon w
  | None => ":"%byte ∉ w
  end.
Proof.
  induction w as [|c w IH]; simpl.
  - apply not_elem_of_nil.
  - rewrite byte_eqb_decide. case_bool_decide as Hc.
    + subst. split; [left|done].
    + destruct (Py.index_where _ w) as [k|]; simpl.
      * destruct IH as [Hin <-]. split; [by right|done].
      * rewrite not_elem_of_cons. done.
Qed.

Lemma slice_take (a e : Z) (k : nat) :
  (0 <= a)%Z -> (a + Z.of_nat k <= e)%Z -> (e <= Py.len data)%Z ->
  Py.slice data a (a + Z.of_nat k) = take k (Py.slice data a e).
Proof.
  intros. rewrite !slice_in_range by lia.
  rewrite take_take. f_equal. lia.
Qed.

Lemma _parse_headers_step_ok (headers : Headers) (folded : Folded)
    (group : Lines) :
  group ≠ [] -> Forall (line_ok data) group ->
  MessageHeader._parse_headers_step data (headers, folded) group
  = Some (if has_colon data group
          then (<[header_name data group :=
                    default [] (headers !! header_name data group)
                    ++ [group_value data group]]> headers,
                folded ++ [(header_name data group,
                            _util.get_raw data [group])])
          else (headers, folded)).
Proof.
  intros Hne Hok. destruct group as [|[[s e] n] group]; [done|].
  apply Forall_cons_1 in Hok as [(? & ? & ? & ?) _].
  unfold MessageHeader._parse_headers_step, has_colon, header_name.
  cbn [head mbind option_bind]. unfold Py.find.
  pose proof (index_where_before_colon (Py.slice data s e)) as Hw.
  destruct (Py.index_where _ _) as [k|] eqn:Hk.
  - destruct Hw as [Hin Hbefore].
    apply index_where_Some in Hk as (Hlt & _ & _).
    pose proof (slice_length data s e ltac:(lia) ltac:(lia) ltac:(lia))
      as Hlen.
    unfold Py.len in Hlen at 1.
    rewrite norm_index_id by lia.
    destruct (Z.ltb_spec (s + Z.of_nat k) 0); [lia|].
    rewrite bool_decide_eq_true_2 by done.
    rewrite (slice_take s e k) by lia. rewrite Hbefore. done.
  - simpl. by rewrite bool_decide_eq_false_2.
Qed.

Lemma _parse_headers_loop (folds : list Lines) (headers : Headers)
    (folded : Folded) :
  Forall (λ g, g ≠ [] ∧ Forall (line_ok data) g) folds ->
  ∃ headers',
    Py.for_ folds (MessageHeader._parse_headers_step data) (headers, folded)
    = Some (headers', folded ++ folded_of data folds)
    ∧ ∀ name,
        headers' !! name
        = match values_of data folds name with
          | [] => headers !! name
          | vs => Some (default [] (headers !! name) ++ vs)
          end.
Proof.
  intros Hok. revert headers folded.
  induction Hok as [|g folds [Hne Hg] Hok IH]; intros headers folded.
  - exists headers. simpl. unfold folded_of. simpl.
    by rewrite app_nil_r.
  - rewrite for__cons, _parse_headers_step_ok by done.
    cbn [mbind option_bind].
    unfold folded_of, values_of, kept_groups in *. cbn [List.filter].
    destruct (has_colon data g) eqn:Hcolon.
    + edestruct IH as (headers' & -> & Hlook).
      exists headers'. split.
      { simpl. by rewrite <- app_assoc. }
      intros name. rewrite Hlook. cbn [List.filter].
      case_bool_decide as Hname.
      * subst name. rewrite lookup_insert_eq. cbn [map].
        destruct (map (group_value data) (List.filter _ _)) as [|v vs];
          [done|].
        simpl. by rewrite <- app_assoc.
      * by rewrite lookup_insert_ne.
    + apply IH.
Qed.

(** [_parse_headers] on groups as [_find_folds] makes them. *)
Lemma _parse_headers_spec (folds : list Lines) :
  Forall (λ g, g ≠ [] ∧ Forall (line_ok data) g) folds ->
  ∃ headers,
    MessageHeader._parse_headers data folds
    = Some (folded_of data folds, {| ParsedHeaders.headers := headers |})
    ∧ ∀ name,
        headers !! name
        = match values_of data folds name with
          | [] => None
          | vs => Some vs
          end.
Proof.
  intros Hok. unfold MessageHeader._parse_headers.
  destruct (_parse_headers_loop folds ∅ [] Hok) as (headers & -> & Hlook).
  exists headers. split; [done|].
  intros name. rewrite Hlook, lookup_empty. done.
Qed.

End HeaderFacts.

(** ** Parts: [_find_parts] *)
Section PartFacts.

Variable data : bytes.

Lemma existsb_twice (view m : bytes) :
  existsb (λ m', bool_decide (view = m')) [m; m] = bool_decide (view = m).
Proof. simpl. by destruct (bool_decide (view = m)). Qed.

Lemma _find_parts_loop_spec (open_ stop : bytes) (lines : Lines)
    (ret : list Lines) :
  _MultipartBody._find_parts_loop data [open_; open_] [stop; stop] lines ret
  = extend_last ret
      (split_at (line_is data open_)
         (before_stop (line_is data stop) lines)).1
    ++ (split_at (line_is data open_)
          (before_stop (line_is data stop) lines)).2.
Proof.
  revert ret. induction lines as [|[[s e] n] lines IH]; intros ret.
  - simpl. by rewrite app_nil_r.
  - cbn [_MultipartBody._find_parts_loop].
    rewrite !existsb_twice.
    change (bool_decide (Py.slice data s e = stop))
      with (line_is data stop (s, e, n)).
    change (bool_decide (Py.slice data s e = open_))
      with (line_is data open_ (s, e, n)).
    cbn [before_stop].
    destruct (line_is data stop (s, e, n)).
    { simpl. by rewrite app_nil_r. }
    cbn [split_at].
    destruct (split_at _ _) as [first parts] eqn:Hsplit.
    destruct (line_is data open_ (s, e, n)).
    + rewrite IH. simpl.
      rewrite extend_last_snoc. simpl. by rewrite <- app_assoc.
    + assert (Hret :
        match ret with
        | [] =>
            _MultipartBody._find_parts_loop data [open_; open_] [stop; stop]
              lines ret
        | _ :: _ =>
            _MultipartBody._find_parts_loop data [open_; open_] [stop; stop]
              lines (Py.append_to_last ret (s, e, n))
        end
        = _MultipartBody._find_parts_loop data [open_; open_] [stop; stop]
            lines (Py.append_to_last ret (s, e, n))) by (by destruct ret).
      rewrite Hret, IH. done.
Qed.

(** [_find_parts] computes the parts as the specification words them. *)
Lemma _find_parts_spec (lines : Lines) (boundary : bytes) :
  _MultipartBody._find_parts data lines boundary
  = parts_of data boundary lines.
Proof.
  unfold _MultipartBody._find_parts, parts_of.
  rewrite _find_parts_loop_spec. by rewrite extend_last_nil.
Qed.

Lemma before_stop_prefix (f : Line -> bool) (lines : Lines) :
  ∃ c, lines = before_stop f lines ++ c.
Proof.
  induction lines as [|l lines [c IH]]; simpl; [by exists []|].
  destruct (f l); [by eexists|].
  exists c. simpl. by f_equal.
Qed.

Lemma split_at_segments (f : Line -> bool) (lines : Lines) :
  (∃ c, lines = (split_at f lines).1 ++ c)
  ∧ Forall (segment_of lines) (split_at f lines).2.
Proof.
  induction lines as [|l lines [[c Hc] IH]]; simpl.
  - split; [by exists []|done].
  - destruct (split_at f lines) as [first parts]. simpl in *.
    assert (Hparts : Forall (segment_of (l :: lines)) parts).
    { eapply Forall_impl; [exact IH|].
      intros p (a & c' & -> & _). by exists (l :: a), c'. }
    destruct (f l); simpl.
    + split; [by eexists|]. constructor; [|done].
      exists [l], c. split; [by rewrite Hc at 1|done].
    + split; [|done]. exists c. by rewrite Hc at 1.
Qed.

Lemma parts_of_segments (boundary : bytes) (lines : Lines) :
  Forall (segment_of lines) (parts_of data boundary lines).
Proof.
  unfold parts_of.
  destruct (before_stop_prefix
    (line_is data (Py.b "--" ++ boundary ++ Py.b "--")) lines) as [c Hc].
  eapply Forall_impl; [apply split_at_segments|].
  intros p (a & c' & Hp & Ha). exists a, (c' ++ c). split; [|done].
  rewrite Hc at 1. rewrite Hp. by rewrite <- !app_assoc.
Qed.

Lemma segment_of_length (lines p : Lines) :
  segment_of lines p -> length p < length lines.
Proof.
  intros (a & c & -> & Ha). rewrite !length_app.
  destruct a; [done|]. simpl. lia.
Qed.

Lemma segment_of_chain (lines p : Lines) (lo hi : Z) :
  segment_of lines p -> chain lo lines hi ->
  ∃ lo' hi', (lo <= lo')%Z ∧ (hi' <= hi)%Z ∧ chain lo' p hi'.
Proof.
  intros (a & c & -> & _) Hc.
  apply chain_app in Hc as (lo' & Ha & Hc).
  apply chain_app in Hc as (hi' & Hp & Hc).
  apply chain_le in Ha, Hc. eauto.
Qed.

End PartFacts.

(** ** The shape of the lines *)
Section FindLinesFacts.

Variable data : bytes.

Lemma getitem_nonneg (i : Z) :
  (0 <= i)%Z -> Py.getitem data i = data !! Z.to_nat i.
Proof.
  intros. unfold Py.getitem.
  destruct (Z.ltb_spec i 0); [lia|]. by destruct (Z.ltb_spec i 0); [lia|].
Qed.

Lemma slice_one (i : Z) (x : byte) :
  (0 <= i)%Z -> data !! Z.to_nat i = Some x -> Py.slice data i (i + 1) = [x].
Proof.
  intros Hi Hx. pose proof (lookup_lt_Some _ _ _ Hx) as Hlt.
  rewrite slice_in_range by (unfold Py.len; lia).
  rewrite (drop_S _ _ _ Hx).
  replace (Z.to_nat (i + 1) - Z.to_nat i) with 1 by lia. done.
Qed.

Lemma slice_two (i : Z) (x y : byte) :
  (0 <= i)%Z -> data !! Z.to_nat i = Some x ->
  data !! Z.to_nat (i + 1) = Some y ->
  Py.slice data i (i + 2) = [x; y].
Proof.
  intros Hi Hx Hy. pose proof (lookup_lt_Some _ _ _ Hy) as Hlt.
  rewrite <- (slice_app data i (i + 1) (i + 2)) by (unfold Py.len; lia).
  rewrite (slice_one i x) by done.
  replace (i + 2)%Z with (i + 1 + 1)%Z by lia.
  rewrite (slice_one (i + 1) y) by (done || lia). done.
Qed.

(** What [find] finds: the first LF of the window, or none in it. *)
Lemma find_lf (a e : Z) :
  (0 <= a)%Z -> (a <= e)%Z -> (e <= Py.len data)%Z ->
  (Py.find data x0a a e = (-1)%Z ∧ x0a ∉ Py.slice data a e)
  ∨ ((a <= Py.find data x0a a e < e)%Z
     ∧ data !! Z.to_nat (Py.find data x0a a e) = Some x0a
     ∧ x0a ∉ Py.slice data a (Py.find data x0a a e)).
Proof.
  intros Ha Hae He. unfold Py.find.
  destruct (Py.index_where _ _) as [k|] eqn:Hk.
  - right. apply index_where_Some in Hk as (Hlt & (x & Hx & Heq) & Hnone).
    pose proof (slice_length data a e Ha Hae He) as Hlen.
    unfold Py.len in Hlen at 1.
    rewrite norm_index_id by lia. split; [lia|].
    rewrite byte_eqb_decide in Heq. apply bool_decide_eq_true in Heq.
    subst x. split.
    + rewrite slice_in_range in Hx by done.
      rewrite lookup_take_lt in Hx by lia.
      rewrite lookup_drop in Hx. rewrite <- Hx. f_equal. lia.
    + rewrite (slice_take data a e k) by lia.
      intros Hin. rewrite forallb_forall in Hnone.
      apply list_elem_of_In, Hnone in Hin.
      rewrite byte_eqb_decide, bool_decide_eq_true_2 in Hin; done.
  - left. split; [done|]. apply index_where_None in Hk.
    intros Hin. rewrite forallb_forall in Hk.
    apply list_elem_of_In, Hk in Hin.
    rewrite byte_eqb_decide, bool_decide_eq_true_2 in Hin; done.
Qed.

Lemma not_elem_of_slice_shorter (a m e : Z) (c : byte) :
  (0 <= a)%Z -> (a <= m)%Z -> (m <= e)%Z -> (e <= Py.len data)%Z ->
  c ∉ Py.slice data a e -> c ∉ Py.slice data a m.
Proof.
  intros Ha Hm He Hlen Hnot Hin. apply Hnot.
  rewrite <- (slice_app data a m e) by done.
  apply elem_of_app. by left.
Qed.

Lemma _find_lines_loop_shape (fuel : nat) (start : Z) (ret : Lines) :
  (0 <= start)%Z -> (start <= Py.len data)%Z ->
  (Py.len data - start < Z.of_nat fuel)%Z ->
  Forall (terminated_line data) ret ->
  ∃ init last,
    MessageContent._find_lines_loop fuel data start (Py.len data) ret
    = Some (init ++ [last])
    ∧ Forall (terminated_line data) init ∧ final_line data last.
Proof.
  revert start ret.
  induction fuel as [|fuel IH]; intros start ret H0 Hle Hfuel Hret; [lia|].
  cbn [MessageContent._find_lines_loop].
  destruct (find_lf start (Py.len data)) as [[Hf Hnone]|(Hf & Hlf & Hnone)];
    [lia..| |].
  - rewrite Hf. simpl. exists ret, (start, Py.len data, Py.len data).
    split; [done|]. split; [done|]. done.
  - set (idx := Py.find data x0a start (Py.len data)) in *.
    destruct (Z.ltb_spec idx 0); [lia|].
    destruct (Z.geb_spec (idx - 1) start) as [Hge|Hlt].
    + destruct (getitem_in_range data (idx - 1)) as [c Hc]; [lia..|].
      rewrite Hc. cbn [mbind option_bind].
      apply IH; [lia..|].
      apply Forall_app. split; [done|]. constructor; [|done].
      rewrite getitem_nonneg in Hc by lia.
      case_bool_decide as Hcr.
      * subst c. split.
        -- apply (not_elem_of_slice_shorter start (idx - 1) idx);
             [lia..|done].
        -- right. replace (idx + 1)%Z with (idx - 1 + 2)%Z by lia.
           apply slice_two; [lia|done|].
           by replace (idx - 1 + 1)%Z with idx by lia.
      * split; [done|]. left. by apply slice_one; [lia|].
    + cbn [mbind option_bind]. apply IH; [lia..|].
      apply Forall_app. split; [done|]. constructor; [|done].
      split; [done|]. left. by apply slice_one; [lia|].
Qed.

Lemma line_bytes_concat (lines : Lines) (lo hi : Z) :
  (0 <= lo)%Z -> (hi <= Py.len data)%Z -> chain lo lines hi ->
  concat (map (line_bytes data) lines) = Py.slice data lo hi.
Proof.
  revert lo. induction lines as [|[[s e] n] lines IH]; intros lo Hlo Hhi.
  - simpl. intros ->. symmetry. by apply slice_empty.
  - cbn [chain map concat line_bytes]. intros (-> & ? & ? & Hc).
    pose proof (chain_le _ _ _ Hc).
    rewrite (IH n) by (done || lia). apply slice_app; lia.
Qed.

Lemma count_lf_app (l1 l2 : bytes) :
  count_lf (l1 ++ l2) = count_lf l1 + count_lf l2.
Proof. unfold count_lf. by rewrite filter_app, length_app. Qed.

Lemma count_lf_none (l : bytes) : x0a ∉ l -> count_lf l = 0.
Proof.
  unfold count_lf. induction l as [|c l IH]; [done|].
  intros [Hc Hl]%not_elem_of_cons.
  rewrite filter_cons_False by done. by apply IH.
Qed.

Lemma count_lf_lines (init : Lines) (last : Line) (lo hi : Z) :
  (0 <= lo)%Z -> (hi <= Py.len data)%Z -> chain lo (init ++ [last]) hi ->
  Forall (terminated_line data) init -> final_line data last ->
  count_lf (concat (map (line_bytes data) (init ++ [last]))) = length init.
Proof.
  intros Hlo Hhi Hchain Hinit Hlast. revert lo Hlo Hchain.
  induction Hinit as [|[[s e] n] init [Hnone Hterm] _ IH]; intros lo Hlo.
  - destruct last as [[s e] n]. simpl. intros (-> & ? & ? & <-).
    destruct Hlast as (Hnone & -> & _).
    rewrite app_nil_r. by apply count_lf_none.
  - cbn [app chain map concat line_bytes]. intros (-> & ? & ? & Hc).
    pose proof (chain_le _ _ _ Hc).
    rewrite count_lf_app, (IH n) by (done || lia).
    rewrite <- (slice_app data lo e n) by lia.
    rewrite count_lf_app, count_lf_none by done.
    by destruct Hterm as [-> | ->].
Qed.

(** The last line of a buffer that ends with LF is empty. *)
Lemma _find_lines_last_empty (init : Lines) (last : Line) :
  (∃ data', data = data' ++ [x0a]) ->
  MessageContent._find_lines data = Some (init ++ [last]) ->
  last = (Py.len data, Py.len data, Py.len data).
Proof.
  intros [data' Hdata] Hlines. pose proof (len_nonneg data).
  destruct (_find_lines_loop_shape (S (length data)) 0 [])
    as (init' & last' & Hshape & _ & Hlast); [lia|lia| |done|].
  { unfold Py.len. lia. }
  destruct (_find_lines_chain data) as (lines' & Hlines' & Hchain & _).
  assert (lines' = init ++ [last]) as -> by congruence.
  unfold MessageContent._find_lines in Hlines.
  assert (Heq : init' ++ [last'] = init ++ [last]) by congruence.
  apply app_inj_tail in Heq as [_ ->].
  apply chain_app in Hchain as (m & Hinit & Hl).
  pose proof (chain_le _ _ _ Hinit).
  destruct last as [[s e] n]. cbn [chain final_line] in *.
  destruct Hl as (-> & ? & ? & ->). destruct Hlast as (Hno & -> & _).
  destruct (decide (m = Py.len data)) as [->|Hne]; [done|].
  exfalso. apply Hno.
  assert (Hlen : Py.len data = (Py.len data' + 1)%Z).
  { rewrite Hdata. unfold Py.len. rewrite length_app. simpl. lia. }
  pose proof (len_nonneg data').
  rewrite <- (slice_app data m (Py.len data') (Py.len data)) by lia.
  apply elem_of_app. right. rewrite Hlen.
  rewrite (slice_one (Py.len data') x0a); [by left|lia|].
  rewrite Hdata. unfold Py.len. rewrite Nat2Z.id.
  by rewrite lookup_app_r, Nat.sub_diag by lia.
Qed.

End FindLinesFacts.


(** ** The parser: it returns, and what it returns *)
Section ParseFacts.

Variable whitespace : bytes.
Variable header_fetch_parse : list bytes -> option ContentTypeHeader.
Variable data : bytes.

Local Abbreviation nonblank := (λ l, blank whitespace data l = false).

Lemma _split_lines_loop_spec (seen rest : Lines) :
  Forall nonblank seen ->
  (∃ pre sep post,
     seen ++ rest = pre ++ sep :: post
     ∧ Forall nonblank pre ∧ blank whitespace data sep = true
     ∧ MessageContent._split_lines_loop whitespace data (seen ++ rest)
         (Py.len seen) rest = (pre ++ [sep], post))
  ∨ (Forall nonblank (seen ++ rest)
     ∧ MessageContent._split_lines_loop whitespace data (seen ++ rest)
         (Py.len seen) rest = ([], seen ++ rest)).
Proof.
  revert seen. induction rest as [|[[s e] n] rest IH]; intros seen Hseen.
  - right. rewrite app_nil_r. done.
  - cbn [MessageContent._split_lines_loop].
    rewrite (find_any_blank whitespace data s e n).
    destruct (blank whitespace data (s, e, n)) eqn:Hb.
    + left. exists seen, (s, e, n), rest. repeat split; [done..|].
      assert (Hlen : Py.len (seen ++ (s, e, n) :: rest)
                     = (Py.len seen + 1 + Py.len rest)%Z).
      { unfold Py.len. rewrite length_app. simpl. lia. }
      pose proof (len_nonneg seen). pose proof (len_nonneg rest).
      rewrite slice_prefix, slice_suffix by lia.
      replace (Z.to_nat (Py.len seen + 1)) with (length (seen ++ [(s, e, n)]))
        by (unfold Py.len; rewrite length_app; simpl; lia).
      rewrite (cons_middle _ seen rest), app_assoc.
      by rewrite take_app_length, drop_app_length.
    + specialize (IH (seen ++ [(s, e, n)])).
      rewrite <- app_assoc in IH. simpl in IH.
      replace (Py.len (seen ++ [(s, e, n)])) with (Py.len seen + 1)%Z in IH
        by (unfold Py.len; rewrite length_app; simpl; lia).
      apply IH. apply Forall_app. split; [done|]. by constructor.
Qed.

(** [_split_lines]: the header region ends with the first blank line; with
    no blank line it is empty. *)
Lemma _split_lines_spec (lines : Lines) :
  (∃ pre sep post,
     lines = pre ++ sep :: post
     ∧ Forall nonblank pre ∧ blank whitespace data sep = true
     ∧ MessageContent._split_lines whitespace data lines
       = (pre ++ [sep], post))
  ∨ (Forall nonblank lines
     ∧ MessageContent._split_lines whitespace data lines = ([], lines)).
Proof. apply (_split_lines_loop_spec [] lines). constructor. Qed.

Lemma _split_lines_app (lines hl bl : Lines) :
  MessageContent._split_lines whitespace data lines = (hl, bl) ->
  lines = hl ++ bl ∧ (hl = [] ∨ length bl < length lines).
Proof.
  intros Hs.
  destruct (_split_lines_spec lines)
    as [(pre & sep & post & -> & _ & _ & Heq)|[_ Heq]];
    rewrite Heq in Hs; injection Hs as <- <-.
  - split; [by rewrite <- app_assoc|]. right.
    rewrite !length_app. simpl. lia.
  - split; [done|by left].
Qed.

Lemma fold_lines_ok (f : Line -> bool) (lines : Lines) :
  Forall (line_ok data) lines ->
  Forall (line_ok data) (fold_lines f lines).1
  ∧ Forall (λ g, g ≠ [] ∧ Forall (line_ok data) g) (fold_lines f lines).2.
Proof.
  induction 1 as [|l lines Hl Hok [IH1 IH2]]; simpl; [done|].
  destruct (fold_lines f lines) as [leading groups]. simpl in *.
  destruct (f l); simpl; split; try done.
  - by constructor.
  - constructor; [|done]. split; [done|]. by constructor.
Qed.

Lemma MessageHeader_parse_nil :
  MessageHeader._parse whitespace data []
  = Some {| MessageHeader.raw := []; MessageHeader.lines := 0;
            MessageHeader.folded := [];
            MessageHeader.parsed := {| ParsedHeaders.headers := ∅ |} |}.
Proof. reflexivity. Qed.

(** [MessageHeader._parse] on a header region with its separator. *)
Lemma MessageHeader_parse_spec (pre : Lines) (sep : Line) :
  Forall (line_ok data) pre ->
  let folds := (fold_lines (continuation whitespace data) pre).2 in
  ∃ headers,
    MessageHeader._parse whitespace data (pre ++ [sep])
    = Some {| MessageHeader.raw := _util.get_raw data [pre ++ [sep]];
              MessageHeader.lines := Py.len (pre ++ [sep]);
              MessageHeader.folded := folded_of data folds;
              MessageHeader.parsed := {| ParsedHeaders.headers := headers |} |}
    ∧ ∀ name,
        headers !! name
        = match values_of data folds name with
          | [] => None
          | vs => Some vs
          end.
Proof.
  intros Hok folds. unfold MessageHeader._parse.
  rewrite _find_folds_spec by done. fold folds. cbn [mbind option_bind].
  destruct (_parse_headers_spec data folds) as (headers & -> & Hlook).
  { apply fold_lines_ok. done. }
  exists headers. done.
Qed.

(** [MessageHeader._parse] returns on lines of the buffer, with the raw view
    of its lines; a header region without lines has no headers. *)
Lemma MessageHeader_parse_total (lines : Lines) :
  Forall (line_ok data) lines ->
  ∃ h,
    MessageHeader._parse whitespace data lines = Some h
    ∧ MessageHeader.raw h = _util.get_raw data [lines]
    ∧ (lines = [] ->
       ParsedHeaders.content_type header_fetch_parse (MessageHeader.parsed h)
       = None).
Proof.
  intros Hok. destruct lines as [|l lines _] using rev_ind.
  - rewrite MessageHeader_parse_nil. eexists. split; [done|]. done.
  - apply Forall_app in Hok as [Hok _].
    destruct (MessageHeader_parse_spec lines l Hok) as (headers & -> & _).
    eexists. split; [done|]. split; [done|].
    intros Hnil. by destruct lines.
Qed.

Lemma walk_unfold (c : MessageContent) :
  MessageContent.walk c
  = c :: concat (map MessageContent.walk (MessageBody.nested (Attr.body c))).
Proof. by destruct c as [? ? ? []]. Qed.

Lemma for__collect {A B} (f : A -> option B) (l : list A) (acc : list B) :
  Py.for_ l (λ acc x, y ← f x; Some (acc ++ [y])) acc
  = ys ← mapM f l; Some (acc ++ ys).
Proof.
  revert acc. induction l as [|x l IH]; intros acc; simpl.
  - by rewrite app_nil_r.
  - destruct (f x) as [y|]; simpl; [|done].
    rewrite IH. destruct (mapM f l); simpl; [|done].
    by rewrite <- app_assoc.
Qed.

Lemma mapM_total {A B} (f : A -> option B) (Q : B -> Prop) (l : list A) :
  Forall (λ x, ∃ y, f x = Some y ∧ Q y) l ->
  ∃ ys, mapM f l = Some ys ∧ Forall Q ys.
Proof.
  induction 1 as [|x l (y & Hy & HQ) _ (ys & Hys & HQs)]; simpl.
  - by exists [].
  - rewrite Hy, Hys. simpl. exists (y :: ys). split; [done|].
    by constructor.
Qed.

(** [MessageBody._parse] returns when the recursive calls it makes do. *)
Lemma MessageBody_parse_inv
    (rec : bytes -> Lines -> option MessageContent) (bl : Lines)
    (ct : option ContentTypeHeader) (Q : MessageContent -> Prop) :
  (∀ p, segment_of bl p -> ∃ c, rec data p = Some c ∧ Q c) ->
  (ct ≠ None -> ∃ c, rec data bl = Some c ∧ Q c) ->
  ∃ b,
    MessageBody._parse rec data bl ct = Some b
    ∧ Forall Q (MessageBody.nested b).
Proof.
  intros Hparts Hwhole.
  assert (Hsingle : ∃ b,
    _SinglepartBody._parse_body data bl (default _default_type ct) = Some b
    ∧ Forall Q (MessageBody.nested b)).
  { eexists. split; [done|]. simpl. done. }
  unfold MessageBody._parse.
  case_bool_decide as Hmulti.
  - destruct (MessageBody._get_boundary _) as [boundary|]; [|done].
    case_bool_decide; [|done].
    unfold _MultipartBody._parse_body.
    rewrite for__collect, _find_parts_spec.
    destruct (mapM_total (rec data) Q (parts_of data boundary bl))
      as (cs & -> & HQ).
    { eapply Forall_impl; [apply parts_of_segments|]. exact Hparts. }
    simpl. eexists. split; [done|]. simpl. done.
  - destruct (bool_decide (maintype _ = "message")
              && bool_decide (subtype _ = "rfc822")) eqn:Hrfc; [|done].
    destruct Hwhole as (c & Hc & HQ).
    { intros ->. simpl in Hrfc. done. }
    unfold _RFC822Body._parse_body. rewrite Hc. simpl.
    eexists. split; [done|]. simpl. by constructor.
Qed.

(** [_parse] returns on lines that follow one another in the buffer, given
    more fuel than lines. *)
Lemma _parse_inv (fuel : nat) (lines : Lines) (lo hi : Z) :
  length lines < fuel ->
  (0 <= lo)%Z -> (hi <= Py.len data)%Z -> chain lo lines hi ->
  ∃ c,
    MessageContent._parse whitespace header_fetch_parse fuel data lines
    = Some c.
Proof.
  revert lines lo hi.
  induction fuel as [|fuel IH]; intros lines lo hi Hfuel Hlo Hhi Hchain;
    [lia|].
  cbn [MessageContent._parse].
  destruct (MessageContent._split_lines whitespace data lines)
    as [hl bl] eqn:Hsplit.
  apply _split_lines_app in Hsplit as [-> Hlen].
  apply chain_app in Hchain as (mid & Hhl & Hbl).
  pose proof (chain_le _ _ _ Hhl). pose proof (chain_le _ _ _ Hbl).
  destruct (MessageHeader_parse_total hl) as (h & -> & Hhraw & Hnil).
  { eapply chain_line_ok; [| |exact Hhl]; lia. }
  cbn [mbind option_bind].
  destruct (MessageBody_parse_inv
    (MessageContent._parse whitespace header_fetch_parse fuel) bl
    (ParsedHeaders.content_type header_fetch_parse (MessageHeader.parsed h))
    (λ _, True))
    as (b & -> & _).
  - intros p Hp.
    destruct (segment_of_chain _ _ _ _ Hp Hbl) as (lo' & hi' & ? & ? & Hpc).
    apply segment_of_length in Hp.
    destruct (IH p lo' hi') as (c & ?); [|lia|lia|done|by eauto].
    rewrite length_app in Hfuel. lia.
  - intros Hct.
    destruct Hlen as [->|Hlen]; [by rewrite Hnil in Hct|].
    destruct (IH bl mid hi) as (c & ?); [lia|lia|done|done|].
    by eauto.
  - eexists. done.
Qed.

(** [parse] returns on every bytestring. *)
Lemma parse_total :
  ∃ c, MessageContent.parse whitespace header_fetch_parse data = Some c.
Proof.
  unfold MessageContent.parse.
  destruct (_find_lines_chain data) as (lines & -> & Hchain & _).
  cbn [mbind option_bind].
  apply (_parse_inv (S (length lines)) lines 0 (Py.len data)); [lia..|done].
Qed.

End ParseFacts.

(** ** The contents the parser returns, case by case *)
Lemma _MultipartBody_parse_body_spec
    (rec : bytes -> Lines -> option MessageContent) (data : bytes)
    (lines : Lines) (t : ContentTypeHeader) (boundary : bytes) :
  _MultipartBody._parse_body rec data lines t boundary
  = nested ← mapM (rec data) (parts_of data boundary lines);
    Some (_MultipartBody (_util.get_raw data [lines]) (Py.len lines) t
            nested).
Proof.
  unfold _MultipartBody._parse_body.
  rewrite for__collect, _find_parts_spec.
  by destruct (mapM _ _).
Qed.

Section ParseCases.

Variable whitespace : bytes.
Variable header_fetch_parse : list bytes -> option ContentTypeHeader.
Variable data : bytes.

Local Abbreviation _parse :=
  (MessageContent._parse whitespace header_fetch_parse).

(** The three ways [MessageBody._parse] returns a body. *)
Lemma MessageBody_parse_cases
    (rec : bytes -> Lines -> option MessageContent) (bl : Lines)
    (ct : option ContentTypeHeader) (b : MessageBody) :
  MessageBody._parse rec data bl ct = Some b ->
  b = _SinglepartBody (_util.get_raw data [bl]) (Py.len bl)
        (default _default_type ct)
  ∨ (∃ boundary cs,
       ct ≠ None
       ∧ Forall2 (λ p c, rec data p = Some c) (parts_of data boundary bl) cs
       ∧ b = _MultipartBody (_util.get_raw data [bl]) (Py.len bl)
               (default _default_type ct) cs)
  ∨ (∃ subpart,
       ct ≠ None ∧ rec data bl = Some subpart
       ∧ b = _RFC822Body (Attr.raw subpart) (Attr.lines subpart)
               (default _default_type ct) [subpart]).
Proof.
  unfold MessageBody._parse. intros Hb.
  assert (Hsingle :
    _SinglepartBody._parse_body data bl (default _default_type ct) = Some b ->
    b = _SinglepartBody (_util.get_raw data [bl]) (Py.len bl)
          (default _default_type ct)).
  { intros [= <-]. done. }
  case_bool_decide as Hmulti.
  - destruct (MessageBody._get_boundary _) as [boundary|]; [|by left; auto].
    case_bool_decide; [|by left; auto].
    right. left. rewrite _MultipartBody_parse_body_spec in Hb.
    destruct (mapM _ _) as [cs|] eqn:Hcs; [|done].
    injection Hb as <-. exists boundary, cs.
    split; [by intros ->|]. split; [|done]. by apply mapM_Some.
  - destruct (bool_decide (maintype _ = "message")
              && bool_decide (subtype _ = "rfc822")) eqn:Hrfc;
      [|by left; auto].
    right. right. unfold _RFC822Body._parse_body in Hb.
    destruct (rec data bl) as [subpart|] eqn:Hsub; [|done].
    injection Hb as <-. exists subpart.
    split; [by intros ->|]. done.
Qed.

(** One round of [_parse]. *)
Lemma _parse_cases (fuel : nat) (lines : Lines) (c : MessageContent) :
  _parse (S fuel) data lines = Some c ->
  ∃ h b,
    MessageHeader._parse whitespace data
      (MessageContent._split_lines whitespace data lines).1 = Some h
    ∧ MessageBody._parse (_parse fuel) data
        (MessageContent._split_lines whitespace data lines).2
        (ParsedHeaders.content_type header_fetch_parse
           (MessageHeader.parsed h)) = Some b
    ∧ c = Content
            (_util.get_raw data
               [(MessageContent._split_lines whitespace data lines).1;
                (MessageContent._split_lines whitespace data lines).2])
            (Py.len lines - 1) h b.
Proof.
  cbn [MessageContent._parse].
  destruct (MessageContent._split_lines whitespace data lines) as [hl bl].
  cbn [fst snd].
  destruct (MessageHeader._parse whitespace data hl) as [h|]; [|done].
  cbn [mbind option_bind].
  destruct (MessageBody._parse _ data bl _) as [b|] eqn:Hb; [|done].
  intros [= <-]. by exists h, b.
Qed.

Lemma MessageHeader_parse_lines (hl : Lines) (h : MessageHeader.t) :
  MessageHeader._parse whitespace data hl = Some h ->
  MessageHeader.lines h = Py.len hl
  ∧ (hl = [] ->
     ParsedHeaders.content_type header_fetch_parse (MessageHeader.parsed h)
     = None).
Proof.
  intros Hh. split.
  - unfold MessageHeader._parse in Hh.
    destruct (MessageHeader._find_folds _ _ _) as [folds|]; [|done].
    cbn [mbind option_bind] in Hh.
    destruct (MessageHeader._parse_headers _ _) as [[folded parsed]|];
      [|done].
    by injection Hh as <-.
  - intros ->. rewrite MessageHeader_parse_nil in Hh. by injection Hh as <-.
Qed.

(** Induction over the contents [_parse] returns: a property of the lines
    and the content that holds for a content when it holds for its nested
    contents and the lines they were parsed from. *)
Lemma _parse_ind (Q : Lines -> MessageContent -> Prop) :
  (∀ hl bl h b,
     MessageContent._split_lines whitespace data (hl ++ bl) = (hl, bl) ->
     MessageHeader._parse whitespace data hl = Some h ->
     b = _SinglepartBody (_util.get_raw data [bl]) (Py.len bl)
           (default _default_type
              (ParsedHeaders.content_type header_fetch_parse
                 (MessageHeader.parsed h)))
     ∨ (∃ boundary cs,
          length bl < length (hl ++ bl)
          ∧ Forall2 Q (parts_of data boundary bl) cs
          ∧ b = _MultipartBody (_util.get_raw data [bl]) (Py.len bl)
                  (default _default_type
                     (ParsedHeaders.content_type header_fetch_parse
                        (MessageHeader.parsed h))) cs)
     ∨ (∃ subpart,
          length bl < length (hl ++ bl)
          ∧ Q bl subpart
          ∧ b = _RFC822Body (Attr.raw subpart) (Attr.lines subpart)
                  (default _default_type
                     (ParsedHeaders.content_type header_fetch_parse
                        (MessageHeader.parsed h))) [subpart]) ->
     Q (hl ++ bl)
       (Content (_util.get_raw data [hl; bl]) (Py.len (hl ++ bl) - 1) h b)) ->
  ∀ fuel lines c, _parse fuel data lines = Some c -> Q lines c.
Proof.
  intros Hstep. induction fuel as [|fuel IH]; intros lines c Hc; [done|].
  apply _parse_cases in Hc as (h & b & Hh & Hb & ->).
  destruct (MessageContent._split_lines whitespace data lines)
    as [hl bl] eqn:Hsplit.
  cbn [fst snd] in *.
  destruct (_split_lines_app whitespace data lines hl bl Hsplit)
    as [-> Hlen].
  apply Hstep; [done|done|].
  assert (Hshorter :
    ParsedHeaders.content_type header_fetch_parse (MessageHeader.parsed h)
    ≠ None -> length bl < length (hl ++ bl)).
  { intros Hct. destruct Hlen as [->|Hlen]; [|done].
    by apply MessageHeader_parse_lines in Hh as [_ Hnil]; rewrite Hnil in Hct. }
  apply MessageBody_parse_cases in Hb
    as [->|[(boundary & cs & Hct & Hcs & ->)|(subpart & Hct & Hsub & ->)]].
  - by left.
  - right. left. exists boundary, cs. split; [auto|]. split; [|done].
    eapply Forall2_impl; [exact Hcs|]. intros p c'. apply IH.
  - right. right. exists subpart. split; [auto|]. split; [|done].
    by apply IH.
Qed.

End ParseCases.

Lemma Forall2_Forall_impl {A B} (R : A -> B -> Prop) (P : A -> Prop)
    (Q : B -> Prop) (l : list A) (k : list B) :
  Forall2 R l k -> Forall P l -> (∀ x y, P x -> R x y -> Q y) ->
  Forall Q k.
Proof.
  intros HR HP Himpl.
  induction HR as [|x y l k Hxy _ IH]; [done|].
  apply Forall_cons_1 in HP as [Hx HP]. constructor; eauto.
Qed.

Section RawFacts.

Variable whitespace : bytes.
Variable header_fetch_parse : list bytes -> option ContentTypeHeader.
Variable data : bytes.

Local Abbreviation _parse :=
  (MessageContent._parse whitespace header_fetch_parse).

(** The raw header is the view of the header region, which ends with the
    separator line. *)
Lemma header_raw_views (lines hl bl : Lines) (lo mid : Z)
    (h : MessageHeader.t) :
  (0 <= lo)%Z -> (mid <= Py.len data)%Z -> chain lo hl mid ->
  MessageContent._split_lines whitespace data lines = (hl, bl) ->
  MessageHeader._parse whitespace data hl = Some h ->
  MessageHeader.raw h = _util.get_raw data [hl]
  ∧ (hl = []
     ∨ ∃ pre sep,
         hl = pre ++ [sep] ∧ blank whitespace data sep = true
         ∧ MessageHeader.raw h
           = _util.get_raw data [pre] ++ line_bytes data sep).
Proof.
  intros Hlo Hmid Hchain Hsplit Hh.
  destruct (MessageHeader_parse_total whitespace header_fetch_parse data hl)
    as (h' & Hh' & Hraw & _).
  { eapply chain_line_ok; [| |exact Hchain]; lia. }
  assert (h' = h) as -> by congruence.
  split; [done|].
  destruct (_split_lines_spec whitespace data lines)
    as [(pre & sep & post & -> & _ & Hsep & Heq)|[_ Heq]];
    rewrite Heq in Hsplit; injection Hsplit as <- <-; [right|by left].
  exists pre, sep. do 2 (split; [done|]). rewrite Hraw.
  pose proof Hchain as Hc.
  apply chain_app in Hc as (m & Hpre & Hs).
  pose proof (chain_le _ _ _ Hpre). pose proof (chain_le _ _ _ Hs).
  rewrite (get_raw_one data (pre ++ [sep]) lo mid) by (done || lia).
  rewrite (get_raw_one data pre lo m) by (done || lia).
  destruct sep as [[s e] n]. cbn [chain] in Hs.
  destruct Hs as (-> & ? & ? & ->). cbn [line_bytes].
  symmetry. apply slice_app; lia.
Qed.

(** The raw views of every content of the tree [_parse] returns on lines
    that follow one another in the buffer. *)
Lemma _parse_raw_views (fuel : nat) (lines : Lines) (lo hi : Z)
    (c : MessageContent) :
  (0 <= lo)%Z -> (hi <= Py.len data)%Z -> chain lo lines hi ->
  _parse fuel data lines = Some c ->
  raw_views whitespace data lines c
  ∧ (both_regions whitespace data lines -> Attr.raw c = Py.slice data lo hi)
  ∧ Forall (raw_layout whitespace header_fetch_parse data)
      (MessageContent.walk c).
Proof.
  revert lines lo hi c.
  induction fuel as [|fuel IH]; intros lines lo hi c Hlo Hhi Hchain Hc;
    [done|].
  assert (Hviews :
    raw_views whitespace data lines c
    ∧ (both_regions whitespace data lines -> Attr.raw c = Py.slice data lo hi)
    ∧ Forall (Forall (raw_layout whitespace header_fetch_parse data))
        (map MessageContent.walk (MessageBody.nested (Attr.body c)))).
  { pose proof Hc as Hc0.
    apply _parse_cases in Hc as (h & b & Hh & Hb & ->).
    unfold raw_views, both_regions.
    destruct (MessageContent._split_lines whitespace data lines)
      as [hl bl] eqn:Hsplit.
    cbn [fst snd Attr.raw Attr.header Attr.body] in *.
    destruct (_split_lines_app whitespace data lines hl bl Hsplit)
      as [Hlines _].
    rewrite Hlines in Hchain.
    pose proof Hchain as Hwhole.
    apply chain_app in Hchain as (mid & Hhl & Hbl).
    pose proof (chain_le _ _ _ Hhl). pose proof (chain_le _ _ _ Hbl).
    destruct (header_raw_views lines hl bl lo mid h) as [Hhraw Hsep];
      [lia|lia|done|done|done|].
    pose proof (get_raw_one data hl lo mid ltac:(lia) ltac:(lia) Hhl)
      as Hhslice.
    pose proof (get_raw_one data bl mid hi ltac:(lia) ltac:(lia) Hbl)
      as Hbslice.
    assert (Hraw : hl ≠ [] ∧ bl ≠ [] ->
      _util.get_raw data [hl; bl] = Py.slice data lo hi
      ∧ _util.get_raw data [hl; bl]
        = MessageHeader.raw h ++ _util.get_raw data [bl]).
    { intros [Hhne Hbne].
      rewrite (get_raw_two data hl bl lo hi) by done. split; [done|].
      rewrite Hhraw, Hhslice, Hbslice. symmetry. apply slice_app; lia. }
    apply MessageBody_parse_cases in Hb
      as [->|[(boundary & cs & _ & Hcs & ->)|(subpart & _ & Hsub & ->)]];
      cbn [is_rfc822 MessageBody.raw MessageBody.nested map].
    - split; [split; [exact Hhraw|split; [exact Hsep|split]]|split].
      + done.
      + intros Hne. destruct (Hraw Hne) as [_ Hcat]. done.
      + intros Hne. by destruct (Hraw Hne).
      + done.
    - split; [split; [exact Hhraw|split; [exact Hsep|split]]|split].
      + done.
      + intros Hne. destruct (Hraw Hne) as [_ Hcat]. done.
      + intros Hne. by destruct (Hraw Hne).
      + apply Forall_map.
        eapply Forall2_Forall_impl;
          [exact Hcs|apply parts_of_segments|].
        intros p c' Hp' Hp.
        destruct (segment_of_chain _ _ _ _ Hp' Hbl)
          as (lo' & hi' & ? & ? & Hpc).
        by destruct (IH p lo' hi' c' ltac:(lia) ltac:(lia) Hpc Hp)
          as (_ & _ & ?).
    - destruct (IH bl mid hi subpart ltac:(lia) ltac:(lia) Hbl Hsub)
        as (_ & Hsubraw & Hsubwalk).
      split; [split; [exact Hhraw|split; [exact Hsep|split]]|split].
      + by exists subpart.
      + intros Hne. destruct (Hraw Hne) as [_ Hcat]. split; [done|].
        intros [?|Hboth]; [done|].
        rewrite Hcat, (Hsubraw Hboth), Hbslice. done.
      + intros Hne. by destruct (Hraw Hne).
      + by repeat constructor. }
  destruct Hviews as (Hv & Hraw & Hnested).
  split; [done|]. split; [done|].
  rewrite walk_unfold. constructor.
  - by exists (S fuel), lines.
  - by apply Forall_concat.
Qed.

End RawFacts.


(** ** Header and body of a content *)

(** C1. For every input bytestring, [parse] splits the lines into header
    and body: the first line that is empty or whitespace-only ends the
    header region and belongs to it, the lines after it are the body; with
    no such line the header region is empty and every line is body.  The
    split is the one [_split_lines] makes for any run of lines, and the
    header and the body of the content [parse] returns are parsed from the
    two regions. *)
Theorem C1_header_body_split (whitespace : bytes)
    (header_fetch_parse : list bytes -> option ContentTypeHeader)
    (data : bytes) :
  (∀ lines : Lines,
     (∃ pre sep post,
        lines = pre ++ sep :: post
        ∧ Forall (λ l, blank whitespace data l = false) pre
        ∧ blank whitespace data sep = true
        ∧ MessageContent._split_lines whitespace data lines
          = (pre ++ [sep], post))
     ∨ (Forall (λ l, blank whitespace data l = false) lines
        ∧ MessageContent._split_lines whitespace data lines = ([], lines)))
  ∧ ∃ lines c,
      MessageContent._find_lines data = Some lines
      ∧ MessageContent.parse whitespace header_fetch_parse data = Some c
      ∧ MessageHeader._parse whitespace data
          (MessageContent._split_lines whitespace data lines).1
        = Some (Attr.header c)
      ∧ MessageBody._parse
          (MessageContent._parse whitespace header_fetch_parse
             (length lines))
          data (MessageContent._split_lines whitespace data lines).2
          (ParsedHeaders.content_type header_fetch_parse
             (MessageHeader.parsed (Attr.header c)))
        = Some (Attr.body c).
Proof.
  split; [apply _split_lines_spec|].
  destruct (parse_total whitespace header_fetch_parse data) as (c & Hc).
  unfold MessageContent.parse in *.
  destruct (MessageContent._find_lines data) as [lines|]; [|done].
  exists lines, c. split; [done|]. split; [done|].
  cbn [mbind option_bind MessageContent._parse] in Hc.
  destruct (MessageContent._split_lines whitespace data lines) as [hl bl].
  cbn [fst snd].
  destruct (MessageHeader._parse whitespace data hl) as [h|]; [|done].
  cbn [mbind option_bind] in Hc.
  destruct (MessageBody._parse _ data bl _) as [b|] eqn:Hb; [|done].
  injection Hc as <-. done.
Qed.

(** C2, as the specification words it ("all lines are headers, body is
    empty"), fails on the one-line input [a]: it has no blank line, its
    header region is empty and its line is the body. *)
Lemma C2_counterexample :
  ¬ (∀ (data : bytes) (lines : Lines) (c : MessageContent),
       MessageContent._find_lines data = Some lines ->
       Forall (λ l, blank Sample.whitespace data l = false) lines ->
       MessageContent.parse Sample.whitespace Sample.header_fetch_parse data
       = Some c ->
       MessageContent._split_lines Sample.whitespace data lines = (lines, [])
       ∧ MessageHeader.lines (Attr.header c) = Py.len lines
       ∧ MessageBody.raw (Attr.body c) = []).
Proof.
  intros Hspec.
  destruct (MessageContent.parse Sample.whitespace Sample.header_fetch_parse
              Sample.no_blank) as [c|] eqn:Hc; [|by vm_compute in Hc].
  destruct (Hspec Sample.no_blank [(0, 1, 1)%Z] c) as (Hsplit & _ & _);
    [reflexivity|by repeat constructor|exact Hc|].
  vm_compute in Hsplit. discriminate Hsplit.
Qed.

(** C2, amended.  For every input bytestring with no blank (empty or
    whitespace-only) line before its last line, the last line decides.
    When it is blank, as the empty last line of an input that ends with a
    line break is, it ends the header region: all lines are headers, and
    the body is parsed from no lines and is empty.  When it is not blank
    no line is, and the header region is empty: there are no headers, and
    every line is the body, a singlepart body of type [text/plain] that
    holds the whole input. *)
Theorem C2_split_without_blank_line (whitespace : bytes)
    (header_fetch_parse : list bytes -> option ContentTypeHeader)
    (data : bytes) (init : Lines) (last : Line) :
  MessageContent._find_lines data = Some (init ++ [last]) ->
  Forall (λ l, blank whitespace data l = false) init ->
  ((∃ data', data = data' ++ [x0a]) -> blank whitespace data last = true)
  ∧ ∃ c,
      MessageContent.parse whitespace header_fetch_parse data = Some c
      ∧ if blank whitespace data last
        then
          MessageContent._split_lines whitespace data (init ++ [last])
          = (init ++ [last], [])
          ∧ MessageHeader._parse whitespace data (init ++ [last])
            = Some (Attr.header c)
          ∧ MessageHeader.lines (Attr.header c) = Py.len (init ++ [last])
          ∧ MessageBody._parse
              (MessageContent._parse whitespace header_fetch_parse
                 (length (init ++ [last])))
              data []
              (ParsedHeaders.content_type header_fetch_parse
                 (MessageHeader.parsed (Attr.header c)))
            = Some (Attr.body c)
          ∧ MessageBody.raw (Attr.body c) = []
        else
          MessageContent._split_lines whitespace data (init ++ [last])
          = ([], init ++ [last])
          ∧ Attr.header c
            = {| MessageHeader.raw := []; MessageHeader.lines := 0;
                 MessageHeader.folded := [];
                 MessageHeader.parsed :=
                   {| ParsedHeaders.headers := ∅ |} |}
          ∧ Attr.body c
            = _SinglepartBody data (Py.len (init ++ [last])) _default_type.
Proof.
  intros Hlines Hnonblank. split.
  { intros Hlf.
    rewrite (_find_lines_last_empty data init last Hlf Hlines).
    unfold blank. pose proof (len_nonneg data).
    by rewrite slice_empty by lia. }
  destruct (parse_total whitespace header_fetch_parse data) as (c & Hc).
  exists c. split; [done|].
  unfold MessageContent.parse in Hc. rewrite Hlines in Hc.
  cbn [mbind option_bind] in Hc.
  apply _parse_cases in Hc as (h & b & Hh & Hb & ->).
  cbn [Attr.header Attr.body].
  destruct (_find_lines_chain data) as (lines' & Hlines' & Hchain & _).
  assert (lines' = init ++ [last]) as -> by congruence.
  destruct (_split_lines_spec whitespace data (init ++ [last]))
    as [(pre & sep & post & Heq & Hpre & Hsep & Hsplit)|[Hall Hsplit]].
  - assert (pre = init ∧ sep = last ∧ post = []) as (-> & -> & ->).
    { destruct post as [|l post _] using rev_ind.
      - apply app_inj_tail in Heq as [-> ->]. done.
      - rewrite app_comm_cons, app_assoc in Heq.
        apply app_inj_tail in Heq as [-> _].
        apply Forall_app in Hnonblank as [_ Hnb].
        apply Forall_cons_1 in Hnb as [Hnb _]. congruence. }
    rewrite Hsep. rewrite Hsplit in Hh, Hb. cbn [fst snd] in Hh, Hb.
    split; [done|]. split; [done|].
    split.
    { by destruct (MessageHeader_parse_lines whitespace header_fetch_parse
                     data _ _ Hh) as [? _]. }
    split; [done|].
    apply MessageBody_parse_cases in Hb
      as [->|[(boundary & cs & _ & _ & ->)|(subpart & _ & Hsub & ->)]];
      [done|done|].
    cbn [MessageBody.raw].
    destruct (length (init ++ [last])) as [|fuel]; [done|].
    apply _parse_cases in Hsub as (h' & b' & _ & _ & ->).
    cbn [Attr.raw]. apply get_raw_two_nil. left.
    destruct (MessageContent._split_lines whitespace data []) as [hl bl]
      eqn:Hnil.
    apply _split_lines_app in Hnil as [Hnil _].
    symmetry in Hnil. by apply app_eq_nil in Hnil as [-> _].
  - apply Forall_app in Hall as [_ Hlast].
    apply Forall_cons_1 in Hlast as [-> _].
    rewrite Hsplit in Hh, Hb. cbn [fst snd] in Hh, Hb.
    split; [done|].
    rewrite MessageHeader_parse_nil in Hh. injection Hh as <-.
    split; [done|].
    change (MessageBody._parse _ data (init ++ [last]) _)
      with (Some (_SinglepartBody (_util.get_raw data [init ++ [last]])
                    (Py.len (init ++ [last])) _default_type)) in Hb.
    injection Hb as <-. f_equal.
    pose proof (len_nonneg data).
    rewrite (get_raw_one data (init ++ [last]) 0 (Py.len data))
      by (done || lia).
    rewrite slice_prefix by lia. apply take_ge. unfold Py.len. lia.
Qed.

Lemma C2_split_without_blank_line_witness :
  (∃ c,
     MessageContent.parse Sample.whitespace Sample.header_fetch_parse
       Sample.no_separator = Some c
     ∧ MessageHeader.lines (Attr.header c) = 3%Z
     ∧ MessageBody.raw (Attr.body c) = [])
  ∧ (∃ c,
       MessageContent.parse Sample.whitespace Sample.header_fetch_parse
         Sample.no_blank = Some c
       ∧ MessageHeader.lines (Attr.header c) = 0%Z
       ∧ Attr.body c = _SinglepartBody Sample.no_blank 1 _default_type).
Proof.
  split.
  - destruct (C2_split_without_blank_line Sample.whitespace
                Sample.header_fetch_parse Sample.no_separator
                [(0, 7, 8); (8, 17, 18)]%Z (18, 18, 18)%Z)
      as (_ & c & Hc & Hcase); [reflexivity|by repeat constructor|].
    exists c. split; [exact Hc|].
    change (blank Sample.whitespace Sample.no_separator (18, 18, 18)%Z)
      with true in Hcase.
    destruct Hcase as (_ & _ & Hlen & _ & Hraw). split; [exact Hlen|].
    exact Hraw.
  - destruct (C2_split_without_blank_line Sample.whitespace
                Sample.header_fetch_parse Sample.no_blank [] (0, 1, 1)%Z)
      as (_ & c & Hc & Hcase); [reflexivity|constructor|].
    exists c. split; [exact Hc|].
    change (blank Sample.whitespace Sample.no_blank (0, 1, 1)%Z)
      with false in Hcase.
    destruct Hcase as (_ & Hh & Hb). rewrite Hh. split; [reflexivity|].
    exact Hb.
Defined.

(** C3, as the specification words it, fails on a message whose separator
    line holds one space: the raw header already ends with the separator
    line, so putting that line (with or without its line break) between the
    raw header and the raw body gives more bytes than the raw content. *)
Lemma C3_counterexample :
  ¬ (∀ (data : bytes) (lines pre bl : Lines) (s e n : Z)
       (c : MessageContent),
       MessageContent._find_lines data = Some lines ->
       MessageContent._split_lines Sample.whitespace data lines
       = (pre ++ [(s, e, n)], bl) ->
       MessageContent.parse Sample.whitespace Sample.header_fetch_parse data
       = Some c ->
       Attr.raw c
       = MessageHeader.raw (Attr.header c) ++ Py.slice data s e
         ++ MessageBody.raw (Attr.body c)
       ∨ Attr.raw c
         = MessageHeader.raw (Attr.header c) ++ Py.slice data s n
           ++ MessageBody.raw (Attr.body c)).
Proof.
  intros Hspec.
  destruct (MessageContent.parse Sample.whitespace Sample.header_fetch_parse
              Sample.spaced) as [c|] eqn:Hc; [|by vm_compute in Hc].
  destruct (Hspec Sample.spaced
              [(0, 4, 5); (5, 6, 7); (7, 11, 11)]%Z [(0, 4, 5)%Z]
              [(7, 11, 11)%Z] 5%Z 6%Z 7%Z c) as [Hraw|Hraw];
    [reflexivity|reflexivity|exact Hc| |].
  all: vm_compute in Hc; injection Hc as <-.
  all: vm_compute in Hraw; discriminate Hraw.
Qed.

(** C3, amended.  For every content of the tree [parse] returns, parsed
    from a run of lines of the input: the raw header is the raw view of the
    header region and ends with the blank separator line, which is therefore
    no third piece; the raw body is the raw view of the body region, and
    for a [message/rfc822] body the raw view of the nested content; and
    where the header region and the body region both have a line, the raw
    content is the raw header followed by the raw view of the body region,
    that is, followed by the raw body, unless the body is a
    [message/rfc822] body whose nested content has an empty region.  The
    raw content of the root is then the whole input. *)
Theorem C3_raw_is_header_then_body (whitespace : bytes)
    (header_fetch_parse : list bytes -> option ContentTypeHeader)
    (data : bytes) :
  ∃ lines c,
    MessageContent._find_lines data = Some lines
    ∧ MessageContent.parse whitespace header_fetch_parse data = Some c
    ∧ raw_views whitespace data lines c
    ∧ (both_regions whitespace data lines -> Attr.raw c = data)
    ∧ Forall (raw_layout whitespace header_fetch_parse data)
        (MessageContent.walk c).
Proof.
  destruct (parse_total whitespace header_fetch_parse data) as (c & Hc).
  destruct (_find_lines_chain data) as (lines & Hlines & Hchain & _).
  exists lines, c. do 2 (split; [done|]).
  unfold MessageContent.parse in Hc. rewrite Hlines in Hc.
  cbn [mbind option_bind] in Hc. pose proof (len_nonneg data).
  destruct (_parse_raw_views whitespace header_fetch_parse data _ lines 0
              (Py.len data) c ltac:(lia) ltac:(lia) Hchain Hc)
    as (Hviews & Hraw & Hwalk).
  split; [done|]. split; [|done].
  intros Hboth. rewrite (Hraw Hboth).
  rewrite slice_prefix by lia. apply take_ge. unfold Py.len. lia.
Qed.

(** With no blank line the header region is empty, and the raw view of the
    two regions is the empty view while the raw body is the input. *)
Example raw_of_no_blank :
  (c ← MessageContent.parse Sample.whitespace Sample.header_fetch_parse
         Sample.no_blank;
   Some (Attr.raw c, MessageHeader.raw (Attr.header c),
         MessageBody.raw (Attr.body c)))
  = Some ([], [], Py.b "a").
Proof. vm_compute. reflexivity. Qed.

(** The message of [test_fetch.py]: [RFC822] is 158 octets, [RFC822.HEADER]
    108 with the blank line, [RFC822.TEXT] 50. *)
Example raw_of_fetched :
  (c ← MessageContent.parse Sample.whitespace Sample.header_fetch_parse
         Sample.fetched;
   Some (Py.len (Attr.raw c),
         MessageHeader.raw (Attr.header c),
         Py.len (MessageBody.raw (Attr.body c)),
         Attr.lines c))
  = Some (158%Z,
          Py.b "From: friend@example.com" ++ Sample.CRLF
          ++ Py.b "To: me@example.com" ++ Sample.CRLF
          ++ Py.b "Subject: Re: Re: Random question" ++ Sample.CRLF
          ++ Py.b "Content-Type: text/plain" ++ Sample.CRLF ++ Sample.CRLF,
          50%Z, 9%Z).
Proof. vm_compute. reflexivity. Qed.

(** ** The variants of the body and the parts of a multipart *)

Lemma encode_ascii_spec (s : string) :
  MessageBody.encode_ascii s
  = if ascii_only s then Some (ascii_bytes s) else None.
Proof.
  unfold MessageBody.encode_ascii, ascii_only, ascii_bytes.
  induction (list_ascii_of_string s) as [|c l IH]; [done|].
  cbn [mapM forallb map]. rewrite IH.
  destruct (N_of_ascii c <? 128)%N; [|done]. simpl.
  by destruct (forallb _ l).
Qed.

Lemma ascii_bytes_nonempty (s : string) : s ≠ "" -> ascii_bytes s ≠ [].
Proof. by destruct s. Qed.

Lemma _get_boundary_spec (t : ContentTypeHeader) :
  (∃ boundary,
     valid_boundary t boundary
     ∧ MessageBody._get_boundary t = Some (ascii_bytes boundary))
  ∨ ((∀ boundary, ¬ valid_boundary t boundary)
     ∧ MessageBody._get_boundary t = None).
Proof.
  unfold MessageBody._get_boundary, valid_boundary.
  destruct (params t !! "boundary") as [boundary|] eqn:Hb.
  - case_bool_decide as Hne.
    + rewrite encode_ascii_spec.
      destruct (ascii_only boundary) eqn:Hascii.
      * left. by exists boundary.
      * right. split; [|done]. intros b' (Hb' & _ & Hascii').
        congruence.
    + right. split; [|done]. intros b' (Hb' & Hne' & _).
      apply Hne'. congruence.
  - right. split; [|done]. by intros b' (Hb' & _).
Qed.

(** C4. The variant of a parsed body is selected by the Content-Type
    header.  An absent or unparseable header gives no content type, which
    stands for [text/plain], and a singlepart body; maintype [multipart]
    with a valid (present, non-empty, ASCII) boundary parameter gives a
    multipart body whose children are the parsed parts; [message/rfc822]
    gives a body whose nested sequence is exactly one child, the whole body
    parsed as a content; every other case, a multipart without a valid
    boundary among them, gives a singlepart body with [has_nested] false
    and no nested contents.  [rec] is the recursive call
    [MessageContent._parse]. *)
Theorem C4_body_variant
    (header_fetch_parse : list bytes -> option ContentTypeHeader)
    (rec : bytes -> Lines -> option MessageContent)
    (data : bytes) (lines : Lines) :
  (∀ p : ParsedHeaders.t,
     match ParsedHeaders.headers p !! Py.b "content-type" with
     | Some (value :: _) =>
         ParsedHeaders.content_type header_fetch_parse p
         = header_fetch_parse value
     | _ => ParsedHeaders.content_type header_fetch_parse p = None
     end)
  ∧ (maintype _default_type = "text" ∧ subtype _default_type = "plain"
     ∧ MessageBody._parse rec data lines None
       = Some (_SinglepartBody (_util.get_raw data [lines]) (Py.len lines)
                 _default_type))
  ∧ (∀ t boundary,
       maintype t = "multipart" -> valid_boundary t boundary ->
       MessageBody._parse rec data lines (Some t)
       = nested ← mapM (rec data)
                   (_MultipartBody._find_parts data lines
                      (ascii_bytes boundary));
         Some (_MultipartBody (_util.get_raw data [lines]) (Py.len lines) t
                 nested))
  ∧ (∀ t,
       maintype t = "message" -> subtype t = "rfc822" ->
       MessageBody._parse rec data lines (Some t)
       = subpart ← rec data lines;
         Some (_RFC822Body (Attr.raw subpart) (Attr.lines subpart) t
                 [subpart]))
  ∧ (∀ t,
       ¬ (maintype t = "multipart" ∧ ∃ boundary, valid_boundary t boundary) ->
       ¬ (maintype t = "message" ∧ subtype t = "rfc822") ->
       ∃ b,
         MessageBody._parse rec data lines (Some t) = Some b
         ∧ b = _SinglepartBody (_util.get_raw data [lines]) (Py.len lines) t
         ∧ MessageBody.has_nested b = false
         ∧ MessageBody.nested b = []).
Proof.
  split; [|split; [|split; [|split]]].
  - intros p. unfold ParsedHeaders.content_type.
    by destruct (_ !! _) as [[|value values]|].
  - done.
  - intros t boundary Hmain Hvalid.
    unfold MessageBody._parse. cbn [default from_option id].
    rewrite bool_decide_eq_true_2 by done.
    destruct (_get_boundary_spec t) as [(b' & Hb' & ->)|[Hnone _]];
      [|by destruct (Hnone boundary)].
    assert (b' = boundary) as ->.
    { destruct Hvalid as [Hv _], Hb' as [Hv' _]. congruence. }
    rewrite bool_decide_eq_true_2
      by (apply ascii_bytes_nonempty; apply Hvalid).
    rewrite _MultipartBody_parse_body_spec, _find_parts_spec. done.
  - intros t Hmain Hsub.
    unfold MessageBody._parse. cbn [default from_option id].
    rewrite bool_decide_eq_false_2 by (by rewrite Hmain).
    rewrite !bool_decide_eq_true_2 by done. done.
  - intros t Hmulti Hrfc.
    unfold MessageBody._parse. cbn [default from_option id].
    assert (Hsingle : ∃ b,
      _SinglepartBody._parse_body data lines t = Some b
      ∧ b = _SinglepartBody (_util.get_raw data [lines]) (Py.len lines) t
      ∧ MessageBody.has_nested b = false ∧ MessageBody.nested b = []).
    { eexists. done. }
    case_bool_decide as Hmain.
    + destruct (_get_boundary_spec t) as [(b' & Hb' & _)|[_ ->]]; [|done].
      destruct Hmulti. eauto.
    + destruct (bool_decide (maintype t = "message")
                && bool_decide (subtype t = "rfc822")) eqn:Hm; [|done].
      apply andb_true_iff in Hm as [Hm1 Hm2].
      apply bool_decide_eq_true in Hm1, Hm2. by destruct Hrfc.
Qed.

Lemma C4_body_variant_witness :
  maintype Sample.message_rfc822 = "message"
  ∧ subtype Sample.message_rfc822 = "rfc822"
  ∧ MessageBody._parse
      (MessageContent._parse Sample.whitespace Sample.header_fetch_parse 1)
      Sample.no_blank [(0, 1, 1)%Z] (Some Sample.message_rfc822)
    = subpart ← MessageContent._parse Sample.whitespace
                  Sample.header_fetch_parse 1 Sample.no_blank [(0, 1, 1)%Z];
      Some (_RFC822Body (Attr.raw subpart) (Attr.lines subpart)
              Sample.message_rfc822 [subpart]).
Proof.
  split; [reflexivity|]. split; [reflexivity|].
  apply (C4_body_variant Sample.header_fetch_parse
           (MessageContent._parse Sample.whitespace
              Sample.header_fetch_parse 1)
           Sample.no_blank [(0, 1, 1)%Z]); reflexivity.
Defined.

Section PartsReading.

Variables (data boundary : bytes).

Local Abbreviation is_open := (line_is data (Py.b "--" ++ boundary)).
Local Abbreviation is_stop :=
  (line_is data (Py.b "--" ++ boundary ++ Py.b "--")).

Lemma opening_not_closing (line : Line) :
  opening_line data boundary line -> is_stop line = false.
Proof.
  destruct line as [[s e] n]. unfold opening_line, line_is.
  intros Hopen%bool_decide_eq_true. rewrite Hopen.
  apply bool_decide_eq_false. intros Heq.
  apply (f_equal length) in Heq. rewrite !length_app in Heq.
  simpl in Heq. lia.
Qed.

Lemma before_stop_app (a r : Lines) :
  Forall (λ l, is_stop l = false) a ->
  before_stop is_stop (a ++ r) = a ++ before_stop is_stop r.
Proof.
  induction 1 as [|l a Hl _ IH]; cbn [before_stop app]; [done|].
  by rewrite Hl, IH.
Qed.

Lemma split_at_app (a r : Lines) :
  Forall (λ l, is_open l = false) a ->
  split_at is_open (a ++ r)
  = (a ++ (split_at is_open r).1, (split_at is_open r).2).
Proof.
  induction 1 as [|l a Hl _ IH]; cbn [split_at app].
  - by destruct (split_at is_open r).
  - rewrite IH, Hl. done.
Qed.

Lemma split_at_marked (marked : list (Line * Lines)) :
  Forall (λ mp, opening_line data boundary mp.1
                ∧ Forall (plain_line data boundary) mp.2) marked ->
  split_at is_open (concat (map (λ mp, mp.1 :: mp.2) marked))
  = ([], map snd marked).
Proof.
  induction 1 as [|[m p] marked [Hm Hp] _ IH]; [done|].
  cbn [map concat fst snd app] in *. cbn [split_at].
  rewrite split_at_app, IH, Hm.
  - cbn [fst snd]. by rewrite app_nil_r.
  - eapply Forall_impl; [exact Hp|]. by intros l [? _].
Qed.

Lemma before_stop_marked (marked : list (Line * Lines)) (r : Lines) :
  Forall (λ mp, opening_line data boundary mp.1
                ∧ Forall (plain_line data boundary) mp.2) marked ->
  before_stop is_stop (concat (map (λ mp, mp.1 :: mp.2) marked) ++ r)
  = concat (map (λ mp, mp.1 :: mp.2) marked) ++ before_stop is_stop r.
Proof.
  intros Hmarked. apply before_stop_app.
  apply Forall_concat, Forall_map.
  eapply Forall_impl; [exact Hmarked|].
  intros [m p] [Hm Hp]. constructor.
  - by apply opening_not_closing.
  - eapply Forall_impl; [exact Hp|]. by intros l [_ ?].
Qed.

(** The parts of lines laid out as a preamble, marked parts and a tail. *)
Lemma parts_of_layout (pre : Lines) (marked : list (Line * Lines))
    (tail : Lines) :
  Forall (plain_line data boundary) pre ->
  Forall (λ mp, opening_line data boundary mp.1
                ∧ Forall (plain_line data boundary) mp.2) marked ->
  tail = [] ∨ (∃ stop epilogue,
                 tail = stop :: epilogue ∧ closing_line data boundary stop) ->
  parts_of data boundary
    (pre ++ concat (map (λ mp, mp.1 :: mp.2) marked) ++ tail)
  = map snd marked.
Proof.
  intros Hpre Hmarked Htail. unfold parts_of.
  assert (Hstop : before_stop is_stop tail = []).
  { destruct Htail as [->|(stop & epi & -> & Hstop)]; [done|].
    cbn [before_stop]. unfold closing_line in Hstop. by rewrite Hstop. }
  rewrite before_stop_app.
  2: { eapply Forall_impl; [exact Hpre|]. by intros l [_ ?]. }
  rewrite before_stop_marked, Hstop, app_nil_r by done.
  rewrite split_at_app.
  2: { eapply Forall_impl; [exact Hpre|]. by intros l [? _]. }
  by rewrite split_at_marked.
Qed.

End PartsReading.

(** C5. For a multipart body with boundary [B], the scan over the body
    lines opens a part at each line byte-equal to [--B], the first such
    line opening part 0, and stops at the first line byte-equal to
    [--B--]; the lines before the first [--B] (the preamble) and those
    after the closing marker (the epilogue) belong to no part; the lines
    between the markers are parsed recursively as the children; with no
    marker at all the body is a multipart body without children.  [rec] is
    the recursive call [MessageContent._parse]. *)
Theorem C5_multipart_parts
    (rec : bytes -> Lines -> option MessageContent)
    (data : bytes) (t : ContentTypeHeader) (boundary : bytes) :
  (∀ lines,
     _MultipartBody._find_parts data lines boundary
     = parts_of data boundary lines)
  ∧ (∀ pre (marked : list (Line * Lines)) tail,
       Forall (plain_line data boundary) pre ->
       Forall (λ mp, opening_line data boundary mp.1
                     ∧ Forall (plain_line data boundary) mp.2) marked ->
       tail = [] ∨ (∃ stop epilogue,
                      tail = stop :: epilogue
                      ∧ closing_line data boundary stop) ->
       _MultipartBody._find_parts data
         (pre ++ concat (map (λ mp, mp.1 :: mp.2) marked) ++ tail) boundary
       = map snd marked)
  ∧ (∀ lines,
       _MultipartBody._parse_body rec data lines t boundary
       = nested ← mapM (rec data)
                   (_MultipartBody._find_parts data lines boundary);
         Some (_MultipartBody (_util.get_raw data [lines]) (Py.len lines) t
                 nested))
  ∧ (∀ lines,
       Forall (plain_line data boundary) lines ->
       _MultipartBody._parse_body rec data lines t boundary
       = Some (_MultipartBody (_util.get_raw data [lines]) (Py.len lines) t
                 [])).
Proof.
  split; [|split; [|split]].
  - intros lines. apply _find_parts_spec.
  - intros pre marked tail Hpre Hmarked Htail.
    rewrite _find_parts_spec. by apply parts_of_layout.
  - intros lines.
    by rewrite _MultipartBody_parse_body_spec, _find_parts_spec.
  - intros lines Hplain.
    rewrite _MultipartBody_parse_body_spec.
    pose proof (parts_of_layout data boundary lines [] [] Hplain
                  ltac:(constructor) ltac:(by left)) as Hparts.
    simpl in Hparts. rewrite app_nil_r in Hparts. by rewrite Hparts.
Qed.

Lemma C5_multipart_parts_witness :
  _MultipartBody._find_parts Sample.body_two_parts
    ([(0, 3, 4)%Z]
     ++ concat (map (λ mp : Line * Lines, mp.1 :: mp.2)
                  [((4, 7, 8), [(8, 11, 12)]);
                   ((12, 15, 16), [(16, 19, 20)])]%Z)
     ++ [(20, 25, 26); (26, 29, 29)]%Z)
    (Py.b "X")
  = [[(8, 11, 12)]; [(16, 19, 20)]]%Z.
Proof.
  apply (C5_multipart_parts (λ _ _, None) Sample.body_two_parts
           Sample.multipart_mixed_X (Py.b "X")).
  - repeat constructor.
  - repeat constructor.
  - right. exists (20, 25, 26)%Z, [(26, 29, 29)%Z]. split; reflexivity.
Defined.

(** ** The folded headers and their index *)

(** C6. Header parsing groups the lines of a header region, up to its
    separator line, into folded headers: a line whose first byte is
    whitespace continues the header before it, so every group is a header
    line followed by the continuation lines after it, and the groups, after
    the continuation lines no header precedes, are the lines of the region
    in their order.  A group whose first line has no colon is dropped; the
    name of a kept group is the bytes before the colon, stripped and
    lowercased; the folded sequence lists the kept groups in source order,
    duplicates included, and the index maps each name to the value groups
    of the kept groups of that name, in source order. *)
Theorem C6_header_folding (whitespace data : bytes) (pre : Lines)
    (sep : Line) :
  Forall (line_ok data) pre ->
  let leading := (fold_lines (continuation whitespace data) pre).1 in
  let folds := (fold_lines (continuation whitespace data) pre).2 in
  MessageHeader._find_folds whitespace data (pre ++ [sep]) = Some folds
  ∧ leading ++ concat folds = pre
  ∧ Forall (λ l, continuation whitespace data l = true) leading
  ∧ Forall (λ g, ∃ l ls,
               g = l :: ls ∧ continuation whitespace data l = false
               ∧ Forall (λ l', continuation whitespace data l' = true) ls)
      folds
  ∧ ∃ headers,
      MessageHeader._parse_headers data folds
      = Some (map (λ g, (header_name data g, _util.get_raw data [g]))
                (List.filter (has_colon data) folds),
              {| ParsedHeaders.headers := headers |})
      ∧ (∀ name,
           headers !! name
           = match
               map (group_value data)
                 (List.filter
                    (λ g, bool_decide (header_name data g = name))
                    (List.filter (has_colon data) folds))
             with
             | [] => None
             | values => Some values
             end)
      ∧ MessageHeader._parse whitespace data (pre ++ [sep])
        = Some {| MessageHeader.raw := _util.get_raw data [pre ++ [sep]];
                  MessageHeader.lines := Py.len (pre ++ [sep]);
                  MessageHeader.folded :=
                    map (λ g, (header_name data g, _util.get_raw data [g]))
                      (List.filter (has_colon data) folds);
                  MessageHeader.parsed :=
                    {| ParsedHeaders.headers := headers |} |}.
Proof.
  intros Hok leading folds.
  split; [by apply _find_folds_spec|].
  split; [apply fold_lines_concat|].
  split; [apply fold_lines_leading|].
  split; [apply fold_lines_groups|].
  destruct (MessageHeader_parse_spec whitespace data pre sep Hok)
    as (headers & Hparse & Hlook).
  exists headers. split; [|split; [exact Hlook|exact Hparse]].
  destruct (_parse_headers_spec data folds) as (headers' & Hh & Hlook').
  { by apply fold_lines_ok. }
  rewrite Hh. do 3 f_equal. apply map_eq. intros name.
  by rewrite Hlook, Hlook'.
Qed.

Lemma C6_header_folding_witness :
  Forall (line_ok Sample.header_region)
    [(0, 4, 5); (5, 7, 8); (8, 15, 16); (16, 21, 22)]%Z
  ∧ MessageHeader._find_folds Sample.whitespace Sample.header_region
      ([(0, 4, 5); (5, 7, 8); (8, 15, 16); (16, 21, 22)]%Z
       ++ [(22, 22, 23)%Z])
    = Some [[(0, 4, 5); (5, 7, 8)]; [(8, 15, 16)]; [(16, 21, 22)]]%Z.
Proof.
  assert (Hok : Forall (line_ok Sample.header_region)
                  [(0, 4, 5); (5, 7, 8); (8, 15, 16); (16, 21, 22)]%Z).
  { repeat (constructor; [unfold line_ok, Py.len; simpl; lia|]).
    constructor. }
  split; [exact Hok|].
  exact (proj1 (C6_header_folding Sample.whitespace Sample.header_region
                  [(0, 4, 5); (5, 7, 8); (8, 15, 16); (16, 21, 22)]%Z
                  (22, 22, 23)%Z Hok)).
Defined.

(** A folded header, a line without colon, a second header of the same
    name: the folded sequence and the index. *)
Example folded_header_region :
  (h ← MessageHeader._parse Sample.whitespace Sample.header_region
         [(0, 4, 5); (5, 7, 8); (8, 15, 16); (16, 21, 22); (22, 22, 23)]%Z;
   Some (MessageHeader.folded h,
         ParsedHeaders.headers (MessageHeader.parsed h) !! Py.b "h",
         ParsedHeaders.headers (MessageHeader.parsed h) !! Py.b "nocolon"))
  = Some ([(Py.b "h", Py.b "H: v" ++ Sample.LF ++ Py.b " w" ++ Sample.LF);
           (Py.b "h", Py.b "h : u" ++ Sample.LF)],
          Some [[Py.b "H: v"; Py.b " w"]; [Py.b "h : u"]],
          None).
Proof. vm_compute. reflexivity. Qed.

(** ** [walk] and the paths of the tree *)
Section WalkFacts.

(** Induction on a content, with the property at hand for its children. *)
Lemma MessageContent_nested_ind (P : MessageContent -> Prop) :
  (∀ c, Forall P (MessageBody.nested (Attr.body c)) -> P c) ->
  ∀ c, P c.
Proof.
  intros Hstep. fix IH 1. intros c. apply Hstep.
  destruct c as [raw lines header body]. cbn [Attr.body].
  destruct body as [? ? ? nested|? ? ? nested|? ? ?]; cbn [MessageBody.nested].
  - induction nested as [|child nested IHn]; constructor; [apply IH|apply IHn].
  - induction nested as [|child nested IHn]; constructor; [apply IH|apply IHn].
  - constructor.
Qed.

Lemma paths_unfold (c : MessageContent) :
  paths c = [] :: paths_from paths 0 (MessageBody.nested (Attr.body c)).
Proof. by destruct c as [? ? ? []]. Qed.

Lemma drop_cons_inv {A} (l rest : list A) (x : A) (i : nat) :
  drop i l = x :: rest -> l !! i = Some x ∧ drop (S i) l = rest.
Proof.
  intros Hdrop.
  assert (Hi : l !! i = Some x).
  { rewrite <- (Nat.add_0_r i), <- lookup_drop, Hdrop. done. }
  split; [done|].
  rewrite (drop_S _ _ _ Hi) in Hdrop. congruence.
Qed.

Lemma paths_from_descend (c : MessageContent) (children : list MessageContent)
    (i : nat) :
  drop i (MessageBody.nested (Attr.body c)) = children ->
  Forall (λ ch, map (λ p, descend p ch) (paths ch)
                = map Some (MessageContent.walk ch)) children ->
  map (λ p, descend p c) (paths_from paths i children)
  = map Some (concat (map MessageContent.walk children)).
Proof.
  intros Hdrop Hall. revert i Hdrop.
  induction Hall as [|ch rest Hch _ IH]; intros i Hdrop; [done|].
  cbn [paths_from map concat]. rewrite !map_app, map_map.
  apply drop_cons_inv in Hdrop as [Hi Hrest].
  f_equal.
  - rewrite <- Hch. apply map_ext. intros p. cbn [descend]. by rewrite Hi.
  - by apply IH.
Qed.

(** The contents [walk] yields are those at the paths of the tree, in the
    order of the paths. *)
Lemma walk_paths (c : MessageContent) :
  map (λ p, descend p c) (paths c) = map Some (MessageContent.walk c).
Proof.
  induction c as [c IH] using MessageContent_nested_ind.
  rewrite paths_unfold, walk_unfold. cbn [map descend]. f_equal.
  by apply paths_from_descend.
Qed.

Lemma elem_of_paths_from (c : MessageContent)
    (children : list MessageContent) (i : nat) (q : list nat) :
  drop i (MessageBody.nested (Attr.body c)) = children ->
  Forall (λ ch, ∀ p, p ∈ paths ch <-> is_Some (descend p ch)) children ->
  q ∈ paths_from paths i children
  <-> ∃ j p, q = j :: p ∧ i <= j ∧ is_Some (descend q c).
Proof.
  intros Hdrop Hall. revert i Hdrop.
  induction Hall as [|ch rest Hch _ IH]; intros i Hdrop.
  - cbn [paths_from]. split; [by intros ?%elem_of_nil|].
    intros (j & p & -> & Hj & Hsome). cbn [descend] in Hsome.
    rewrite lookup_ge_None_2 in Hsome; [by destruct Hsome|].
    apply (f_equal length) in Hdrop. rewrite length_drop in Hdrop.
    simpl in Hdrop. lia.
  - apply drop_cons_inv in Hdrop as [Hi Hrest].
    cbn [paths_from]. rewrite elem_of_app, (IH (S i) Hrest).
    rewrite list_elem_of_fmap. split.
    + intros [(p & -> & Hp)|(j & p & -> & Hj & Hsome)].
      * exists i, p. split; [done|]. split; [lia|].
        cbn [descend]. rewrite Hi. by apply Hch.
      * exists j, p. split; [done|]. split; [lia|done].
    + intros (j & p & -> & Hj & Hsome).
      destruct (decide (j = i)) as [->|Hne].
      * left. exists p. split; [done|]. apply Hch.
        cbn [descend] in Hsome. by rewrite Hi in Hsome.
      * right. exists j, p. split; [done|]. split; [lia|done].
Qed.

(** The paths of a tree are the paths that lead to a content. *)
Lemma elem_of_paths (c : MessageContent) (p : list nat) :
  p ∈ paths c <-> is_Some (descend p c).
Proof.
  revert p. induction c as [c IH] using MessageContent_nested_ind.
  intros p. rewrite paths_unfold, elem_of_cons.
  rewrite (elem_of_paths_from c _ 0 p eq_refl IH).
  split.
  - intros [->|(j & q & -> & _ & Hsome)]; [by eexists|done].
  - destruct p as [|j q]; [by left|].
    intros Hsome. right. exists j, q. split; [done|]. split; [lia|done].
Qed.

Lemma before_irrefl (p : list nat) : ¬ before p p.
Proof.
  induction p as [|i p IH]; simpl; [tauto|].
  intros [?|[_ ?]]; [lia|done].
Qed.

Lemma ordered_app (l1 l2 : list (list nat)) :
  ordered l1 -> ordered l2 ->
  Forall (λ p, Forall (before p) l2) l1 ->
  ordered (l1 ++ l2).
Proof.
  intros H1 H2 H12. induction H12 as [|p l1 Hp _ IH]; [done|].
  destruct H1 as [Hl1 H1]. simpl. split; [|by apply IH].
  apply Forall_app. done.
Qed.

Lemma ordered_cons_map (i : nat) (l : list (list nat)) :
  ordered l -> ordered (map (cons i) l).
Proof.
  induction l as [|p l IH]; [done|]. intros [Hp Hl]. simpl.
  split; [|by apply IH].
  apply Forall_map. eapply Forall_impl; [exact Hp|].
  intros q Hq. simpl. by right.
Qed.

Lemma ordered_NoDup (l : list (list nat)) : ordered l -> NoDup l.
Proof.
  induction l as [|p l IH]; [constructor|]. intros [Hp Hl].
  constructor; [|by apply IH].
  intros Hin. rewrite Forall_forall in Hp.
  by apply (before_irrefl p), Hp.
Qed.

Lemma paths_from_ordered (children : list MessageContent) (i : nat) :
  Forall (λ ch, ordered (paths ch)) children ->
  ordered (paths_from paths i children)
  ∧ Forall (λ q, ∃ j p, q = j :: p ∧ i <= j) (paths_from paths i children).
Proof.
  intros Hall. revert i.
  induction Hall as [|ch rest Hch _ IH]; intros i; [done|].
  cbn [paths_from]. destruct (IH (S i)) as [Hord Hheads].
  split.
  - apply ordered_app; [by apply ordered_cons_map|done|].
    apply Forall_map, Forall_forall. intros p _.
    eapply Forall_impl; [exact Hheads|].
    intros q (j & q' & -> & Hj). simpl. left. lia.
  - apply Forall_app. split.
    + apply Forall_map, Forall_forall. intros p _. exists i, p. done.
    + eapply Forall_impl; [exact Hheads|].
      intros q (j & q' & -> & Hj). exists j, q'. split; [done|lia].
Qed.

(** The paths of a tree come in pre-order. *)
Lemma paths_ordered (c : MessageContent) : ordered (paths c).
Proof.
  induction c as [c IH] using MessageContent_nested_ind.
  rewrite paths_unfold.
  destruct (paths_from_ordered _ 0 IH) as [Hord Hheads].
  split; [|done].
  eapply Forall_impl; [exact Hheads|]. by intros q (j & p & -> & _).
Qed.

End WalkFacts.

(** C7. For every content, of any nesting depth, [walk] yields the content
    itself first and then, child after child, what [walk] yields for each
    nested content.  The contents it yields are those at the paths of the
    tree, which list every content of the tree, come in pre-order and hold
    no path twice: every content is yielded exactly once, in pre-order.  A
    multipart with two parts that have no nested contents yields exactly
    three entries, and a content whose body has [has_nested] false yields
    itself only. *)
Theorem C7_walk_preorder (c : MessageContent) :
  MessageContent.walk c
  = (if MessageBody.has_nested (Attr.body c)
     then c :: concat (map MessageContent.walk
                         (MessageBody.nested (Attr.body c)))
     else [c])
  ∧ map (λ p, descend p c) (paths c) = map Some (MessageContent.walk c)
  ∧ (∀ p, p ∈ paths c <-> is_Some (descend p c))
  ∧ ordered (paths c)
  ∧ NoDup (paths c)
  ∧ (MessageBody.has_nested (Attr.body c) = false ->
     MessageContent.walk c = [c])
  ∧ (∀ raw lines t part1 part2,
       Attr.body c = _MultipartBody raw lines t [part1; part2] ->
       MessageBody.has_nested (Attr.body part1) = false ->
       MessageBody.has_nested (Attr.body part2) = false ->
       MessageContent.walk c = [c; part1; part2]).
Proof.
  assert (Hleaf : ∀ c',
    MessageBody.has_nested (Attr.body c') = false ->
    MessageContent.walk c' = [c']).
  { by intros [? ? ? []]. }
  split; [by destruct c as [? ? ? []]|].
  split; [apply walk_paths|].
  split; [apply elem_of_paths|].
  split; [apply paths_ordered|].
  split; [apply ordered_NoDup, paths_ordered|].
  split; [apply Hleaf|].
  intros raw lines t part1 part2 Hbody H1 H2.
  rewrite walk_unfold, Hbody. cbn [MessageBody.nested map concat].
  by rewrite (Hleaf part1 H1), (Hleaf part2 H2).
Qed.

Lemma C7_walk_preorder_witness :
  MessageBody.has_nested (Attr.body (Sample.leaf (Py.b "one"))) = false
  ∧ MessageBody.has_nested (Attr.body (Sample.leaf (Py.b "two"))) = false
  ∧ MessageContent.walk Sample.two_leaves
    = [Sample.two_leaves; Sample.leaf (Py.b "one");
       Sample.leaf (Py.b "two")].
Proof.
  split; [reflexivity|]. split; [reflexivity|].
  apply (C7_walk_preorder Sample.two_leaves) with
    (raw := Sample.body_two_parts) (lines := 7%Z)
    (t := Sample.multipart_mixed_X); reflexivity.
Defined.

(** The multipart message of scenario 5: two parts, three entries. *)
Example walk_two_parts :
  (c ← MessageContent.parse Sample.whitespace Sample.header_fetch_parse
         Sample.two_parts;
   Some (length (MessageBody.nested (Attr.body c)),
         map Attr.raw (MessageContent.walk c)))
  = Some (2, [Sample.two_parts;
              Sample.LF ++ Py.b "one" ++ Sample.LF;
              Py.b "H: v" ++ Sample.LF ++ Py.b " w" ++ Sample.LF
              ++ Sample.LF ++ Py.b "two" ++ Sample.LF]).
Proof. vm_compute. reflexivity. Qed.

(** ** The loop of the demo mailbox loader *)
Section LoaderFacts.

Context {FlagT : Type} {FlagT_eq : EqDecision FlagT}
  {FlagT_countable : Countable FlagT}.
Variable Flag : bytes -> FlagT.
Variable Recent : FlagT.
Context {float_t datetime : Type}.
Variable float : bytes -> Result float_t.
Variable fromtimestamp : float_t -> Result datetime.
Variable resource_listdir : string -> Result (list string).

Local Abbreviation step resource_stream :=
  (dict._load_demo_mailbox_step Flag Recent float fromtimestamp
     resource_stream).

Lemma insert_sorted_Permutation (x : string) (l : list string) :
  Py.insert_sorted x l ≡ₚ x :: l.
Proof.
  induction l as [|y l IH]; simpl; [done|].
  destruct (String.leb x y); [done|].
  rewrite IH. apply Permutation_swap.
Qed.

Lemma sorted_Permutation (l : list string) : Py.sorted l ≡ₚ l.
Proof.
  unfold Py.sorted. induction l as [|x l IH]; simpl; [done|].
  by rewrite insert_sorted_Permutation, IH.
Qed.

(** What one round of the loop of [_load_demo_mailbox] does to the
    mailbox. *)
Lemma _load_demo_mailbox_step_inv (resource_stream : string -> Result bytes)
    (path msg_name : string) (mbx mbx' : dict.MailboxData) :
  step resource_stream path mbx msg_name = Return mbx' ->
  (msg_name = ".readonly" ∧ mbx' = dict.set_readonly mbx true)
  ∨ (msg_name ≠ ".readonly" ∧ ¬ message_file msg_name ∧ mbx' = mbx)
  ∨ (msg_name ≠ ".readonly" ∧ message_file msg_name
     ∧ ∃ msg recent,
         mbx' = dict.add mbx msg recent
         ∧ dict.uid msg = 0%Z ∧ Recent ∉ dict.permanent_flags msg).
Proof.
  unfold dict._load_demo_mailbox_step, message_file.
  case_bool_decide as Hname.
  { intros [= <-]. by left. }
  destruct (Py.startswith msg_name ".") eqn:Hdot.
  { intros [= <-]. right. left. done. }
  intros Hload. right. right. do 2 (split; [done|]).
  unfold dict._load_demo_message in Hload.
  destruct (resource_stream _) as [stream|]; [|done].
  cbn [mbind Result_bind] in Hload.
  destruct (Py.readline stream) as [flags_line stream1].
  destruct (Py.readline stream1) as [timestamp_line msg_data].
  destruct (float timestamp_line) as [ts|]; [|done].
  cbn [mbind Result_bind] in Hload.
  destruct (fromtimestamp ts) as [dt|]; [|done].
  cbn [mbind Result_bind] in Hload.
  case_bool_decide as Hrecent; injection Hload as <-.
  - eexists _, _. split; [done|]. split; [done|].
    cbn [dict.Message_parse dict.permanent_flags].
    rewrite elem_of_difference, elem_of_singleton. by intros [_ []].
  - eexists _, _. split; [done|]. split; [done|]. done.
Qed.

(** The loop of [_load_demo_mailbox] over the names of a directory. *)
Lemma _load_demo_mailbox_loop (resource_stream : string -> Result bytes)
    (path : string) (names : list string) (mbx mbx' : dict.MailboxData) :
  for_each names (step resource_stream path) mbx = Return mbx' ->
  dict._readonly mbx'
  = dict._readonly mbx || bool_decide (".readonly" ∈ names)
  ∧ ∃ new,
      dict.added mbx' = dict.added mbx ++ new
      ∧ length new = length (filter message_file names)
      ∧ Forall (λ entry : dict.Message * bool,
                  dict.uid entry.1 = 0%Z
                  ∧ Recent ∉ dict.permanent_flags entry.1) new.
Proof.
  revert mbx. induction names as [|n names IH]; intros mbx.
  - intros [= <-]. split; [by rewrite orb_false_r|].
    exists []. by rewrite app_nil_r.
  - cbn [for_each].
    destruct (step resource_stream path mbx n) as [mbx1|] eqn:Hstep; [|done].
    cbn [mbind Result_bind]. intros Hrest.
    destruct (IH mbx1 Hrest) as (Hro & new & Hadded & Hlen & Hnew).
    apply _load_demo_mailbox_step_inv in Hstep
      as [[-> ->]|[(Hn & Hdot & ->)|(Hn & Hdot & msg & recent & -> & Hmsg)]].
    + split.
      { rewrite Hro. cbn [dict.set_readonly dict._readonly].
        rewrite (bool_decide_eq_true_2 (_ ∈ _ :: _)) by left.
        by rewrite orb_true_r. }
      exists new. split; [done|]. split; [|done].
      rewrite filter_cons_False; [done|]. by unfold message_file.
    + split.
      { rewrite Hro. f_equal. apply bool_decide_ext.
        rewrite elem_of_cons. split; [by right|].
        intros [?|?]; [congruence|done]. }
      exists new. split; [done|]. split; [|done].
      by rewrite filter_cons_False.
    + split.
      { rewrite Hro. cbn [dict.add dict._readonly]. f_equal.
        apply bool_decide_ext. rewrite elem_of_cons. split; [by right|].
        intros [?|?]; [congruence|done]. }
      exists ((msg, recent) :: new). split.
      { rewrite Hadded. cbn [dict.add dict.added].
        by rewrite <- app_assoc. }
      split; [|by constructor].
      rewrite filter_cons_True by done. simpl. by rewrite Hlen.
Qed.

Lemma for_each_ext {A S} (l : list A) (f g : S -> A -> Result S) (s : S) :
  (∀ s' x, x ∈ l -> f s' x = g s' x) ->
  for_each l f s = for_each l g s.
Proof.
  revert s. induction l as [|x l IH]; intros s Hfg; [reflexivity|].
  cbn [for_each]. rewrite Hfg by apply list_elem_of_here.
  destruct (g s x); [|reflexivity]. cbn [mbind Result_bind].
  apply IH. intros s' y Hy. apply Hfg. by apply list_elem_of_further.
Qed.

(** [readline] gives the first line and what follows it. *)
Lemma readline_first_line (s : bytes) :
  first_line s (Py.readline s).1 (Py.readline s).2.
Proof.
  unfold first_line. induction s as [|c s [IHs IH]]; cbn [Py.readline].
  - split; [done|]. right. split; [|done]. apply not_elem_of_nil.
  - case_bool_decide as Hc.
    + subst c. cbn [fst snd]. split; [done|]. left. exists [].
      split; [done|]. apply not_elem_of_nil.
    + destruct (Py.readline s) as [line rest]. cbn [fst snd] in *.
      split; [by rewrite IHs at 1|].
      destruct IH as [(content & -> & Hno)|[Hno ->]].
      * left. exists (c :: content). split; [done|].
        apply not_elem_of_cons. split; [congruence|done].
      * right. split; [|done].
        apply not_elem_of_cons. split; [congruence|done].
Qed.

Lemma first_line_readline (s line rest : bytes) :
  first_line s line rest -> Py.readline s = (line, rest).
Proof.
  intros [-> [(content & -> & Hno)|[Hno ->]]].
  - rewrite <- app_assoc. cbn [app].
    induction content as [|c content IH]; cbn [app Py.readline].
    + by rewrite bool_decide_eq_true_2.
    + apply not_elem_of_cons in Hno as [Hc Hno].
      rewrite bool_decide_eq_false_2 by congruence. by rewrite IH.
  - rewrite app_nil_r.
    induction line as [|c line IH]; cbn [Py.readline]; [done|].
    apply not_elem_of_cons in Hno as [Hc Hno].
    rewrite bool_decide_eq_false_2 by congruence. by rewrite IH.
Qed.

(** What [add] is given for a file is what the file holds. *)
Lemma _load_demo_message_inv (resource_stream : string -> Result bytes)
    (msg_path : string) (content : bytes) (mbx mbx' : dict.MailboxData) :
  resource_stream msg_path = Return content ->
  dict._load_demo_message Flag Recent float fromtimestamp resource_stream
    msg_path mbx = Return mbx'
  <-> ∃ entry,
        loaded_from Flag Recent float fromtimestamp content entry
        ∧ mbx' = dict.add mbx entry.1 entry.2.
Proof.
  intros Hstream. unfold dict._load_demo_message. rewrite Hstream.
  cbn [mbind Result_bind].
  pose proof (readline_first_line content) as Hl1.
  destruct (Py.readline content) as [flags_line rest] eqn:Hr1.
  pose proof (readline_first_line rest) as Hl2.
  destruct (Py.readline rest) as [timestamp_line msg_data] eqn:Hr2.
  cbn [fst snd] in Hl1, Hl2.
  assert (Hflags :
    (if bool_decide
          (Recent ∈ (list_to_set (Flag <$> Py.split flags_line)
                     : gset FlagT))
     then (list_to_set (Flag <$> Py.split flags_line) ∖ {[Recent]}, true)
     else (list_to_set (Flag <$> Py.split flags_line), false))
    = ((list_to_set (Flag <$> Py.split flags_line) : gset FlagT)
         ∖ {[Recent]},
       bool_decide
         (Recent ∈ (list_to_set (Flag <$> Py.split flags_line)
                    : gset FlagT)))).
  { case_bool_decide as Hrecent; [done|]. f_equal.
    apply set_eq. intros flag.
    rewrite elem_of_difference, not_elem_of_singleton.
    split; [|by intros [? _]].
    intros Hflag. split; [done|]. by intros ->. }
  rewrite Hflags. clear Hflags.
  assert (Hrecent :
    bool_decide
      (Recent ∈ (list_to_set (Flag <$> Py.split flags_line) : gset FlagT))
    = true
    <-> ∃ token, token ∈ Py.split flags_line ∧ Flag token = Recent).
  { rewrite bool_decide_eq_true, elem_of_list_to_set, list_elem_of_fmap.
    split; [intros (token & -> & ?)|intros (token & ? & <-)]; eauto. }
  split.
  - destruct (float timestamp_line) as [ts|] eqn:Hts; [|done].
    cbn [mbind Result_bind].
    destruct (fromtimestamp ts) as [dt|] eqn:Hdt; [|done].
    cbn [mbind Result_bind]. intros [= <-].
    eexists (_, _). split; [|done].
    exists flags_line, rest, timestamp_line, msg_data, ts, dt.
    done.
  - intros ([msg recent]
            & (fl & rest' & tl & md & ts & dt & Hf1 & Hf2 & Hts & Hdt
               & Hmsg & Hrec)
            & ->).
    apply first_line_readline in Hf1. rewrite Hr1 in Hf1.
    injection Hf1 as <- <-.
    apply first_line_readline in Hf2. rewrite Hr2 in Hf2.
    injection Hf2 as <- <-.
    rewrite Hts. cbn [mbind Result_bind]. rewrite Hdt.
    cbn [mbind Result_bind fst snd] in *. subst msg.
    do 2 f_equal.
    destruct recent.
    + by apply Hrecent, Hrec.
    + apply not_true_is_false. intros Htrue.
      apply Hrecent, Hrec in Htrue. done.
Qed.

(** The messages the loop of [_load_demo_mailbox] adds are those of the
    files whose names do not begin with a dot, in the order of the
    names. *)
Lemma _load_demo_mailbox_files (resource_stream : string -> Result bytes)
    (path : string) (names : list string) (mbx mbx' : dict.MailboxData) :
  for_each names (step resource_stream path) mbx = Return mbx' ->
  ∃ new,
    dict.added mbx' = dict.added mbx ++ new
    ∧ Forall2
        (λ msg_name entry,
           ∃ content,
             resource_stream (Py.path_join path msg_name) = Return content
             ∧ loaded_from Flag Recent float fromtimestamp content entry)
        (filter message_file names) new.
Proof.
  revert mbx. induction names as [|n names IH]; intros mbx.
  - intros [= <-]. exists []. by rewrite app_nil_r.
  - cbn [for_each].
    destruct (step resource_stream path mbx n) as [mbx1|] eqn:Hstep; [|done].
    cbn [mbind Result_bind]. intros Hrest.
    destruct (IH mbx1 Hrest) as (new & Hadded & Hnew).
    unfold dict._load_demo_mailbox_step in Hstep.
    case_bool_decide as Hname.
    { injection Hstep as <-. exists new. split; [done|].
      rewrite filter_cons_False; [done|]. subst n. by unfold message_file. }
    destruct (Py.startswith n ".") eqn:Hdot.
    { injection Hstep as <-. exists new. split; [done|].
      rewrite filter_cons_False; [done|]. unfold message_file. congruence. }
    destruct (resource_stream (Py.path_join path n)) as [content|] eqn:Hs.
    + apply (_load_demo_message_inv _ _ content) in Hstep
        as (entry & Hentry & ->); [|done].
      exists (entry :: new). split.
      { rewrite Hadded. cbn [dict.add dict.added].
        rewrite <- app_assoc. by destruct entry. }
      rewrite filter_cons_True by done.
      constructor; [|done]. by exists content.
    + unfold dict._load_demo_message in Hstep. by rewrite Hs in Hstep.
Qed.

End LoaderFacts.

(** ** The demo mailbox loader *)
Section BackendFacts.

Context {FlagT : Type} {FlagT_eq : EqDecision FlagT}
  {FlagT_countable : Countable FlagT}.
Variable Flag : bytes -> FlagT.
Variable Recent : FlagT.
Context {float_t datetime : Type}.
Variable float : bytes -> Result float_t.
Variable fromtimestamp : float_t -> Result datetime.
Variable resource_listdir : string -> Result (list string).
Variable resource_stream : string -> Result bytes.

Lemma split_from_token (cur token rest : bytes) :
  Forall (λ c, Py.is_space c = false) token ->
  Py.split_from cur (token ++ rest) = Py.split_from (cur ++ token) rest.
Proof.
  intros Htoken. revert cur.
  induction Htoken as [|c token Hc _ IH]; intros cur.
  - by rewrite app_nil_r.
  - cbn [app Py.split_from]. rewrite Hc, IH. by rewrite <- app_assoc.
Qed.

Lemma join_spaces_cons (token token' : bytes) (tokens : list bytes) :
  join_spaces (token :: token' :: tokens)
  = token ++ x20 :: join_spaces (token' :: tokens).
Proof. done. Qed.

(** [split] gives back the tokens of a flag list written with spaces. *)
Lemma split_join_spaces (tokens : list bytes) :
  Forall token_ok tokens ->
  Py.split (join_spaces tokens ++ [x0a]) = tokens.
Proof.
  unfold Py.split.
  induction 1 as [|token tokens [Hne Htoken] Hrest IH]; [done|].
  destruct tokens as [|token' tokens].
  - cbn [join_spaces]. rewrite split_from_token by done. simpl.
    by destruct token.
  - rewrite join_spaces_cons, <- app_assoc.
    rewrite split_from_token by done.
    rewrite <- app_comm_cons. cbn [Py.split_from].
    change (Py.is_space x20) with true. cbv iota.
    rewrite IH. by destruct token.
Qed.

(** C8. For every file the demo mailbox loader meets: a file named
    [.readonly] sets the readonly bit of the mailbox and adds nothing; any
    other file whose name begins with a dot is skipped; any other file is
    read as a first line, a second line and the bytes after them, whatever
    it holds: the first line is split into the flags (a list written with
    spaces gives its tokens), the second line is read as a number and
    turned into a UTC datetime, the rest is the message data, and the flag
    [\Recent], when a token of the first line gives it, is left out of the
    flags of the message and is the [recent] argument of [add].  When the
    loader returns, the mailbox is read-only when it was or when the
    directory lists [.readonly], and it holds, after the messages it had,
    one message for each file whose name does not begin with a dot, in the
    sorted order of the names, each read from its file in this way. *)
Theorem C8_demo_loader (name path : string) (mbx : dict.MailboxData) :
  dict._load_demo_mailbox_step Flag Recent float fromtimestamp
    resource_stream path mbx ".readonly"
  = Return (dict.set_readonly mbx true)
  ∧ dict._readonly (dict.set_readonly mbx true) = true
  ∧ dict.added (dict.set_readonly mbx true) = dict.added mbx
  ∧ (∀ msg_name,
       msg_name ≠ ".readonly" -> Py.startswith msg_name "." = true ->
       dict._load_demo_mailbox_step Flag Recent float fromtimestamp
         resource_stream path mbx msg_name
       = Return mbx)
  ∧ (∀ msg_name content mbx',
       Py.startswith msg_name "." = false ->
       resource_stream (Py.path_join path msg_name) = Return content ->
       dict._load_demo_mailbox_step Flag Recent float fromtimestamp
         resource_stream path mbx msg_name
       = Return mbx'
       <-> ∃ entry,
             loaded_from Flag Recent float fromtimestamp content entry
             ∧ mbx' = dict.add mbx entry.1 entry.2)
  ∧ (∀ content entry,
       loaded_from Flag Recent float fromtimestamp content entry ->
       dict.uid entry.1 = 0%Z
       ∧ (Recent ∉ dict.permanent_flags entry.1)
       ∧ ∃ flags_line rest,
           first_line content flags_line rest
           ∧ (∀ flag,
                flag ∈ dict.permanent_flags entry.1
                <-> (flag ≠ Recent
                     ∧ ∃ token,
                         token ∈ Py.split flags_line ∧ Flag token = flag))
           ∧ (entry.2 = true
              <-> ∃ token,
                    token ∈ Py.split flags_line ∧ Flag token = Recent))
  ∧ (∀ tokens,
       Forall token_ok tokens ->
       Py.split (join_spaces tokens ++ [x0a]) = tokens)
  ∧ (∀ mbx',
       dict._load_demo_mailbox Flag Recent float fromtimestamp
         resource_listdir resource_stream name mbx
       = Return mbx' ->
       ∃ names new,
         resource_listdir (Py.path_join "demo" name) = Return names
         ∧ dict._readonly mbx'
           = dict._readonly mbx || bool_decide (".readonly" ∈ names)
         ∧ dict.added mbx' = dict.added mbx ++ new
         ∧ Forall2
             (λ msg_name entry,
                ∃ content,
                  resource_stream
                    (Py.path_join (Py.path_join "demo" name) msg_name)
                  = Return content
                  ∧ loaded_from Flag Recent float fromtimestamp content
                      entry)
             (filter message_file (Py.sorted names)) new).
Proof.
  split; [done|]. split; [done|]. split; [done|].
  split; [|split; [|split; [|split; [apply split_join_spaces|]]]].
  - intros msg_name Hname Hdot. unfold dict._load_demo_mailbox_step.
    rewrite bool_decide_eq_false_2 by done. by rewrite Hdot.
  - intros msg_name content mbx' Hdot Hstream.
    unfold dict._load_demo_mailbox_step.
    rewrite bool_decide_eq_false_2 by (by intros ->).
    rewrite Hdot. by apply _load_demo_message_inv.
  - intros content [msg recent]
      (flags_line & rest & tl & md & ts & dt & Hf1 & _ & _ & _ & Hmsg & Hrec).
    cbn [fst snd] in *. subst msg. cbn [dict.uid dict.permanent_flags].
    split; [done|]. split.
    { rewrite elem_of_difference, elem_of_singleton. by intros [_ []]. }
    exists flags_line, rest. split; [done|]. split; [|done].
    intros flag.
    rewrite elem_of_difference, elem_of_list_to_set, list_elem_of_fmap.
    rewrite not_elem_of_singleton. split.
    + intros [(token & -> & Htoken) Hne]. eauto.
    + intros [Hne (token & Htoken & <-)]. eauto.
  - intros mbx'. unfold dict._load_demo_mailbox.
    destruct (resource_listdir _) as [names|]; [|done].
    cbn [mbind Result_bind]. intros Hloop.
    destruct (_load_demo_mailbox_loop Flag Recent float fromtimestamp
                resource_stream _ _ _ _ Hloop) as [Hro _].
    destruct (_load_demo_mailbox_files Flag Recent float fromtimestamp
                resource_stream _ _ _ _ Hloop) as (new & Hadded & Hnew).
    exists names, new. split; [done|]. split; [|done].
    rewrite Hro. f_equal. apply bool_decide_ext.
    by rewrite (sorted_Permutation names).
Qed.

End BackendFacts.

Lemma C8_demo_loader_witness :
  ∃ mbx' : @dict.MailboxData bytes _ _ bytes,
    dict._load_demo_mailbox Sample.Flag Sample.Recent Sample.float
      Sample.fromtimestamp Sample.resource_listdir Sample.resource_stream
      "INBOX" dict.MailboxData_new = Return mbx'
    ∧ dict._readonly mbx' = true
    ∧ ∃ entry,
        dict.added mbx' = [entry]
        ∧ loaded_from Sample.Flag Sample.Recent Sample.float
            Sample.fromtimestamp Sample.demo_file entry.
Proof.
  destruct (dict._load_demo_mailbox Sample.Flag Sample.Recent Sample.float
              Sample.fromtimestamp Sample.resource_listdir
              Sample.resource_stream "INBOX" dict.MailboxData_new)
    as [mbx'|e] eqn:Hload.
  2:{ exfalso.
      assert (Hreturns :
                match dict._load_demo_mailbox Sample.Flag Sample.Recent
                        Sample.float Sample.fromtimestamp
                        Sample.resource_listdir Sample.resource_stream
                        "INBOX" dict.MailboxData_new
                with Return _ => true | Raise _ => false end = true)
        by (vm_compute; reflexivity).
      rewrite Hload in Hreturns. discriminate Hreturns. }
  exists mbx'. split; [reflexivity|].
  destruct (C8_demo_loader Sample.Flag Sample.Recent Sample.float
              Sample.fromtimestamp Sample.resource_listdir
              Sample.resource_stream "INBOX" "demo/INBOX"
              dict.MailboxData_new)
    as (_ & _ & _ & _ & _ & _ & _ & Hloader).
  destruct (Hloader mbx' Hload)
    as (names & new & Hnames & Hro & Hadded & Hnew).
  vm_compute in Hnames. injection Hnames as <-.
  split; [exact Hro|].
  change (filter message_file
            (Py.sorted ["1"; ".readonly"; ".hidden"]%string))
    with ["1"%string] in Hnew.
  apply Forall2_cons_inv_l in Hnew
    as (entry & new' & (content & Hcontent & Hentry) & Hnil & ->).
  apply Forall2_nil_inv_l in Hnil as ->.
  vm_compute in Hcontent. injection Hcontent as <-.
  exists entry. split; [exact Hadded|exact Hentry].
Defined.

(** ** [login] *)

(** C9, as the specification words it, fails for an empty demo password:
    the user id is the demo user and the secret check against the
    configured password succeeds, yet [login] raises [InvalidAuth]. *)
Lemma C9_counterexample :
  ¬ (∀ (credentials : dict.AuthenticationCredentials)
       (config : @dict.Config bytes _ _ bytes),
       (∃ session,
          dict.login Sample.Flag Sample.Recent Sample.float
            Sample.fromtimestamp Sample.resource_listdir
            Sample.resource_stream credentials config
          = Return session)
       <-> (dict.authcid credentials = dict.demo_user config
            ∧ dict.check_secret credentials (dict.demo_password config)
              = true)).
Proof.
  intros Hspec.
  destruct (Hspec (Sample.credentials "demouser" "")
              (Sample.config "demouser" "")) as [_ Hlogin].
  destruct Hlogin as [session Hsession]; [by split|].
  vm_compute in Hsession. discriminate Hsession.
Qed.

Section LoginFacts.

Context {FlagT : Type} {FlagT_eq : EqDecision FlagT}
  {FlagT_countable : Countable FlagT}.
Variable Flag : bytes -> FlagT.
Variable Recent : FlagT.
Context {float_t datetime : Type}.
Variable float : bytes -> Result float_t.
Variable fromtimestamp : float_t -> Result datetime.
Variable resource_listdir : string -> Result (list string).
Variable resource_stream : string -> Result bytes.

Local Abbreviation login :=
  (dict.login Flag Recent float fromtimestamp resource_listdir
     resource_stream).
Local Abbreviation _load_demo :=
  (dict._load_demo Flag Recent float fromtimestamp resource_listdir
     resource_stream).

(** C9, amended.  [login] returns a session only when the authentication
    id is the configured demo user, the configured demo password is not
    empty and the secret check against it succeeds; in every other case it
    raises [InvalidAuth] and returns no session.  When the three hold it
    goes on to the mailbox set of the user: the cached one, or a new one,
    filled with the demo data when the configuration asks for them, and
    then cached; it returns the session unless loading the demo data
    raises. *)
Theorem C9_login (credentials : dict.AuthenticationCredentials)
    (config : dict.Config) :
  let user := dict.authcid credentials in
  let authenticated :=
    user = dict.demo_user config
    ∧ dict.demo_password config ≠ ""
    ∧ dict.check_secret credentials (dict.demo_password config) = true in
  (dict.get_password config user
   = if bool_decide (user = dict.demo_user config)
     then Return (dict.demo_password config) else Raise InvalidAuth)
  ∧ (¬ authenticated -> login credentials config = Raise InvalidAuth)
  ∧ ((∃ session, login credentials config = Return session) ->
     authenticated)
  ∧ (authenticated ->
     ∀ mailbox_set,
       dict.set_cache config !! user = Some mailbox_set ->
       login credentials config
       = Return {| dict.config := config;
                   dict.mailbox_set := mailbox_set |})
  ∧ (authenticated ->
     dict.set_cache config !! user = None ->
     ∀ mailbox_set,
       (if dict.demo_data config then _load_demo dict.MailboxSet_new
        else Return dict.MailboxSet_new) = Return mailbox_set ->
       ∃ session,
         login credentials config = Return session
         ∧ dict.mailbox_set session = mailbox_set
         ∧ dict.set_cache (dict.config session)
           = <[user := mailbox_set]> (dict.set_cache config))
  ∧ (authenticated ->
     dict.set_cache config !! user = None ->
     dict.demo_data config = true ->
     ∀ e,
       _load_demo dict.MailboxSet_new = Raise e ->
       login credentials config = Raise e).
Proof.
  intros user authenticated.
  assert (Hauth : authenticated ->
    login credentials config
    = match dict.set_cache config !! user with
      | Some mailbox_set =>
          Return {| dict.config := config; dict.mailbox_set := mailbox_set |}
      | None =>
          mailbox_set ←
            (if dict.demo_data config then _load_demo dict.MailboxSet_new
             else Return dict.MailboxSet_new);
          Return
            {| dict.config :=
                 {| dict.demo_data := dict.demo_data config;
                    dict.demo_user := dict.demo_user config;
                    dict.demo_password := dict.demo_password config;
                    dict.set_cache :=
                      <[user := mailbox_set]> (dict.set_cache config) |};
               dict.mailbox_set := mailbox_set |}
      end).
  { intros (Huser & Hpass & Hcheck).
    unfold dict.login, dict.get_password. fold user.
    rewrite bool_decide_eq_true_2 by done. cbn [mbind Result_bind].
    rewrite bool_decide_eq_false_2 by done. rewrite Hcheck. done. }
  assert (Hnot : ¬ authenticated ->
    login credentials config = Raise InvalidAuth).
  { intros Hnot. unfold dict.login, dict.get_password. fold user.
    case_bool_decide as Huser; [|done]. cbn [mbind Result_bind].
    case_bool_decide as Hpass; [done|].
    destruct (dict.check_secret credentials (dict.demo_password config))
      eqn:Hcheck; [|done].
    by destruct Hnot. }
  split; [done|]. split; [exact Hnot|].
  split; [|split; [|split]].
  - intros [session Hsession].
    destruct (decide (user = dict.demo_user config)) as [Huser|Huser].
    2: { rewrite Hnot in Hsession; [done|]. by intros [? _]. }
    destruct (decide (dict.demo_password config = "")) as [Hpass|Hpass].
    { rewrite Hnot in Hsession; [done|]. by intros (_ & ? & _). }
    destruct (dict.check_secret credentials (dict.demo_password config))
      eqn:Hcheck; [done|].
    rewrite Hnot in Hsession; [done|]. intros (_ & _ & ?). congruence.
  - intros Ha mailbox_set Hcache. by rewrite (Hauth Ha), Hcache.
  - intros Ha Hcache mailbox_set Hload.
    rewrite (Hauth Ha), Hcache, Hload. cbn [mbind Result_bind].
    eexists. split; [done|]. done.
  - intros Ha Hcache Hdemo e Hload.
    by rewrite (Hauth Ha), Hcache, Hdemo, Hload.
Qed.

End LoginFacts.

Lemma C9_login_witness :
  (dict.authcid (Sample.credentials "demouser" "demopass")
   = dict.demo_user (Sample.config "demouser" "demopass")
   ∧ dict.demo_password (Sample.config "demouser" "demopass") ≠ ""
   ∧ dict.check_secret (Sample.credentials "demouser" "demopass")
       (dict.demo_password (Sample.config "demouser" "demopass")) = true)
  ∧ ∃ session,
      dict.login Sample.Flag Sample.Recent Sample.float Sample.fromtimestamp
        Sample.resource_listdir Sample.resource_stream
        (Sample.credentials "demouser" "demopass")
        (Sample.config "demouser" "demopass")
      = Return session
      ∧ dict.mailbox_set session = dict.MailboxSet_new
      ∧ dict.set_cache (dict.config session)
        = <["demouser" := dict.MailboxSet_new]> ∅.
Proof.
  assert (Hauth :
    dict.authcid (Sample.credentials "demouser" "demopass")
    = dict.demo_user (Sample.config "demouser" "demopass")
    ∧ dict.demo_password (Sample.config "demouser" "demopass") ≠ ""
    ∧ dict.check_secret (Sample.credentials "demouser" "demopass")
        (dict.demo_password (Sample.config "demouser" "demopass")) = true).
  { split; [reflexivity|]. split; [discriminate|reflexivity]. }
  split; [exact Hauth|].
  destruct (C9_login Sample.Flag Sample.Recent Sample.float
              Sample.fromtimestamp Sample.resource_listdir
              Sample.resource_stream
              (Sample.credentials "demouser" "demopass")
              (Sample.config "demouser" "demopass"))
    as (_ & _ & _ & _ & Hnew & _).
  apply (Hnew Hauth); reflexivity.
Defined.

(** ** The internal date of a demo message *)

(** C10. [fetch_internal_date] of a demo message returns the time the clock
    shows at the call, not a date kept with the message: the value is the
    same for any two messages, whatever they were made from, and two calls
    on one unchanged message can return different values. *)
Theorem C10_internal_date_is_now {EmailMessage Flags : Type}
    (message_from_bytes : bytes -> EmailMessage)
    (self : @demo.Message EmailMessage Flags) :
  (∀ clock,
     demo.fetch_internal_date self clock
     = ({| demo.when := demo.instants clock (demo.reads clock) |},
        (demo.now clock).2))
  ∧ (∀ (other : @demo.Message EmailMessage Flags) clock,
       (demo.fetch_internal_date self clock).1
       = (demo.fetch_internal_date other clock).1)
  ∧ (∀ seq uid (flags : Flags) data seq' uid' (flags' : Flags) data' clock,
       (demo.fetch_internal_date
          (demo.__init__ message_from_bytes seq uid flags data) clock).1
       = (demo.fetch_internal_date
            (demo.__init__ message_from_bytes seq' uid' flags' data')
            clock).1)
  ∧ ∃ clock,
      (demo.fetch_internal_date self clock).1
      ≠ (demo.fetch_internal_date self
           (demo.fetch_internal_date self clock).2).1.
Proof.
  split; [done|]. split; [done|]. split; [done|].
  exists {| demo.instants := Z.of_nat; demo.reads := 0 |}.
  simpl. intros Heq. discriminate Heq.
Qed.

(** ** More on [_find_lines] *)
(** X1. [_find_lines] returns for every buffer, with at least one line; the
    lines follow one another from offset 0 to the end of the buffer, so the
    lines with their line breaks, put together in order, are the buffer. *)
Theorem X1_find_lines_covers_buffer (data : bytes) :
  ∃ lines,
    MessageContent._find_lines data = Some lines
    ∧ lines ≠ []
    ∧ chain 0 lines (Py.len data)
    ∧ Forall (line_ok data) lines
    ∧ concat (map (line_bytes data) lines) = data.
Proof.
  destruct (_find_lines_chain data) as (lines & Hlines & Hchain & Hne).
  pose proof (len_nonneg data).
  exists lines. do 3 (split; [done|]). split.
  - by apply (chain_line_ok data 0 (Py.len data)); [lia..|].
  - rewrite (line_bytes_concat data lines 0 (Py.len data)) by (done || lia).
    rewrite slice_prefix by lia. apply take_ge. unfold Py.len. lia.
Qed.

(** X2. Every line [_find_lines] returns but the last has no LF in its
    content and is followed by LF or CR LF, which is not part of the
    content; the last line has no LF and ends with the buffer.  There is
    one line more than there are LF bytes in the buffer. *)
Theorem X2_find_lines_shape (data : bytes) :
  ∃ init last,
    MessageContent._find_lines data = Some (init ++ [last])
    ∧ Forall (terminated_line data) init
    ∧ final_line data last
    ∧ length (init ++ [last]) = S (count_lf data).
Proof.
  pose proof (len_nonneg data).
  destruct (_find_lines_loop_shape data (S (length data)) 0 [])
    as (init & last & Hlines & Hinit & Hlast); [lia|lia| |done|].
  { unfold Py.len. lia. }
  exists init, last. do 3 (split; [done|]).
  destruct (_find_lines_chain data) as (lines & Hlines' & Hchain & _).
  unfold MessageContent._find_lines in Hlines'.
  assert (lines = init ++ [last]) as -> by congruence.
  assert (Hdata : concat (map (line_bytes data) (init ++ [last])) = data).
  { rewrite (line_bytes_concat data _ 0 (Py.len data)) by (done || lia).
    rewrite slice_prefix by lia. apply take_ge. unfold Py.len. lia. }
  rewrite length_app. simpl.
  rewrite <- Hdata at 1.
  rewrite (count_lf_lines data init last 0 (Py.len data)) by (done || lia).
  lia.
Qed.

(** ** More on the parser *)
Section PartsShape.

Variables (data boundary : bytes).

Lemma before_stop_Forall (f : Line -> bool) (P : Line -> Prop)
    (lines : Lines) :
  Forall P lines -> Forall P (before_stop f lines).
Proof.
  induction 1 as [|l lines Hl _ IH]; simpl; [done|].
  destruct (f l); [done|]. by constructor.
Qed.

Lemma before_stop_none (f : Line -> bool) (lines : Lines) :
  Forall (λ l, f l = false) (before_stop f lines).
Proof.
  induction lines as [|l lines IH]; simpl; [done|].
  destruct (f l) eqn:Hl; [done|]. by constructor.
Qed.

Lemma before_stop_length (f : Line -> bool) (lines : Lines) :
  length (before_stop f lines) <= length lines.
Proof.
  induction lines as [|l lines IH]; simpl; [done|].
  destruct (f l); simpl; lia.
Qed.

Lemma split_at_Forall (f : Line -> bool) (P : Line -> Prop) (lines : Lines) :
  Forall P lines ->
  Forall P (split_at f lines).1 ∧ Forall (Forall P) (split_at f lines).2.
Proof.
  induction 1 as [|l lines Hl _ [IH1 IH2]]; simpl; [done|].
  destruct (split_at f lines) as [first parts]. simpl in *.
  destruct (f l); simpl; split; auto.
Qed.

Lemma split_at_none (f : Line -> bool) (lines : Lines) :
  Forall (λ l, f l = false) (split_at f lines).1
  ∧ Forall (Forall (λ l, f l = false)) (split_at f lines).2.
Proof.
  induction lines as [|l lines [IH1 IH2]]; simpl; [done|].
  destruct (split_at f lines) as [first parts]. simpl in *.
  destruct (f l) eqn:Hl; simpl; split; auto.
Qed.

Lemma split_at_length (f : Line -> bool) (lines : Lines) :
  length (split_at f lines).1 + length (concat (split_at f lines).2)
  + length (split_at f lines).2 = length lines.
Proof.
  induction lines as [|l lines IH]; simpl; [done|].
  destruct (split_at f lines) as [first parts]. simpl in *.
  destruct (f l); simpl; rewrite ?length_app; lia.
Qed.

Lemma split_at_count (f : Line -> bool) (lines : Lines) :
  length (split_at f lines).2 = length (List.filter f lines).
Proof.
  induction lines as [|l lines IH]; simpl; [done|].
  destruct (split_at f lines) as [first parts]. simpl in *.
  destruct (f l); simpl; lia.
Qed.

Lemma parts_of_plain (lines : Lines) :
  Forall (Forall (plain_line data boundary)) (parts_of data boundary lines).
Proof.
  unfold parts_of.
  set (is_open := line_is data (Py.b "--" ++ boundary)).
  set (is_stop := line_is data (Py.b "--" ++ boundary ++ Py.b "--")).
  pose proof (before_stop_none is_stop lines) as Hstop.
  apply (split_at_Forall is_open) in Hstop as [_ Hstop].
  destruct (split_at_none is_open (before_stop is_stop lines)) as [_ Hopen].
  apply Forall_forall. intros p Hp.
  rewrite Forall_forall in Hstop, Hopen.
  specialize (Hstop p Hp). specialize (Hopen p Hp).
  apply Forall_forall. intros l Hl.
  rewrite Forall_forall in Hstop, Hopen. split; auto.
Qed.

Lemma parts_of_length (lines : Lines) :
  length (concat (parts_of data boundary lines))
  + length (parts_of data boundary lines) <= length lines.
Proof.
  unfold parts_of.
  set (is_open := line_is data (Py.b "--" ++ boundary)).
  set (is_stop := line_is data (Py.b "--" ++ boundary ++ Py.b "--")).
  pose proof (split_at_length is_open (before_stop is_stop lines)).
  pose proof (before_stop_length is_stop lines). lia.
Qed.

End PartsShape.

(** X5. Every part [_find_parts] returns is a run of consecutive body lines
    that comes after at least one other line and holds no line equal to
    [--boundary] or [--boundary--]; the parts and their opening lines
    together are no more than the body lines; and there are as many parts
    as lines equal to [--boundary] before the first [--boundary--]. *)
Theorem X5_parts_are_runs_between_markers (data : bytes) (lines : Lines)
    (boundary : bytes) :
  Forall (λ p, segment_of lines p ∧ Forall (plain_line data boundary) p)
    (_MultipartBody._find_parts data lines boundary)
  ∧ length (concat (_MultipartBody._find_parts data lines boundary))
    + length (_MultipartBody._find_parts data lines boundary)
    <= length lines
  ∧ length (_MultipartBody._find_parts data lines boundary)
    = length
        (List.filter (line_is data (Py.b "--" ++ boundary))
           (before_stop (line_is data (Py.b "--" ++ boundary ++ Py.b "--"))
              lines)).
Proof.
  rewrite _find_parts_spec. split; [|split].
  - apply Forall_and. split; [apply parts_of_segments|apply parts_of_plain].
  - apply parts_of_length.
  - apply split_at_count.
Qed.

Section ParseShape.

Variable whitespace : bytes.
Variable header_fetch_parse : list bytes -> option ContentTypeHeader.
Variable data : bytes.

Lemma _find_lines_length (lines : Lines) :
  MessageContent._find_lines data = Some lines ->
  length lines = S (count_lf data).
Proof.
  intros Hlines. pose proof (len_nonneg data).
  destruct (_find_lines_loop_shape data (S (length data)) 0 [])
    as (init & last & Hshape & Hinit & Hlast); [lia|lia| |done|].
  { unfold Py.len. lia. }
  destruct (_find_lines_chain data) as (lines' & Hlines' & Hchain & _).
  assert (lines' = lines) as -> by congruence.
  unfold MessageContent._find_lines in Hlines.
  assert (lines = init ++ [last]) as -> by congruence.
  assert (Hdata : concat (map (line_bytes data) (init ++ [last])) = data).
  { rewrite (line_bytes_concat data _ 0 (Py.len data)) by (done || lia).
    rewrite slice_prefix by lia. apply take_ge. unfold Py.len. lia. }
  rewrite length_app. simpl. rewrite <- Hdata at 1.
  rewrite (count_lf_lines data init last 0 (Py.len data)) by (done || lia).
  lia.
Qed.

Lemma walk_children_length (parts : list Lines) (cs : list MessageContent) :
  Forall2 (λ p c, length (MessageContent.walk c) <= S (length p)) parts cs ->
  length (concat (map MessageContent.walk cs))
  <= length (concat parts) + length parts.
Proof.
  induction 1 as [|p c parts cs Hpc _ IH]; simpl; [done|].
  rewrite !length_app. lia.
Qed.

(** The size of the tree [_parse] returns, and the lines of its contents. *)
Lemma _parse_size (fuel : nat) (lines : Lines) (c : MessageContent) :
  MessageContent._parse whitespace header_fetch_parse fuel data lines
  = Some c ->
  length (MessageContent.walk c) <= S (length lines)
  ∧ Attr.lines c = (Py.len lines - 1)%Z
  ∧ Forall fewer_lines_below (MessageContent.walk c).
Proof.
  revert fuel lines c.
  apply (_parse_ind whitespace header_fetch_parse data
           (λ lines c,
              length (MessageContent.walk c) <= S (length lines)
              ∧ Attr.lines c = (Py.len lines - 1)%Z
              ∧ Forall fewer_lines_below (MessageContent.walk c))).
  intros hl bl h b Hsplit Hh
    [->|[(boundary & cs & Hlen & Hcs & ->)|(subpart & Hlen & Hsub & ->)]].
  - simpl. split; [lia|]. split; [done|]. by repeat constructor.
  - rewrite walk_unfold.
    cbn [Attr.body Attr.lines MessageBody.nested length].
    split; [|split; [done|]].
    + pose proof (parts_of_length data boundary bl).
      pose proof (walk_children_length (parts_of data boundary bl) cs)
        as Hwalk.
      rewrite length_app in *. apply le_n_S.
      etransitivity; [apply Hwalk|lia].
      eapply Forall2_impl; [exact Hcs|]. by intros p c' (? & _).
    + constructor.
      * unfold fewer_lines_below. cbn [Attr.body Attr.lines MessageBody.nested].
        pose proof (parts_of_segments data boundary bl) as Hseg.
        clear -Hcs Hseg Hlen.
        induction Hcs as [|p c' parts cs (_ & Hlines & _) _ IH];
          [done|].
        apply Forall_cons_1 in Hseg as [Hp Hseg].
        constructor; [|by apply IH].
        apply segment_of_length in Hp. rewrite Hlines.
        unfold Py.len. lia.
      * apply Forall_concat, Forall_map.
        clear -Hcs. induction Hcs as [|p c' parts cs (_ & _ & Hall) _ IH];
          by constructor.
  - destruct Hsub as (Hsize & Hlines & Hall).
    rewrite walk_unfold.
    cbn [Attr.body Attr.lines MessageBody.nested length map concat].
    rewrite app_nil_r. split; [|split; [done|]].
    + simpl. lia.
    + constructor; [|done].
      unfold fewer_lines_below. cbn [Attr.body Attr.lines MessageBody.nested].
      constructor; [|done]. rewrite Hlines. unfold Py.len. lia.
Qed.

End ParseShape.

(** X3. [parse] returns a content for every bytestring: no index is out of
    range, and the recursion over the nested contents ends within one round
    more than the input has lines.  The line count of the content is the
    number of LF bytes of the input. *)
Theorem X3_parse_returns (whitespace : bytes)
    (header_fetch_parse : list bytes -> option ContentTypeHeader)
    (data : bytes) :
  ∃ lines c,
    MessageContent._find_lines data = Some lines
    ∧ MessageContent._parse whitespace header_fetch_parse
        (S (length lines)) data lines = Some c
    ∧ MessageContent.parse whitespace header_fetch_parse data = Some c
    ∧ Attr.lines c = Z.of_nat (count_lf data).
Proof.
  destruct (parse_total whitespace header_fetch_parse data) as (c & Hc).
  pose proof Hc as Hparse.
  unfold MessageContent.parse in Hc.
  destruct (MessageContent._find_lines data) as [lines|] eqn:Hlines; [|done].
  cbn [mbind option_bind] in Hc.
  exists lines, c. do 3 (split; [done|]).
  apply _parse_size in Hc as (_ & -> & _).
  apply _find_lines_length in Hlines. unfold Py.len. lia.
Qed.

(** X4. The tree [_parse] returns for a run of lines has at most one
    content more than there are lines, and every nested content, at any
    depth, has fewer lines than the content it is nested in. *)
Theorem X4_tree_is_bounded_by_lines (whitespace : bytes)
    (header_fetch_parse : list bytes -> option ContentTypeHeader)
    (data : bytes) (fuel : nat) (lines : Lines) (c : MessageContent) :
  MessageContent._parse whitespace header_fetch_parse fuel data lines
  = Some c ->
  length (MessageContent.walk c) <= S (length lines)
  ∧ Forall fewer_lines_below (MessageContent.walk c).
Proof.
  intros Hc.
  destruct (_parse_size whitespace header_fetch_parse data fuel lines c Hc)
    as (Hsize & _ & Hall).
  done.
Qed.

Lemma X4_tree_is_bounded_by_lines_witness :
  ∃ lines c,
    MessageContent._find_lines Sample.two_parts = Some lines
    ∧ MessageContent._parse Sample.whitespace Sample.header_fetch_parse
        (S (length lines)) Sample.two_parts lines = Some c
    ∧ length (MessageContent.walk c) <= S (length lines)
    ∧ Forall fewer_lines_below (MessageContent.walk c).
Proof.
  destruct (MessageContent._find_lines Sample.two_parts) as [lines|] eqn:Hl;
    [|by vm_compute in Hl].
  destruct (MessageContent._parse Sample.whitespace Sample.header_fetch_parse
              (S (length lines)) Sample.two_parts lines) as [c|] eqn:Hc.
  - exists lines, c. split; [reflexivity|]. split; [exact Hc|].
    exact (X4_tree_is_bounded_by_lines _ _ _ _ _ _ Hc).
  - vm_compute in Hl. injection Hl as <-. vm_compute in Hc. discriminate Hc.
Defined.

(** X6. For every content [_parse] returns, the line count is the number of
    lines less one and the header counts the lines of the header region,
    separator included.  A singlepart or multipart body counts the body
    lines, so header and body together count one more than the content; a
    [message/rfc822] body takes the count of its nested content, one less
    than the body lines, so there header and body together count the same as
    the content. *)
Theorem X6_line_counts (whitespace : bytes)
    (header_fetch_parse : list bytes -> option ContentTypeHeader)
    (data : bytes) (fuel : nat) (lines : Lines) (c : MessageContent) :
  MessageContent._parse whitespace header_fetch_parse fuel data lines
  = Some c ->
  Attr.lines c = (Py.len lines - 1)%Z
  ∧ MessageHeader.lines (Attr.header c)
    = Py.len (MessageContent._split_lines whitespace data lines).1
  ∧ MessageBody.lines (Attr.body c)
    = (Py.len (MessageContent._split_lines whitespace data lines).2
       - (if is_rfc822 (Attr.body c) then 1 else 0))%Z
  ∧ (MessageHeader.lines (Attr.header c) + MessageBody.lines (Attr.body c)
     = Attr.lines c + (if is_rfc822 (Attr.body c) then 0 else 1))%Z.
Proof.
  intros Hc. destruct fuel as [|fuel]; [done|].
  apply _parse_cases in Hc as (h & b & Hh & Hb & ->).
  destruct (MessageContent._split_lines whitespace data lines)
    as [hl bl] eqn:Hsplit.
  cbn [fst snd Attr.lines Attr.header Attr.body] in *.
  apply _split_lines_app in Hsplit as [-> _].
  apply (MessageHeader_parse_lines whitespace header_fetch_parse) in Hh
    as [Hlines _].
  assert (Hlen : Py.len (hl ++ bl) = (Py.len hl + Py.len bl)%Z).
  { unfold Py.len. rewrite length_app. lia. }
  split; [done|]. split; [done|].
  apply MessageBody_parse_cases in Hb
    as [->|[(boundary & cs & _ & _ & ->)|(subpart & _ & Hsub & ->)]];
    cbn [MessageBody.lines is_rfc822].
  - lia.
  - lia.
  - apply _parse_size in Hsub as (_ & -> & _). lia.
Qed.

Lemma X6_line_counts_witness :
  ∃ c,
    MessageContent._parse Sample.whitespace Sample.header_fetch_parse 4
      Sample.spaced [(0, 4, 5); (5, 6, 7); (7, 11, 11)]%Z = Some c
    ∧ Attr.lines c = 2%Z
    ∧ (MessageHeader.lines (Attr.header c) + MessageBody.lines (Attr.body c)
       = Attr.lines c + (if is_rfc822 (Attr.body c) then 0 else 1))%Z.
Proof.
  destruct (MessageContent._parse Sample.whitespace Sample.header_fetch_parse
              4 Sample.spaced [(0, 4, 5); (5, 6, 7); (7, 11, 11)]%Z)
    as [c|] eqn:Hc; [|by vm_compute in Hc].
  exists c. split; [reflexivity|].
  destruct (X6_line_counts _ _ _ _ _ _ Hc) as (Hlines & _ & _ & Hsum).
  split; [exact Hlines|exact Hsum].
Defined.

(** X13. A multipart body that [_MultipartBody._parse_body] returns has one
    nested content for each line equal to [--boundary] before the first
    line equal to [--boundary--], in that order parsed from the parts, and
    reports [has_nested] even when it has none; its line count is the
    number of body lines, markers, preamble and epilogue included. *)
Theorem X13_multipart_children
    (rec : bytes -> Lines -> option MessageContent) (data : bytes)
    (lines : Lines) (t : ContentTypeHeader) (boundary : bytes)
    (b : MessageBody) :
  _MultipartBody._parse_body rec data lines t boundary = Some b ->
  MessageBody.has_nested b = true
  ∧ MessageBody.lines b = Py.len lines
  ∧ Forall2 (λ part child, rec data part = Some child)
      (_MultipartBody._find_parts data lines boundary) (MessageBody.nested b)
  ∧ length (MessageBody.nested b)
    = length
        (List.filter (line_is data (Py.b "--" ++ boundary))
           (before_stop (line_is data (Py.b "--" ++ boundary ++ Py.b "--"))
              lines)).
Proof.
  rewrite _MultipartBody_parse_body_spec, _find_parts_spec.
  destruct (mapM _ _) as [cs|] eqn:Hcs; [|done].
  intros [= <-]. cbn [MessageBody.has_nested MessageBody.lines
                      MessageBody.nested].
  apply mapM_Some in Hcs. do 2 (split; [done|]). split; [done|].
  rewrite <- (Forall2_length _ _ _ Hcs). apply split_at_count.
Qed.

Lemma X13_multipart_children_witness :
  ∃ b,
    _MultipartBody._parse_body
      (MessageContent._parse Sample.whitespace Sample.header_fetch_parse 8)
      Sample.body_two_parts
      [(0, 3, 4); (4, 7, 8); (8, 11, 12); (12, 15, 16); (16, 19, 20);
       (20, 25, 26); (26, 29, 29)]%Z
      Sample.multipart_mixed_X (Py.b "X") = Some b
    ∧ length (MessageBody.nested b) = 2.
Proof.
  destruct (_MultipartBody._parse_body
              (MessageContent._parse Sample.whitespace
                 Sample.header_fetch_parse 8)
              Sample.body_two_parts
              [(0, 3, 4); (4, 7, 8); (8, 11, 12); (12, 15, 16);
               (16, 19, 20); (20, 25, 26); (26, 29, 29)]%Z
              Sample.multipart_mixed_X (Py.b "X")) as [b|] eqn:Hb;
    [|by vm_compute in Hb].
  exists b. split; [reflexivity|].
  destruct (X13_multipart_children _ _ _ _ _ _ Hb) as (_ & _ & _ & Hlen).
  rewrite Hlen. reflexivity.
Defined.

(** ** More on the headers *)
Section NameFacts.

Lemma lower_byte_idemp (c : byte) :
  Py.lower_byte (Py.lower_byte c) = Py.lower_byte c.
Proof. by destruct c. Qed.

Lemma is_space_lower_byte (c : byte) :
  Py.is_space (Py.lower_byte c) = Py.is_space c.
Proof. by destruct c. Qed.

Lemma lower_byte_colon (c : byte) : Py.lower_byte c = ":"%byte -> c = ":"%byte.
Proof. by destruct c. Qed.

Lemma lstrip_idemp (s : bytes) : Py.lstrip (Py.lstrip s) = Py.lstrip s.
Proof.
  induction s as [|c s IH]; [done|]. simpl.
  destruct (Py.is_space c) eqn:Hc; [done|]. simpl. by rewrite Hc.
Qed.

Lemma lstrip_head (x : byte) (s : bytes) :
  Py.is_space x = false -> Py.lstrip (x :: s) = x :: s.
Proof. intros Hx. simpl. by rewrite Hx. Qed.

Lemma lstrip_snoc (s : bytes) (x : byte) :
  Py.is_space x = false -> ∃ s', Py.lstrip (s ++ [x]) = s' ++ [x].
Proof.
  intros Hx. induction s as [|c s [s' IH]]; simpl.
  - rewrite Hx. by exists [].
  - destruct (Py.is_space c); [by exists s'|]. by exists (c :: s).
Qed.

Lemma lstrip_subseteq (s : bytes) (c : byte) : c ∈ Py.lstrip s -> c ∈ s.
Proof.
  induction s as [|x s IH]; [done|]. simpl.
  destruct (Py.is_space x); [|done]. intros Hin. right. by apply IH.
Qed.

Lemma strip_subseteq (s : bytes) (c : byte) : c ∈ Py.strip s -> c ∈ s.
Proof.
  unfold Py.strip, Py.rstrip. rewrite elem_of_reverse.
  intros Hin%lstrip_subseteq. rewrite elem_of_reverse in Hin.
  by apply lstrip_subseteq.
Qed.

Lemma strip_idemp (s : bytes) : Py.strip (Py.strip s) = Py.strip s.
Proof.
  unfold Py.strip. destruct (Py.lstrip s) as [|x r] eqn:Hs; [done|].
  assert (Hx : Py.is_space x = false).
  { destruct (Py.is_space x) eqn:Hx; [|done].
    pose proof (lstrip_idemp s) as Hid. rewrite Hs in Hid.
    simpl in Hid. rewrite Hx in Hid.
    assert (Hlen : length (Py.lstrip r) <= length r).
    { clear. induction r as [|c r IH]; simpl; [done|].
      destruct (Py.is_space c); simpl; lia. }
    rewrite Hid in Hlen. simpl in Hlen. lia. }
  unfold Py.rstrip. rewrite reverse_cons.
  destruct (lstrip_snoc (reverse r) x Hx) as [s' Hs'].
  pose proof (lstrip_idemp (reverse r ++ [x])) as Hid.
  rewrite Hs' in *. rewrite reverse_app, reverse_singleton. simpl.
  rewrite Hx. rewrite reverse_cons, reverse_involutive, Hid.
  by rewrite reverse_app, reverse_singleton.
Qed.

Lemma lower_idemp (s : bytes) : Py.lower (Py.lower s) = Py.lower s.
Proof.
  unfold Py.lower. rewrite map_map. apply map_ext. apply lower_byte_idemp.
Qed.

Lemma lstrip_lower (s : bytes) :
  Py.lstrip (Py.lower s) = Py.lower (Py.lstrip s).
Proof.
  induction s as [|c s IH]; [done|]. simpl.
  rewrite is_space_lower_byte. by destruct (Py.is_space c).
Qed.

Lemma lower_reverse (s : bytes) :
  Py.lower (reverse s) = reverse (Py.lower s).
Proof. exact (fmap_reverse Py.lower_byte s). Qed.

Lemma strip_lower (s : bytes) : Py.strip (Py.lower s) = Py.lower (Py.strip s).
Proof.
  unfold Py.strip, Py.rstrip.
  by rewrite lstrip_lower, <- lower_reverse, lstrip_lower, lower_reverse.
Qed.

Lemma before_colon_no_colon (line : bytes) : ":"%byte ∉ before_colon line.
Proof.
  induction line as [|c line IH]; simpl; [apply not_elem_of_nil|].
  case_bool_decide; [apply not_elem_of_nil|].
  apply not_elem_of_cons. done.
Qed.

(** The name of a group is normalized. *)
Lemma header_name_normalized (data : bytes) (group : Lines) :
  normalized (header_name data group).
Proof.
  unfold header_name.
  destruct (head group) as [[[s e] n]|]; [|by repeat split; try apply not_elem_of_nil].
  split; [apply lower_idemp|]. split.
  - by rewrite strip_lower, strip_idemp.
  - unfold Py.lower. intros Hin.
    apply list_elem_of_In, in_map_iff in Hin as (c & Hc & Hin).
    apply lower_byte_colon in Hc. subst c.
    apply list_elem_of_In, strip_subseteq in Hin.
    by apply before_colon_no_colon in Hin.
Qed.

End NameFacts.

Section IndexFacts.

Variables (whitespace data : bytes).

(** The header [MessageHeader._parse] returns, through the groups it was
    made from. *)
Lemma MessageHeader_parse_index (lines : Lines) :
  Forall (line_ok data) lines ->
  ∃ h folds,
    MessageHeader._parse whitespace data lines = Some h
    ∧ MessageHeader.folded h = folded_of data folds
    ∧ ∀ name,
        ParsedHeaders.headers (MessageHeader.parsed h) !! name
        = match values_of data folds name with
          | [] => None
          | vs => Some vs
          end.
Proof.
  intros Hok. destruct lines as [|l lines _] using rev_ind.
  - rewrite MessageHeader_parse_nil. eexists _, []. split; [done|].
    split; [done|]. intros name. cbn. apply lookup_empty.
  - apply Forall_app in Hok as [Hok _].
    destruct (MessageHeader_parse_spec whitespace data lines l Hok)
      as (headers & -> & Hlook).
    eexists _, _. split; [done|]. split; [done|]. exact Hlook.
Qed.

Lemma values_of_length (folds : list Lines) (name : bytes) :
  length (values_of data folds name)
  = length (filter (λ p : bytes * bytes, p.1 = name) (folded_of data folds)).
Proof.
  unfold values_of, folded_of.
  induction (kept_groups data folds) as [|g kept IH]; [done|].
  cbn [List.filter map]. rewrite filter_cons. cbn [fst].
  case_bool_decide; rewrite decide_bool_decide.
  - rewrite bool_decide_eq_true_2 by done. simpl. by rewrite IH.
  - rewrite bool_decide_eq_false_2 by done. done.
Qed.

Lemma values_of_name (folds : list Lines) (name : bytes) :
  values_of data folds name ≠ [] ->
  ∃ g, header_name data g = name.
Proof.
  unfold values_of.
  induction (kept_groups data folds) as [|g kept IH]; [done|].
  cbn [List.filter]. case_bool_decide; [by exists g|done].
Qed.

End IndexFacts.

(** X7. Every name in the folded sequence and every key of the header
    index is normalized: it is lowercase, has no whitespace at either end
    and holds no colon, so that normalizing it again gives the same
    bytes. *)
Theorem X7_header_names_normalized (whitespace data : bytes)
    (lines : Lines) :
  Forall (line_ok data) lines ->
  ∃ h,
    MessageHeader._parse whitespace data lines = Some h
    ∧ Forall (λ p, normalized p.1) (MessageHeader.folded h)
    ∧ ∀ name,
        is_Some (ParsedHeaders.headers (MessageHeader.parsed h) !! name) ->
        normalized name.
Proof.
  intros Hok.
  destruct (MessageHeader_parse_index whitespace data lines Hok)
    as (h & folds & Hh & Hfolded & Hlook).
  exists h. split; [done|]. split.
  - rewrite Hfolded. unfold folded_of. apply Forall_map, Forall_forall.
    intros g _. apply header_name_normalized.
  - intros name. rewrite Hlook. intros Hsome.
    destruct (values_of_name data folds name) as [g <-].
    { intros Hnil. rewrite Hnil in Hsome. by destruct Hsome. }
    apply header_name_normalized.
Qed.

Lemma X7_header_names_normalized_witness :
  ∃ h,
    MessageHeader._parse Sample.whitespace Sample.header_region
      [(0, 4, 5); (5, 7, 8); (8, 15, 16); (16, 21, 22); (22, 22, 23)]%Z
    = Some h
    ∧ Forall (λ p, normalized p.1) (MessageHeader.folded h).
Proof.
  destruct (X7_header_names_normalized Sample.whitespace
              Sample.header_region
              [(0, 4, 5); (5, 7, 8); (8, 15, 16); (16, 21, 22);
               (22, 22, 23)]%Z) as (h & Hh & Hfolded & _).
  { repeat (constructor; [unfold line_ok, Py.len; simpl; lia|]).
    constructor. }
  exists h. split; [exact Hh|exact Hfolded].
Defined.

(** X8. The header index and the folded sequence agree: a name is a key of
    the index exactly when the folded sequence holds a pair of that name,
    and the index then gives as many value groups as there are such pairs,
    never an empty list. *)
Theorem X8_index_agrees_with_folded (whitespace data : bytes)
    (lines : Lines) :
  Forall (line_ok data) lines ->
  ∃ h,
    MessageHeader._parse whitespace data lines = Some h
    ∧ ∀ name,
        match ParsedHeaders.headers (MessageHeader.parsed h) !! name with
        | None => name ∉ (MessageHeader.folded h).*1
        | Some values =>
            values ≠ []
            ∧ length values
              = length (filter (λ p : bytes * bytes, p.1 = name)
                          (MessageHeader.folded h))
        end.
Proof.
  intros Hok.
  destruct (MessageHeader_parse_index whitespace data lines Hok)
    as (h & folds & Hh & Hfolded & Hlook).
  exists h. split; [done|]. intros name.
  rewrite Hlook, Hfolded.
  pose proof (values_of_length data folds name) as Hlen.
  destruct (values_of data folds name) as [|v vs]; [|done].
  intros Hin. apply list_elem_of_fmap in Hin as ([name' raw] & -> & Hin).
  assert (Hfilter : (name', raw)
    ∈ filter (λ p : bytes * bytes, p.1 = name') (folded_of data folds)).
  { by apply list_elem_of_filter. }
  destruct (filter _ (folded_of data folds)); [|done].
  by apply elem_of_nil in Hfilter.
Qed.

Lemma X8_index_agrees_with_folded_witness :
  ∃ h,
    MessageHeader._parse Sample.whitespace Sample.header_region
      [(0, 4, 5); (5, 7, 8); (8, 15, 16); (16, 21, 22); (22, 22, 23)]%Z
    = Some h
    ∧ Py.b "nocolon" ∉ (MessageHeader.folded h).*1.
Proof.
  destruct (X8_index_agrees_with_folded Sample.whitespace
              Sample.header_region
              [(0, 4, 5); (5, 7, 8); (8, 15, 16); (16, 21, 22);
               (22, 22, 23)]%Z) as (h & Hh & Hagree).
  { repeat (constructor; [unfold line_ok, Py.len; simpl; lia|]).
    constructor. }
  exists h. split; [exact Hh|].
  specialize (Hagree (Py.b "nocolon")).
  destruct (ParsedHeaders.headers (MessageHeader.parsed h)
            !! Py.b "nocolon") as [values|] eqn:Hlook; [|exact Hagree].
  vm_compute in Hh. injection Hh as <-. vm_compute in Hlook.
  discriminate Hlook.
Defined.

(** ** [_join_group] *)
Section JoinFacts.

Variable data : bytes.

Lemma len_app {A} (l1 l2 : list A) :
  Py.len (l1 ++ l2) = (Py.len l1 + Py.len l2)%Z.
Proof. unfold Py.len. rewrite length_app. lia. Qed.

Lemma len_replicate {A} (k : nat) (x : A) :
  Py.len (replicate k x) = Z.of_nat k.
Proof. unfold Py.len. by rewrite length_replicate. Qed.

(** An assignment inside the zero bytes a bytearray still ends with. *)
Lemma setslice_fill (acc w : bytes) (k : nat) :
  length w <= k ->
  Py.setslice (acc ++ replicate k x00) (Py.len acc) (Py.len acc + Py.len w) w
  = acc ++ w ++ replicate (k - length w) x00.
Proof.
  intros Hk. unfold Py.setslice.
  rewrite len_app, len_replicate.
  pose proof (len_nonneg acc). pose proof (len_nonneg w).
  rewrite !norm_index_id by (unfold Py.len in *; lia).
  replace (Z.max (Py.len acc) (Py.len acc + Py.len w))
    with (Py.len acc + Py.len w)%Z by lia.
  replace (Z.to_nat (Py.len acc)) with (length acc) by (unfold Py.len; lia).
  replace (Z.to_nat (Py.len acc + Py.len w)) with (length acc + length w)
    by (unfold Py.len; lia).
  rewrite take_app_length, drop_app_add, drop_replicate. done.
Qed.

Lemma setslice_fill_start (w : bytes) (k : nat) :
  length w <= k ->
  Py.setslice (replicate k x00) 0 (Py.len w) w
  = w ++ replicate (k - length w) x00.
Proof. intros Hk. exact (setslice_fill [] w k Hk). Qed.

(** An assignment at or after the end of a bytearray appends. *)
Lemma setslice_append (acc w : bytes) (a c : Z) :
  (Py.len acc <= a)%Z -> (a <= c)%Z ->
  Py.setslice acc a c w = acc ++ w.
Proof.
  intros Ha Hc. unfold Py.setslice.
  pose proof (len_nonneg acc).
  unfold Py.norm_index.
  destruct (Z.ltb_spec a 0); [lia|]. destruct (Z.ltb_spec c 0); [lia|].
  replace (Z.min a (Py.len acc)) with (Py.len acc) by lia.
  replace (Z.max (Py.len acc) (Z.min c (Py.len acc))) with (Py.len acc)
    by lia.
  replace (Z.to_nat (Py.len acc)) with (length acc) by (unfold Py.len; lia).
  rewrite take_ge, drop_ge by lia. by rewrite app_nil_r.
Qed.

(** An assignment over the whole of a bytearray replaces it. *)
Lemma setslice_all (ret w : bytes) (c : Z) :
  (Py.len ret <= c)%Z -> Py.setslice ret 0 c w = w.
Proof.
  intros Hc. unfold Py.setslice. pose proof (len_nonneg ret).
  rewrite (norm_index_id (Py.len ret) 0) by lia.
  unfold Py.norm_index. destruct (Z.ltb_spec c 0); [lia|].
  replace (Z.max 0 (Z.min c (Py.len ret))) with (Py.len ret) by lia.
  replace (Z.to_nat (Py.len ret)) with (length ret) by (unfold Py.len; lia).
  simpl. rewrite drop_ge by lia. by rewrite app_nil_r.
Qed.

Lemma line_content_len (line : Line) :
  line_ok data line ->
  Py.len (line_content data line)
  = (let '(start, end_, _) := line in end_ - start)%Z.
Proof.
  destruct line as [[s e] n]. intros (? & ? & ? & ?).
  apply slice_length; lia.
Qed.

Lemma content_length_nonneg (lines : Lines) :
  Forall (line_ok data) lines -> (0 <= content_length lines)%Z.
Proof.
  unfold content_length, Py.sum.
  induction 1 as [|[[s e] n] lines (? & ? & ? & ?) _ IH]; simpl; lia.
Qed.

Lemma _join_group_fill (rest : Lines) (acc : bytes) :
  Forall (line_ok data) rest ->
  (foldl (MessageHeader._join_group_step data)
     (acc ++ replicate (Z.to_nat (content_length rest)) x00, Py.len acc)
     rest).1
  = acc ++ concat (map (line_content data) rest).
Proof.
  intros Hok. revert acc.
  induction Hok as [|[[s e] n] rest Hl Hok IH]; intros acc.
  - simpl. done.
  - cbn [foldl MessageHeader._join_group_step map concat].
    pose proof (line_content_len _ Hl) as Hlen. cbn in Hlen.
    pose proof (content_length_nonneg rest Hok) as Hrest.
    destruct Hl as (? & ? & ? & ?).
    change (Py.slice data s e) with (line_content data (s, e, n)).
    rewrite <- Hlen.
    rewrite setslice_fill.
    2: { unfold content_length, line_content, Py.sum in *.
         cbn [map foldr] in *. unfold Py.len in Hlen. lia. }
    replace (Z.to_nat (content_length ((s, e, n) :: rest))
             - length (line_content data (s, e, n)))
      with (Z.to_nat (content_length rest)).
    2: { unfold content_length, line_content, Py.sum in *.
         cbn [map foldr] in *. unfold Py.len in Hlen. lia. }
    rewrite <- len_app, app_assoc, IH. by rewrite <- app_assoc.
Qed.

Lemma _join_group_append (rest : Lines) (acc : bytes) (current : Z) :
  Forall (line_ok data) rest -> (Py.len acc <= current)%Z ->
  (foldl (MessageHeader._join_group_step data) (acc, current) rest).1
  = acc ++ concat (map (line_content data) rest).
Proof.
  intros Hok. revert acc current.
  induction Hok as [|[[s e] n] rest Hl Hok IH]; intros acc current Hcur.
  - simpl. by rewrite app_nil_r.
  - cbn [foldl MessageHeader._join_group_step map concat].
    pose proof (line_content_len _ Hl) as Hlen. cbn in Hlen.
    destruct Hl as (? & ? & ? & ?).
    rewrite setslice_append by lia.
    rewrite IH; [by rewrite <- app_assoc|].
    rewrite len_app. lia.
Qed.

End JoinFacts.

(** X9. For a group whose lines lie in the buffer and whose first line
    holds the colon at [colon], [_join_group] returns the bytes of the
    first line after the colon followed by the contents of the other lines
    of the group, when the group starts at offset 0 of the buffer or at an
    offset that is at least the length of those other lines. *)
Theorem X9_join_group (data : bytes) (first_start first_end next : Z)
    (rest : Lines) (colon : Z) :
  Forall (line_ok data) ((first_start, first_end, next) :: rest) ->
  (first_start <= colon)%Z -> (colon < first_end)%Z ->
  first_start = 0%Z ∨ (content_length rest <= first_start)%Z ->
  MessageHeader._join_group data ((first_start, first_end, next) :: rest)
    colon
  = Some (Py.slice data (colon + 1) first_end
          ++ concat (map (line_content data) rest)).
Proof.
  intros Hok Hc1 Hc2 Hstart.
  apply Forall_cons_1 in Hok as [(H0 & Hse & Hen & Hn) Hok].
  pose proof (content_length_nonneg data rest Hok) as Hrest.
  unfold MessageHeader._join_group.
  cbn [head mbind option_bind tail map Py.sum foldr].
  fold (Py.sum (map (λ '(start, end_, _), (end_ - start)%Z) rest)).
  fold (content_length rest).
  set (v := Py.slice data (colon + 1) first_end).
  assert (Hv : Py.len v = (first_end - colon - 1)%Z).
  { unfold v. rewrite slice_length by lia. lia. }
  unfold Py.bytearray.
  destruct (Z.ltb_spec
    (first_end - first_start + content_length rest
     - (colon - first_start + 1)) 0); [lia|].
  cbn [mbind option_bind].
  f_equal. destruct Hstart as [->|Hstart].
  - replace (first_end - (colon - 0 + 1))%Z with (Py.len v) by lia.
    replace (Z.to_nat (first_end - 0 + content_length rest - (colon - 0 + 1)))
      with (length v + Z.to_nat (content_length rest))
      by (unfold Py.len in Hv; lia).
    rewrite setslice_fill_start by lia.
    replace (length v + Z.to_nat (content_length rest) - length v)
      with (Z.to_nat (content_length rest)) by lia.
    apply (_join_group_fill data rest v Hok).
  - rewrite setslice_all.
    2: { rewrite len_replicate. lia. }
    apply _join_group_append; [done|]. lia.
Qed.

Lemma X9_join_group_witness :
  Forall (line_ok Sample.header_region) [(0, 4, 5); (5, 7, 8)]%Z
  ∧ MessageHeader._join_group Sample.header_region
      [(0, 4, 5); (5, 7, 8)]%Z 1
    = Some (Py.b " v w").
Proof.
  assert (Hok : Forall (line_ok Sample.header_region)
                  [(0, 4, 5); (5, 7, 8)]%Z).
  { repeat (constructor; [unfold line_ok, Py.len; simpl; lia|]).
    constructor. }
  split; [exact Hok|].
  apply (X9_join_group Sample.header_region 0 4 5 [(5, 7, 8)%Z] 1 Hok);
    [lia|lia|by left].
Defined.

(** ** More on the dict backend *)
Section LoaderExtras.

Context {FlagT : Type} {FlagT_eq : EqDecision FlagT}
  {FlagT_countable : Countable FlagT}.
Variable Flag : bytes -> FlagT.
Variable Recent : FlagT.
Context {float_t datetime : Type}.
Variable float : bytes -> Result float_t.
Variable fromtimestamp : float_t -> Result datetime.
Variable resource_listdir : string -> Result (list string).

Local Abbreviation step resource_stream :=
  (dict._load_demo_mailbox_step Flag Recent float fromtimestamp
     resource_stream).


(** X12. [_load_demo_mailbox] never opens a file whose name begins with a
    dot: two sets of packaged files that agree on every file whose name
    does not begin with a dot give the same result. *)
Theorem X12_dotfiles_are_not_opened
    (resource_stream resource_stream' : string -> Result bytes)
    (name : string) (mbx : dict.MailboxData) :
  (∀ msg_name,
     message_file msg_name ->
     resource_stream (Py.path_join (Py.path_join "demo" name) msg_name)
     = resource_stream' (Py.path_join (Py.path_join "demo" name) msg_name)) ->
  dict._load_demo_mailbox Flag Recent float fromtimestamp resource_listdir
    resource_stream name mbx
  = dict._load_demo_mailbox Flag Recent float fromtimestamp resource_listdir
      resource_stream' name mbx.
Proof.
  intros Hagree. unfold dict._load_demo_mailbox.
  destruct (resource_listdir _) as [names|]; [|done].
  cbn [mbind Result_bind]. apply for_each_ext. intros mbx1 n _.
  unfold dict._load_demo_mailbox_step.
  case_bool_decide; [done|].
  destruct (Py.startswith n ".") eqn:Hdot; [done|].
  unfold dict._load_demo_message. by rewrite Hagree.
Qed.

End LoaderExtras.


Lemma X12_dotfiles_are_not_opened_witness :
  dict._load_demo_mailbox Sample.Flag Sample.Recent Sample.float
    Sample.fromtimestamp Sample.resource_listdir Sample.resource_stream
    "INBOX" dict.MailboxData_new
  = dict._load_demo_mailbox Sample.Flag Sample.Recent Sample.float
      Sample.fromtimestamp Sample.resource_listdir
      Sample.resource_stream_strict "INBOX" dict.MailboxData_new.
Proof.
  apply (X12_dotfiles_are_not_opened Sample.Flag Sample.Recent Sample.float
           Sample.fromtimestamp Sample.resource_listdir
           Sample.resource_stream Sample.resource_stream_strict "INBOX"
           dict.MailboxData_new).
  intros msg_name Hfile. unfold Sample.resource_stream_strict.
  case_bool_decide as Hpath; [|reflexivity].
  exfalso. unfold message_file in Hfile.
  change (Py.path_join "demo" "INBOX") with "demo/INBOX"%string in Hpath.
  unfold Py.path_join in Hpath.
  destruct (Py.startswith msg_name "/") eqn:Hslash.
  - subst msg_name. vm_compute in Hslash. discriminate Hslash.
  - simpl in Hpath. injection Hpath as Hpath.
    change (msg_name = ".hidden"%string) in Hpath. subst msg_name.
    vm_compute in Hfile. discriminate Hfile.
Defined.

Section CacheFacts.

Context {FlagT : Type} {FlagT_eq : EqDecision FlagT}
  {FlagT_countable : Countable FlagT}.
Variable Flag : bytes -> FlagT.
Variable Recent : FlagT.
Context {float_t datetime : Type}.
Variable float : bytes -> Result float_t.
Variable fromtimestamp : float_t -> Result datetime.
Variable resource_listdir : string -> Result (list string).
Variable resource_stream : string -> Result bytes.

Local Abbreviation login :=
  (dict.login Flag Recent float fromtimestamp resource_listdir
     resource_stream).

(** How [login] returns a session. *)
Lemma login_inv (credentials : dict.AuthenticationCredentials)
    (config : dict.Config) (session : dict.Session) :
  login credentials config = Return session ->
  dict.authcid credentials = dict.demo_user config
  ∧ dict.demo_password config ≠ ""
  ∧ dict.check_secret credentials (dict.demo_password config) = true
  ∧ ((dict.set_cache config !! dict.authcid credentials
      = Some (dict.mailbox_set session)
      ∧ dict.config session = config)
     ∨ (dict.set_cache config !! dict.authcid credentials = None
        ∧ dict.config session
          = {| dict.demo_data := dict.demo_data config;
               dict.demo_user := dict.demo_user config;
               dict.demo_password := dict.demo_password config;
               dict.set_cache :=
                 <[dict.authcid credentials := dict.mailbox_set session]>
                   (dict.set_cache config) |})).
Proof.
  unfold dict.login, dict.get_password.
  case_bool_decide as Huser; [|done]. cbn [mbind Result_bind].
  case_bool_decide as Hpass; [done|].
  destruct (dict.check_secret credentials (dict.demo_password config))
    eqn:Hcheck; [|done].
  cbn [negb orb]. intros Hsession. do 3 (split; [done|]).
  destruct (dict.set_cache config !! dict.authcid credentials)
    as [mailbox_set|] eqn:Hcache.
  - injection Hsession as <-. by left.
  - right. split; [done|].
    destruct (if dict.demo_data config then _ else _) as [mailbox_set|];
      [|done].
    cbn [mbind Result_bind] in Hsession. by injection Hsession as <-.
Qed.

Lemma login_cached (credentials : dict.AuthenticationCredentials)
    (config : dict.Config) (mailbox_set : gmap string dict.MailboxData) :
  dict.authcid credentials = dict.demo_user config ->
  dict.demo_password config ≠ "" ->
  dict.check_secret credentials (dict.demo_password config) = true ->
  dict.set_cache config !! dict.authcid credentials = Some mailbox_set ->
  login credentials config
  = Return {| dict.config := config; dict.mailbox_set := mailbox_set |}.
Proof.
  intros Huser Hpass Hcheck Hcache.
  unfold dict.login, dict.get_password.
  rewrite bool_decide_eq_true_2 by done. cbn [mbind Result_bind].
  rewrite bool_decide_eq_false_2 by done. rewrite Hcheck. cbn [negb orb].
  by rewrite Hcache.
Qed.

(** X10. The session [login] returns holds the configuration with the
    mailbox set of the session cached under the user id; user, password and
    demo-data setting are as before, and so is what is cached for any other
    user id.  A later login of the same user id whose secret check succeeds,
    made with that configuration, returns a session with the same mailbox
    set and leaves the configuration as it is: the mailbox data is shared
    and the demo data are not loaded again. *)
Theorem X10_login_shares_mailbox_set
    (credentials : dict.AuthenticationCredentials) (config : dict.Config)
    (session : dict.Session) :
  login credentials config = Return session ->
  dict.set_cache (dict.config session) !! dict.authcid credentials
  = Some (dict.mailbox_set session)
  ∧ dict.demo_user (dict.config session) = dict.demo_user config
  ∧ dict.demo_password (dict.config session) = dict.demo_password config
  ∧ dict.demo_data (dict.config session) = dict.demo_data config
  ∧ (∀ user,
       user ≠ dict.authcid credentials ->
       dict.set_cache (dict.config session) !! user
       = dict.set_cache config !! user)
  ∧ (∀ credentials',
       dict.authcid credentials' = dict.authcid credentials ->
       dict.check_secret credentials' (dict.demo_password config) = true ->
       login credentials' (dict.config session)
       = Return {| dict.config := dict.config session;
                   dict.mailbox_set := dict.mailbox_set session |}).
Proof.
  intros Hsession.
  apply login_inv in Hsession
    as (Huser & Hpass & Hcheck & [[Hcache ->]|[Hcache ->]]).
  - do 4 (split; [done|]). split; [done|].
    intros credentials' Huser' Hcheck'.
    apply login_cached; [congruence|done|done|by rewrite Huser'].
  - cbn [dict.set_cache dict.demo_user dict.demo_password dict.demo_data].
    split; [apply lookup_insert_eq|]. do 3 (split; [done|]).
    split; [by intros user Hne; rewrite lookup_insert_ne|].
    intros credentials' Huser' Hcheck'.
    apply login_cached;
      cbn [dict.set_cache dict.demo_user dict.demo_password];
      [congruence|done|done|].
    rewrite Huser'. apply lookup_insert_eq.
Qed.

End CacheFacts.

Lemma X10_login_shares_mailbox_set_witness :
  ∃ session,
    dict.login Sample.Flag Sample.Recent Sample.float Sample.fromtimestamp
      Sample.resource_listdir Sample.resource_stream
      (Sample.credentials "demouser" "demopass")
      (Sample.config "demouser" "demopass")
    = Return session
    ∧ dict.login Sample.Flag Sample.Recent Sample.float Sample.fromtimestamp
        Sample.resource_listdir Sample.resource_stream
        (Sample.credentials "demouser" "demopass") (dict.config session)
      = Return {| dict.config := dict.config session;
                  dict.mailbox_set := dict.mailbox_set session |}.
Proof.
  destruct (dict.login Sample.Flag Sample.Recent Sample.float
              Sample.fromtimestamp Sample.resource_listdir
              Sample.resource_stream
              (Sample.credentials "demouser" "demopass")
              (Sample.config "demouser" "demopass"))
    as [session|e] eqn:Hlogin.
  2:{ exfalso.
      assert (Hreturns :
                match dict.login Sample.Flag Sample.Recent Sample.float
                        Sample.fromtimestamp Sample.resource_listdir
                        Sample.resource_stream
                        (Sample.credentials "demouser" "demopass")
                        (Sample.config "demouser" "demopass")
                with Return _ => true | Raise _ => false end = true)
        by (vm_compute; reflexivity).
      rewrite Hlogin in Hreturns. discriminate Hreturns. }
  exists session. split; [reflexivity|].
  destruct (X10_login_shares_mailbox_set Sample.Flag Sample.Recent
              Sample.float Sample.fromtimestamp Sample.resource_listdir
              Sample.resource_stream
              (Sample.credentials "demouser" "demopass")
              (Sample.config "demouser" "demopass") session Hlogin)
    as (_ & _ & _ & _ & _ & Hagain).
  apply Hagain; reflexivity.
Defined.
